(** * Symbol resolution and signal-to-order translation of [MT5Handler]

    A shallow embedding of [src/app/mt5_handler.py], of the webhook of
    [src/app/server.py], and the properties the specification states
    about them.

    Conventions of the embedding.
    - A Python [str] is a [string]; the embedding covers ASCII symbols
      (code points below 128), on which [str.upper] changes exactly the
      letters [a]-[z] and [str.strip] removes the ASCII white space.
    - A Python [float] is a binary64 [float] (prices, volumes); the
      similarity scores of [difflib] are exact rationals (see [Difflib]).
    - [self.symbol_cache] is a [gmap string string], [self.broker_symbols]
      a [list string]; a signal is a [gmap string PyVal].
    - The [MetaTrader5] module is an interface over an abstract terminal
      state; every call may answer or raise, and is recorded in a call log.
    - Methods of the handler run in a state-and-exception monad over the
      handler's fields, the terminal, the call log and the log lines. A log
      line is recorded by what it reports, not by its text.
    - [get_symbol_info] is not embedded: it reaches the handler's state
      only through [map_symbol].
    - Of the server, [webhook] is embedded, over the state of the handler
      it drives; what [request.get_json()] gives is its input, and the
      lines of the server's own logger are not recorded. *)

From Stdlib Require Import ZArith QArith Floats String Ascii List Bool Lia.
From stdpp Require Import gmap strings list.

Set Warnings "-inexact-float".
Open Scope string_scope.

(* ===================================================================== *)
(** ** Python string methods on ASCII strings                             *)
(* ===================================================================== *)

Module PyStr.

Definition code (c : ascii) : N := N_of_ascii c.

Definition is_lower (c : ascii) : bool := ((97 <=? code c) && (code c <=? 122))%N.
Definition is_upper (c : ascii) : bool := ((65 <=? code c) && (code c <=? 90))%N.
Definition is_digit (c : ascii) : bool := ((48 <=? code c) && (code c <=? 57))%N.

(** White space removed by [str.strip()]: TAB, LF, VT, FF, CR, the four
    separators FS, GS, RS, US and the space. *)
Definition is_space (c : ascii) : bool :=
  (((9 <=? code c) && (code c <=? 13)) || ((28 <=? code c) && (code c <=? 32)))%N.

Definition upper_char (c : ascii) : ascii :=
  if is_lower c then ascii_of_N (code c - 32) else c.

(** [s.upper()] *)
Fixpoint upper (s : string) : string :=
  match s with
  | EmptyString => EmptyString
  | String c r => String (upper_char c) (upper r)
  end.

(** [s.lstrip()], [s.rstrip()], [s.strip()] *)
Fixpoint lstrip (s : string) : string :=
  match s with
  | EmptyString => EmptyString
  | String c r => if is_space c then lstrip r else s
  end.

Fixpoint rstrip (s : string) : string :=
  match s with
  | EmptyString => EmptyString
  | String c r =>
      match rstrip r with
      | EmptyString => if is_space c then EmptyString else String c EmptyString
      | r' => String c r'
      end
  end.

Definition strip (s : string) : string := rstrip (lstrip s).

(** [s.startswith(p)] *)
Definition startswith (s p : string) : bool := String.prefix p s.

(** [s.endswith(x)]: [x] is [s] itself or a suffix of its tail. *)
Fixpoint endswith (s x : string) : bool :=
  String.eqb s x ||
  match s with
  | EmptyString => false
  | String _ r => endswith r x
  end.

(** [x in s] *)
Fixpoint contains (s x : string) : bool :=
  String.prefix x s ||
  match s with
  | EmptyString => false
  | String _ r => contains r x
  end.

(** [s[:n]] and [s[n:]] for [0 <= n]; [s[:-k]] is [slice_to s (len s - k)]. *)
Definition slice_to (s : string) (n : nat) : string := String.substring 0 n s.
Definition slice_from (s : string) (n : nat) : string :=
  String.substring n (String.length s - n) s.
Definition drop_last (s : string) (k : nat) : string :=
  slice_to s (String.length s - k).

(** Keep the characters that satisfy [p]. *)
Fixpoint keep (p : ascii -> bool) (s : string) : string :=
  match s with
  | EmptyString => EmptyString
  | String c r => if p c then String c (keep p r) else keep p r
  end.

(** [s.replace(c, '')] for a one-character [c]. *)
Definition remove_char (c : ascii) (s : string) : string :=
  keep (fun d => negb (Ascii.eqb d c)) s.

(** [x in l] for a list of strings. *)
Definition mem (x : string) (l : list string) : bool :=
  existsb (String.eqb x) l.

(** Truth value of a string: [not s] is [is_empty s]. *)
Definition is_empty (s : string) : bool :=
  match s with EmptyString => true | _ => false end.

End PyStr.
Import PyStr.

(* ===================================================================== *)
(** ** [MT5Handler.normalize] (lines 181-208)                             *)
(* ===================================================================== *)

Definition suffixes_to_remove : list string :=
["M"; "PRO"; ".PRO"; "_PRO"; ".M"; "_M"; "."; "-"; "_"].
Definition prefixes_to_remove : list string := ["MT5_"; "FX_"].

(** The first loop: the first suffix of the list that [normalized] ends
  with is cut off, and the loop stops. *)
Fixpoint remove_suffix (suffixes : list string) (normalized : string) : string :=
match suffixes with
| [] => normalized
| suffix :: rest =>
    if endswith normalized suffix
    then drop_last normalized (String.length suffix)
    else remove_suffix rest normalized
end.

(** The second loop, on prefixes. *)
Fixpoint remove_prefix (prefixes : list string) (normalized : string) : string :=
match prefixes with
| [] => normalized
| prefix :: rest =>
    if startswith normalized prefix
    then slice_from normalized (String.length prefix)
    else remove_prefix rest normalized
end.

(** The character class [[A-Z0-9]]; [re.sub(r'[^A-Z0-9]', '', s)] keeps it. *)
Definition is_AZ09 (c : ascii) : bool := is_upper c || is_digit c.

Definition normalize (s : string) : string :=
if is_empty s then s
else
  let normalized := upper s in
  let normalized := remove_suffix suffixes_to_remove normalized in
  let normalized := remove_prefix prefixes_to_remove normalized in
  keep is_AZ09 normalized.

(* ===================================================================== *)
(** ** [difflib.get_close_matches] (Python standard library)              *)
(* ===================================================================== *)

(** [fuzzy_map] calls [difflib.get_close_matches]; the module below follows
    [Lib/difflib.py] ([SequenceMatcher] without a junk predicate, with the
    default [autojunk]) and [heapq.nlargest].

    A similarity score is the double [2.0 * M / T] in Python. It is kept
    here as the exact rational [2 M / T]: for [T] below [2^26] rounding to
    binary64 is injective and monotone on these fractions, and the score
    reaches the double [0.6] exactly when [2 M / T >= 6/10], so tests and
    ranking agree with the floating-point ones. *)

Module Difflib.

Definition chars (s : string) : list ascii := list_ascii_of_string s.

Definition count (c : ascii) (b : list ascii) : nat :=
  length (List.filter (Ascii.eqb c) b).

(** [__chain_b]: [b2j] maps an element of [b] to its indices, in increasing
    order; when [len(b) >= 200] the elements that occur more than
    [len(b) // 100 + 1] times are purged. *)
Definition popular (b : list ascii) (c : ascii) : bool :=
  (200 <=? length b)%nat && (length b / 100 + 1 <? count c b)%nat.

Fixpoint indices_from (i : nat) (c : ascii) (b : list ascii) : list nat :=
  match b with
  | [] => []
  | d :: r => if Ascii.eqb c d then i :: indices_from (S i) c r
              else indices_from (S i) c r
  end.

Definition b2j (b : list ascii) (c : option ascii) : list nat :=
  match c with
  | Some c => if popular b c then [] else indices_from 0 c b
  | None => []
  end.

(** A [Match(a, b, size)] triple. *)
Definition Match : Type := (nat * nat * nat)%type.
Definition size (m : Match) : nat := snd m.

Definition upd (f : nat -> nat) (j k : nat) : nat -> nat :=
  fun x => if (x =? j)%nat then k else f x.

(** The inner loop of [find_longest_match]: [for j in b2j.get(a[i], nothing)].
    A lookup of [j2len] at [j - 1] for [j = 0] misses and gives [0]. *)
Fixpoint flm_inner (js : list nat) (blo bhi i : nat)
    (j2len newj2len : nat -> nat) (best : Match) : (nat -> nat) * Match :=
  match js with
  | [] => (newj2len, best)
  | j :: rest =>
      if (j <? blo)%nat then flm_inner rest blo bhi i j2len newj2len best
      else if (bhi <=? j)%nat then (newj2len, best)
      else
        let k := (match j with O => O | S j' => j2len j' end + 1)%nat in
        let best' := if (size best <? k)%nat
                     then ((i + 1 - k)%nat, (j + 1 - k)%nat, k) else best in
        flm_inner rest blo bhi i j2len (upd newj2len j k) best'
  end.

(** The outer loop: [for i in range(alo, ahi)]. *)
Fixpoint flm_outer (a b : list ascii) (is_ : list nat) (blo bhi : nat)
    (j2len : nat -> nat) (best : Match) : Match :=
  match is_ with
  | [] => best
  | i :: rest =>
      let '(newj2len, best') :=
        flm_inner (b2j b (a !! i)) blo bhi i j2len (fun _ => O) best in
      flm_outer a b rest blo bhi newj2len best'
  end.

Definition same_elt (x y : option ascii) : bool :=
  match x, y with
  | Some c, Some d => Ascii.eqb c d
  | _, _ => false
  end.

(** The two extension loops over elements that are not junk (no element is
    junk here, so the two loops over junk elements never run). *)
Fixpoint extend_left (fuel : nat) (a b : list ascii) (alo blo : nat)
    (m : Match) : Match :=
  match fuel with
  | O => m
  | S fuel' =>
      let '(besti, bestj, bestsize) := m in
      if (alo <? besti)%nat && (blo <? bestj)%nat
         && same_elt (a !! (besti - 1)%nat) (b !! (bestj - 1)%nat)
      then extend_left fuel' a b alo blo
             ((besti - 1)%nat, (bestj - 1)%nat, (bestsize + 1)%nat)
      else m
  end.

Fixpoint extend_right (fuel : nat) (a b : list ascii) (ahi bhi : nat)
    (m : Match) : Match :=
  match fuel with
  | O => m
  | S fuel' =>
      let '(besti, bestj, bestsize) := m in
      if (besti + bestsize <? ahi)%nat && (bestj + bestsize <? bhi)%nat
         && same_elt (a !! (besti + bestsize)%nat) (b !! (bestj + bestsize)%nat)
      then extend_right fuel' a b ahi bhi (besti, bestj, (bestsize + 1)%nat)
      else m
  end.

Definition find_longest_match (a b : list ascii) (alo ahi blo bhi : nat) : Match :=
  let m := flm_outer a b (seq alo (ahi - alo)) blo bhi (fun _ => O) (alo, blo, O) in
  let m := extend_left (length a) a b alo blo m in
  extend_right (length a) a b ahi bhi m.

(** [get_matching_blocks]: the blocks found for [a[alo:ahi]] and
    [b[blo:bhi]], then for the parts to the left and to the right of the
    longest one. Each step shortens the range of [a], so [len(a) + 1] steps
    suffice. Sorting the blocks and merging adjacent ones keeps their total
    size, which is all [ratio] reads. *)
Fixpoint blocks (fuel : nat) (a b : list ascii) (alo ahi blo bhi : nat) : list Match :=
  match fuel with
  | O => []
  | S fuel' =>
      let '(i, j, k) := find_longest_match a b alo ahi blo bhi in
      if (k =? 0)%nat then []
      else
        (i, j, k)
        :: (if (alo <? i)%nat && (blo <? j)%nat
            then blocks fuel' a b alo i blo j else [])
        ++ (if (i + k <? ahi)%nat && (j + k <? bhi)%nat
            then blocks fuel' a b (i + k)%nat ahi (j + k)%nat bhi else [])
  end.

Definition get_matching_blocks (a b : list ascii) : list Match :=
  blocks (S (length a)) a b 0 (length a) 0 (length b).

(** [_calculate_ratio(matches, length)] *)
Definition calculate_ratio (matches length : nat) : Q :=
  match length with
  | O => 1%Q
  | S _ => (Z.of_nat (2 * matches) # Pos.of_nat length)%Q
  end.

(** [SequenceMatcher(None, a, b).ratio()] *)
Definition ratio (a b : string) : Q :=
  let matches := list_sum (map size (get_matching_blocks (chars a) (chars b))) in
  calculate_ratio matches (String.length a + String.length b).

(** [quick_ratio()]: [avail] starts from the counts in [b]. *)
Fixpoint quick_matches (a : list ascii) (avail : ascii -> Z) (matches : nat) : nat :=
  match a with
  | [] => matches
  | elt :: r =>
      let numb := avail elt in
      let avail' := fun c => if Ascii.eqb c elt then (numb - 1)%Z else avail c in
      quick_matches r avail' (if (0 <? numb)%Z then S matches else matches)
  end.

Definition quick_ratio (a b : string) : Q :=
  let fullbcount := fun c => Z.of_nat (count c (chars b)) in
  calculate_ratio (quick_matches (chars a) fullbcount 0)
                  (String.length a + String.length b).

(** [real_quick_ratio()] *)
Definition real_quick_ratio (a b : string) : Q :=
  let la := String.length a in
  let lb := String.length b in
  calculate_ratio (Nat.min la lb) (la + lb).

(** Order of the pairs [(score, x)]: by score, then by the string. *)
Definition pair_lt (p q : Q * string) : bool :=
  match Qcompare (fst p) (fst q) with
  | Lt => true
  | Gt => false
  | Eq => String.ltb (snd p) (snd q)
  end.

(** [heapq.nlargest(n, result)], which is [sorted(result, reverse=True)[:n]]
    (the pairs are totally ordered, so the sorted list is determined). *)
Fixpoint insert_desc (x : Q * string) (l : list (Q * string)) : list (Q * string) :=
  match l with
  | [] => [x]
  | y :: r => if pair_lt x y then y :: insert_desc x r else x :: l
  end.

Definition sort_desc (l : list (Q * string)) : list (Q * string) :=
  foldr insert_desc [] l.

Definition nlargest (n : nat) (l : list (Q * string)) : list (Q * string) :=
  take n (sort_desc l).

(** The test of the loop over [possibilities]. *)
Definition close_enough (cutoff : Q) (word x : string) : bool :=
  Qle_bool cutoff (real_quick_ratio x word)
  && Qle_bool cutoff (quick_ratio x word)
  && Qle_bool cutoff (ratio x word).

Definition scored (cutoff : Q) (word : string) (possibilities : list string)
  : list (Q * string) :=
  flat_map (fun x => if close_enough cutoff word x then [(ratio x word, x)] else [])
           possibilities.

(** [get_close_matches(word, possibilities, n, cutoff)]; [None] stands for
    the [ValueError] raised on [n <= 0] or a cutoff outside [[0, 1]]. *)
Definition get_close_matches (word : string) (possibilities : list string)
    (n : nat) (cutoff : Q) : option (list string) :=
  if (n =? 0)%nat then None
  else if negb (Qle_bool 0 cutoff && Qle_bool cutoff 1) then None
  else Some (map snd (nlargest n (scored cutoff word possibilities))).

End Difflib.

(* ===================================================================== *)
(** ** Python values of a signal, and the broker's records                *)
(* ===================================================================== *)

(** A value found in a signal dictionary. Of a list or a dictionary only
    emptiness is observed. *)
Inductive PyVal : Type :=
| PNone
| PBool (b : bool)
| PInt (z : Z)
| PFloat (f : float)
| PStr (s : string)
| PSeq (empty : bool).

(** [bool(v)] *)
Definition truthy (v : PyVal) : bool :=
  match v with
  | PNone => false
  | PBool b => b
  | PInt z => negb (z =? 0)%Z
  | PFloat f => negb (f =? 0)%float
  | PStr s => negb (is_empty s)
  | PSeq empty => negb empty
  end.

(** [v == s] for a string literal [s]. *)
Definition is_str (v : PyVal) (s : string) : bool :=
  match v with
  | PStr x => String.eqb x s
  | _ => false
  end.

(** [float(z)] for an [int]: the nearest double (ties to even); [None] is
    the [OverflowError] of an integer beyond the doubles. *)
Definition float_of_int (z : Z) : option float :=
  match binary_normalize prec emax z 0 false with
  | S754_infinity _ => None
  | sf => Some (SF2Prim sf)
  end.

(** A signal is the dictionary handed to [send_order]. *)
Abbreviation Signal := (gmap string PyVal).

(** [signal.get(key)] and [signal.get(key, default)] *)
Definition signal_get (signal : Signal) (key : string) (dflt : PyVal) : PyVal :=
  default dflt (signal !! key).

(** Constants of the [MetaTrader5] package. *)
Definition ORDER_TYPE_BUY : Z := 0.
Definition ORDER_TYPE_SELL : Z := 1.
Definition ORDER_TYPE_BUY_LIMIT : Z := 2.
Definition ORDER_TYPE_SELL_LIMIT : Z := 3.
Definition ORDER_TYPE_BUY_STOP : Z := 4.
Definition ORDER_TYPE_SELL_STOP : Z := 5.
Definition TRADE_ACTION_DEAL : Z := 1.
Definition TRADE_ACTION_PENDING : Z := 5.
Definition ORDER_TIME_GTC : Z := 0.
Definition ORDER_FILLING_FOK : Z := 0.
Definition TRADE_RETCODE_DONE : Z := 10009.

(** [mt5.symbol_info(...)]: the attributes the handler reads;
    [info_description = None] when the attribute is missing. *)
Record SymbolInfo : Type := {
  info_name : string;
  info_description : option string;
  info_visible : bool
}.

(** [mt5.symbol_info_tick(...)] *)
Record Tick : Type := { bid : float; ask : float }.

(** The result of [mt5.order_send(...)] *)
Record OrderSendResult : Type := {
  retcode : Z;
  res_comment : string;
  res_order : Z
}.

(** An element of [mt5.positions_get(...)] *)
Record TradePosition : Type := {
  pos_ticket : Z;
  pos_symbol : string;
  pos_type : Z;
  pos_volume : float
}.

(** The request dictionary handed to [mt5.order_send]. [send_order] sets
    ["sl"] and ["tp"] and no ["position"]; [close_positions] sets
    ["position"] and neither ["sl"] nor ["tp"]. *)
Record OrderRequest : Type := {
  req_action : Z;
  req_symbol : PyVal;
  req_volume : float;
  req_type : Z;
  req_position : option Z;
  req_price : float;
  req_sl : option float;
  req_tp : option float;
  req_deviation : Z;
  req_magic : Z;
  req_comment : string;
  req_type_time : Z;
  req_type_filling : Z
}.

(** A call of a [mt5] function either answers or raises. *)
Inductive reply (A : Type) : Type :=
| Answer (a : A)
| Raises.
Arguments Answer {A} a.
Arguments Raises {A}.

(** The [MetaTrader5] module over a terminal state [B]. [mt5_initialize]
    and [mt5_login] stand for the calls with the handler's credentials. *)
Record MT5 (B : Type) : Type := {
  mt5_initialize : B -> reply bool * B;
  mt5_login : B -> reply bool * B;
  mt5_shutdown : B -> reply unit * B;
  mt5_last_error : B -> reply unit * B;
  mt5_symbols_get : B -> reply (option (list SymbolInfo)) * B;
  mt5_symbol_info : PyVal -> B -> reply (option SymbolInfo) * B;
  mt5_symbol_info_tick : PyVal -> B -> reply (option Tick) * B;
  mt5_symbol_select : PyVal -> B -> reply bool * B;
  mt5_order_send : OrderRequest -> B -> reply (option OrderSendResult) * B;
  mt5_positions_get : PyVal -> B -> reply (option (list TradePosition)) * B
}.
Arguments mt5_initialize {B}.
Arguments mt5_login {B}.
Arguments mt5_shutdown {B}.
Arguments mt5_last_error {B}.
Arguments mt5_symbols_get {B}.
Arguments mt5_symbol_info {B}.
Arguments mt5_symbol_info_tick {B}.
Arguments mt5_symbol_select {B}.
Arguments mt5_order_send {B}.
Arguments mt5_positions_get {B}.

(** The call log: one entry per call of a [mt5] function. *)
Inductive Call : Type :=
| CInitialize
| CLogin
| CShutdown
| CLastError
| CSymbolsGet
| CSymbolInfo (symbol : PyVal)
| CSymbolInfoTick (symbol : PyVal)
| CSymbolSelect (symbol : PyVal)
| COrderSend (request : OrderRequest)
| CPositionsGet (symbol : PyVal).

Definition is_order_send (c : Call) : bool :=
  match c with COrderSend _ => true | _ => false end.

(** The requests submitted to the broker, in order. *)
Definition submissions (cs : list Call) : list OrderRequest :=
  flat_map (fun c => match c with COrderSend r => [r] | _ => [] end) cs.

(** The strategy named by a [RESULT:] line of [map_symbol]. *)
Inductive Strategy : Type :=
| Cached | ExactMatch | CaseMatch | NormalizedMatch | PrefixMatch
| ContainsMatch | FuzzyMatch | DescriptionMatch | TransformMatch.

(** The log lines that classify an outcome. Banners and echoes of the
    input ([NEW WEBHOOK RECEIVED], the rulers, [SENDING ORDER TO MT5...],
    [CLOSE_REQUEST], [CLOSE_SETUP]) carry no outcome and are left out. *)
Inductive LogLine : Type :=
| ErrConnect                         (* Failed to initialize / login / Error connecting *)
| InfoConnected                      (* SUCCESS: Connected to MT5 *)
| InfoDisconnected                   (* DISCONNECTED: MT5 connection closed *)
| InfoSymbolsCached (n : nat)        (* SYMBOL_CACHE: Cached n broker symbols *)
| ErrSymbolCache                     (* SYMBOL_CACHE_ERROR *)
| ErrEmptySymbol                     (* SYMBOL_MAP_ERROR: Empty symbol provided *)
| InfoMapping (symbol : string)      (* SYMBOL_MAPPING: 'symbol' *)
| InfoResult (how : Strategy) (symbol result : string)  (* RESULT: ... *)
| WarnNoBrokerSymbols                (* SYMBOL_MAP_WARNING: No broker symbols available *)
| WarnNoMapping (symbol : string)    (* RESULT: No mapping found, using as-is *)
| ErrFuzzyMatch                      (* FUZZY_MATCH_ERROR *)
| ErrDescriptionMatch                (* DESCRIPTION_MATCH_ERROR *)
| ErrNotConnected                    (* TRADE_ERROR: MT5 is not connected *)
| ErrNotTradeable (symbol : PyVal)   (* SYMBOL_ERROR: not tradeable *)
| ErrUnsupportedAction (action : PyVal)  (* UNSUPPORTED ACTION *)
| ErrPrice (symbol : PyVal)          (* PRICE ERROR: Cannot get price *)
| ErrOrderFailed (code : Z)          (* ORDER FAILED *)
| InfoOrderSuccess (ticket : Z)      (* SUCCESS (Ticket: ...) *)
| ErrException                       (* EXCEPTION ERROR *)
| WarnMarketWatch (symbol : PyVal)   (* SYMBOL_WARNING: Could not add to Market Watch *)
| ErrSymbolVerify                    (* SYMBOL_VERIFY_ERROR *)
| InfoNoPositions                    (* CLOSE_INFO: No positions to close *)
| InfoFoundPositions (n : nat)       (* CLOSE_INFO: Found n positions to close *)
| ErrCloseFailed (ticket : Z)        (* CLOSE_ERROR: Failed to close position *)
| InfoCloseSuccess (ticket : Z)      (* CLOSE_SUCCESS: Closed position *)
| ErrCloseException                  (* CLOSE_ERROR: Exception occurred *)
| InfoCacheCleared.                  (* SYMBOL_CACHE: Cache cleared *)

(* ===================================================================== *)
(** ** The handler's state and the monad of its methods                   *)
(* ===================================================================== *)

(** The fields of an [MT5Handler] that its methods read and write, the
    terminal behind [mt5], and the two logs. *)
Record World (B : Type) : Type := {
  connected : bool;
  symbol_cache : gmap string string;
  broker_symbols : list string;
  terminal : B;
  calls : list Call;
  logs : list LogLine
}.
Arguments connected {B}.
Arguments symbol_cache {B}.
Arguments broker_symbols {B}.
Arguments terminal {B}.
Arguments calls {B}.
Arguments logs {B}.

(** A method returns a value or leaves by an exception. *)
Inductive outcome (A : Type) : Type :=
| Ret (a : A)
| Exc.
Arguments Ret {A} a.
Arguments Exc {A}.

Definition M (B A : Type) : Type := World B -> outcome A * World B.

Section Monad.
Context {B : Type}.

Definition ret {A : Type} (a : A) : M B A := fun w => (Ret a, w).

Definition raise {A : Type} : M B A := fun w => (Exc, w).

Definition bind {A C : Type} (m : M B A) (k : A -> M B C) : M B C :=
  fun w =>
    match m w with
    | (Ret a, w') => k a w'
    | (Exc, w') => (Exc, w')
    end.

(** [try: body except Exception: handler] *)
Definition try_except {A : Type} (body handler : M B A) : M B A :=
  fun w =>
    match body w with
    | (Ret a, w') => (Ret a, w')
    | (Exc, w') => handler w'
    end.

Definition get {A : Type} (f : World B -> A) : M B A := fun w => (Ret (f w), w).

(** Assignments to the fields of [self]. *)
Definition with_connected (c : bool) (w : World B) : World B :=
  {| connected := c; symbol_cache := symbol_cache w;
     broker_symbols := broker_symbols w; terminal := terminal w;
     calls := calls w; logs := logs w |}.

Definition with_symbol_cache (m : gmap string string) (w : World B) : World B :=
  {| connected := connected w; symbol_cache := m;
     broker_symbols := broker_symbols w; terminal := terminal w;
     calls := calls w; logs := logs w |}.

Definition with_broker_symbols (l : list string) (w : World B) : World B :=
  {| connected := connected w; symbol_cache := symbol_cache w;
     broker_symbols := l; terminal := terminal w;
     calls := calls w; logs := logs w |}.

(** The terminal moves to [b]. *)
Definition with_terminal (b : B) (w : World B) : World B :=
  {| connected := connected w; symbol_cache := symbol_cache w;
     broker_symbols := broker_symbols w; terminal := b;
     calls := calls w; logs := logs w |}.

(** A line appended to the log. *)
Definition add_log (l : LogLine) (w : World B) : World B :=
  {| connected := connected w; symbol_cache := symbol_cache w;
     broker_symbols := broker_symbols w; terminal := terminal w;
     calls := calls w; logs := logs w ++ [l] |}.

(** A call made: the terminal moves to [b] and the call is recorded. *)
Definition add_call (c : Call) (b : B) (w : World B) : World B :=
  {| connected := connected w; symbol_cache := symbol_cache w;
     broker_symbols := broker_symbols w; terminal := b;
     calls := calls w ++ [c]; logs := logs w |}.

Definition set_connected (c : bool) : M B unit :=
  fun w => (Ret tt, with_connected c w).

Definition set_symbol_cache (m : gmap string string) : M B unit :=
  fun w => (Ret tt, with_symbol_cache m w).

Definition set_broker_symbols (l : list string) : M B unit :=
  fun w => (Ret tt, with_broker_symbols l w).

(** [logger.info / warning / error] *)
Definition log (l : LogLine) : M B unit :=
  fun w => (Ret tt, add_log l w).

(** A call of a [mt5] function: the answer is returned or the exception
    raised. *)
Definition call {A : Type} (c : Call) (f : B -> reply A * B) : M B A :=
  fun w =>
    let '(r, b) := f (terminal w) in
    match r with
    | Answer a => (Ret a, add_call c b w)
    | Raises => (Exc, add_call c b w)
    end.

(** A missing value ([None] where an object is needed) is an exception. *)
Definition lift_option {A : Type} (o : option A) : M B A :=
  match o with
  | Some a => ret a
  | None => raise
  end.

End Monad.

Declare Scope monad_scope.
Notation "x <- m ;; k" := (bind m (fun x => k))
  (at level 100, m at next level, right associativity) : monad_scope.
Notation "m ;;; k" := (bind m (fun _ => k))
  (at level 100, right associativity) : monad_scope.
Delimit Scope monad_scope with monad.
Open Scope monad_scope.

(* ===================================================================== *)
(** ** Pure parts of the resolution cascade                               *)
(* ===================================================================== *)

(** [fuzzy_map] (lines 210-230). The inner loops return the first broker
    symbol whose upper case is the first match that has one. The [except]
    branch answers [None] as well; with [n = 3] and the cutoff [0.6]
    [get_close_matches] does not raise, so its log line is never
    written. *)
Fixpoint first_named (matches broker_symbols : list string) : option string :=
  match matches with
  | [] => None
  | m :: rest =>
      match find (fun s => String.eqb (upper s) m) broker_symbols with
      | Some s => Some s
      | None => first_named rest broker_symbols
      end
  end.

Definition fuzzy_cutoff : Q := 6 # 10.

Definition fuzzy_map (symbol : string) (broker_symbols : list string) : option string :=
  match Difflib.get_close_matches (upper symbol) (map upper broker_symbols) 3 fuzzy_cutoff with
  | Some matches => first_named matches broker_symbols
  | None => None
  end.

(** [transform_symbol] (lines 246-289) *)
Definition transformations : list (string * list string) :=
  [ ("EURUSD", ["EUR/USD"; "EURUSD"; "EURUSDm"]);
    ("GBPUSD", ["GBP/USD"; "GBPUSD"; "GBPUSDm"]);
    ("USDJPY", ["USD/JPY"; "USDJPY"; "USDJPYm"]);
    ("AUDUSD", ["AUD/USD"; "AUDUSD"; "AUDUSDm"]);
    ("USDCAD", ["USD/CAD"; "USDCAD"; "USDCADm"]);
    ("USDCHF", ["USD/CHF"; "USDCHF"; "USDCHFm"]);
    ("NZDUSD", ["NZD/USD"; "NZDUSD"; "NZDUSDm"]);
    ("XAUUSD", ["GOLD"; "XAU/USD"; "XAUUSDm"]);
    ("XAGUSD", ["SILVER"; "XAG/USD"; "XAGUSDm"]);
    ("BTCUSD", ["Bitcoin"; "BTC/USD"; "BTCUSDm"]);
    ("ETHUSD", ["Ethereum"; "ETH/USD"; "ETHUSDm"]) ].

Definition table_lookup (key : string) : option (list string) :=
  option_map snd (find (fun e => String.eqb (fst e) key) transformations).

Definition variations (symbol : string) : list string :=
  [ symbol +:+ "m"; symbol +:+ ".pro"; symbol +:+ "_pro";
    symbol +:+ ".m"; symbol +:+ "_m";
    remove_char "/" symbol; remove_char "-" symbol; remove_char "_" symbol ].

Definition transform_symbol (symbol : string) (broker_symbols : list string)
  : option string :=
  let in_universe := fun variant => mem variant broker_symbols in
  let from_table :=
    match table_lookup (upper symbol) with
    | Some variants => find in_universe variants
    | None => None
    end in
  match from_table with
  | Some variant => Some variant
  | None => find in_universe (variations symbol)
  end.

(** A result that passes [if result:], that is neither [None] nor empty. *)
Definition nonempty (o : option string) : option string :=
  match o with
  | Some s => if is_empty s then None else Some s
  | None => None
  end.

(** Strategies 1 to 6 (lines 120-160) read only the universe. *)
Definition cheap_strategies (symbol : string) (broker_symbols : list string)
  : option (Strategy * string) :=
  if mem symbol broker_symbols then Some (ExactMatch, symbol)
  else
    match find (fun s => String.eqb (upper s) (upper symbol)) broker_symbols with
    | Some s => Some (CaseMatch, s)
    | None =>
    let normalized_symbol := normalize symbol in
    match find (fun s => String.eqb (normalize s) normalized_symbol) broker_symbols with
    | Some s => Some (NormalizedMatch, s)
    | None =>
    match find (fun s => startswith (upper s) (upper symbol)) broker_symbols with
    | Some s => Some (PrefixMatch, s)
    | None =>
    match find (fun s => contains (upper s) (upper symbol)) broker_symbols with
    | Some s => Some (ContainsMatch, s)
    | None =>
    match nonempty (fuzzy_map symbol broker_symbols) with
    | Some s => Some (FuzzyMatch, s)
    | None => None
    end end end end end.

(** Strategy 8 (lines 169-174), after the description match has failed. *)
Definition transform_strategy (symbol : string) (broker_symbols : list string)
  : option string :=
  match nonempty (transform_symbol symbol broker_symbols) with
  | Some t => if mem t broker_symbols then Some t else None
  | None => None
  end.

(** Convert the action to an order type (lines 344-360). *)
Definition order_type_of (action : PyVal) : option Z :=
  if is_str action "BUY" || is_str action "Long" then Some ORDER_TYPE_BUY
  else if is_str action "SELL" || is_str action "Short" then Some ORDER_TYPE_SELL
  else if is_str action "BUY_LIMIT" then Some ORDER_TYPE_BUY_LIMIT
  else if is_str action "SELL_LIMIT" then Some ORDER_TYPE_SELL_LIMIT
  else if is_str action "BUY_STOP" then Some ORDER_TYPE_BUY_STOP
  else if is_str action "SELL_STOP" then Some ORDER_TYPE_SELL_STOP
  else None.

(** The request built by [send_order] (lines 374-390). *)
Definition order_request (mapped_symbol : PyVal) (order_type : Z)
    (volume price sl tp : float) : OrderRequest :=
  {| req_action :=
       if (order_type =? ORDER_TYPE_BUY)%Z || (order_type =? ORDER_TYPE_SELL)%Z
       then TRADE_ACTION_DEAL else TRADE_ACTION_PENDING;
     req_symbol := mapped_symbol;
     req_volume := volume;
     req_type := order_type;
     req_position := None;
     req_price := price;
     req_sl := Some sl;
     req_tp := Some tp;
     req_deviation := 20;
     req_magic := 123456;
     req_comment := "TradingView Auto-Signal";
     req_type_time := ORDER_TIME_GTC;
     req_type_filling := ORDER_FILLING_FOK |}.

(** The side that closes a position, and its request (lines 448-471). *)
Definition closing_type (pos : TradePosition) : Z :=
  if (pos_type pos =? ORDER_TYPE_BUY)%Z then ORDER_TYPE_SELL else ORDER_TYPE_BUY.

Definition closing_price (pos : TradePosition) (tick : Tick) : float :=
  if (closing_type pos =? ORDER_TYPE_SELL)%Z then bid tick else ask tick.

Definition close_request (pos : TradePosition) (price : float) : OrderRequest :=
  {| req_action := TRADE_ACTION_DEAL;
     req_symbol := PStr (pos_symbol pos);
     req_volume := pos_volume pos;
     req_type := closing_type pos;
     req_position := Some (pos_ticket pos);
     req_price := price;
     req_sl := None;
     req_tp := None;
     req_deviation := 20;
     req_magic := 123456;
     req_comment := "Auto-close position";
     req_type_time := ORDER_TIME_GTC;
     req_type_filling := ORDER_FILLING_FOK |}.

(* ===================================================================== *)
(** ** The methods of [MT5Handler]                                        *)
(* ===================================================================== *)

Section Handler.
Context {B : Type}.
Variable mt5 : MT5 B.
(** [float(s)] for a [str]: Python's parser of decimal literals, [None]
    being its [ValueError]. *)
Variable float_of_str : string -> option float.

(** [_cache_broker_symbols] (lines 82-90) *)
Definition _cache_broker_symbols : M B unit :=
  try_except
    (symbols <- call CSymbolsGet (mt5_symbols_get mt5) ;;
     let names := match symbols with
                  | Some l => map info_name l
                  | None => []
                  end in
     set_broker_symbols names ;;;
     log (InfoSymbolsCached (length names)))
    (log ErrSymbolCache ;;; set_broker_symbols []).

(** [connect] (lines 54-73) *)
Definition connect : M B bool :=
  try_except
    (ok <- call CInitialize (mt5_initialize mt5) ;;
     if negb ok then
       call CLastError (mt5_last_error mt5) ;;; log ErrConnect ;;; ret false
     else
       ok <- call CLogin (mt5_login mt5) ;;
       if negb ok then
         call CLastError (mt5_last_error mt5) ;;; log ErrConnect ;;; ret false
       else
         set_connected true ;;;
         _cache_broker_symbols ;;;
         log InfoConnected ;;;
         ret true)
    (log ErrConnect ;;; ret false).

(** [disconnect] (lines 75-80); an exception of [mt5.shutdown] is not
    caught. *)
Definition disconnect : M B unit :=
  call CShutdown (mt5_shutdown mt5) ;;;
  set_connected false ;;;
  set_broker_symbols [] ;;;
  log InfoDisconnected.

(** [description_match] (lines 232-244) *)
Fixpoint description_loop (symbol : string) (broker_symbols : list string)
  : M B (option string) :=
  match broker_symbols with
  | [] => ret None
  | s :: rest =>
      info <- call (CSymbolInfo (PStr s)) (mt5_symbol_info mt5 (PStr s)) ;;
      match info with
      | Some {| info_description := Some description |} =>
          if is_empty description then description_loop symbol rest
          else
            let desc := upper description in
            if contains desc (upper symbol) || contains (upper symbol) desc
            then ret (Some s)
            else description_loop symbol rest
      | _ => description_loop symbol rest
      end
  end.

Definition description_match (symbol : string) : M B (option string) :=
  try_except
    (broker_symbols <- get broker_symbols ;;
     description_loop symbol broker_symbols)
    (log ErrDescriptionMatch ;;; ret None).

(** [self.symbol_cache[symbol] = result] *)
Definition cache_put (symbol result : string) : M B unit :=
  cache <- get symbol_cache ;;
  set_symbol_cache (<[symbol := result]> cache).

(** A strategy that matched: the cache entry, the [RESULT:] line, [return]. *)
Definition resolved (how : Strategy) (symbol result : string) : M B string :=
  cache_put symbol result ;;;
  log (InfoResult how symbol result) ;;;
  ret result.

(** [map_symbol] (lines 93-179) *)
Definition map_symbol (symbol : string) : M B string :=
  if is_empty symbol then
    log ErrEmptySymbol ;;; ret symbol
  else
    let symbol := strip symbol in
    log (InfoMapping symbol) ;;;
    cache <- get symbol_cache ;;
    match cache !! symbol with
    | Some cached_symbol =>
        log (InfoResult Cached symbol cached_symbol) ;;; ret cached_symbol
    | None =>
        universe <- get broker_symbols ;;
        (match universe with [] => _cache_broker_symbols | _ => ret tt end) ;;;
        universe <- get broker_symbols ;;
        match universe with
        | [] =>
            log WarnNoBrokerSymbols ;;;
            cache_put symbol symbol ;;;
            ret symbol
        | _ =>
            match cheap_strategies symbol universe with
            | Some (how, s) => resolved how symbol s
            | None =>
                desc_match <- description_match symbol ;;
                match nonempty desc_match with
                | Some s => resolved DescriptionMatch symbol s
                | None =>
                    match transform_strategy symbol universe with
                    | Some s => resolved TransformMatch symbol s
                    | None =>
                        log (WarnNoMapping symbol) ;;;
                        cache_put symbol symbol ;;;
                        ret symbol
                    end
                end
            end
        end
    end.

(** [map_symbol] on the value found under ["symbol"]: a value that is not
    a string is returned as it is when it is falsy and has no [strip]
    otherwise. *)
Definition map_symbol_value (symbol : PyVal) : M B PyVal :=
  match symbol with
  | PStr s => r <- map_symbol s ;; ret (PStr r)
  | _ => if truthy symbol then raise
         else log ErrEmptySymbol ;;; ret symbol
  end.

(** [verify_symbol] (lines 411-428) *)
Definition verify_symbol (symbol : PyVal) : M B bool :=
  try_except
    (info <- call (CSymbolInfo symbol) (mt5_symbol_info mt5 symbol) ;;
     match info with
     | None => ret false
     | Some info =>
         if negb (info_visible info) then
           selected <- call (CSymbolSelect symbol) (mt5_symbol_select mt5 symbol) ;;
           if negb selected then log (WarnMarketWatch symbol) ;;; ret false
           else ret true
         else ret true
     end)
    (log ErrSymbolVerify ;;; ret false).

(** [float(v)] *)
Definition py_float (v : PyVal) : option float :=
  match v with
  | PFloat f => Some f
  | PInt z => float_of_int z
  | PBool b => Some (if b then 1 else 0)%float
  | PStr s => float_of_str s
  | PNone | PSeq _ => None
  end.

(** Build the request, submit it and classify the result (lines 374-404);
    a result of [None] has no [retcode]. *)
Definition submit_order (mapped_symbol : PyVal) (order_type : Z)
    (volume price sl tp : float) : M B bool :=
  let request := order_request mapped_symbol order_type volume price sl tp in
  result <- call (COrderSend request) (mt5_order_send mt5 request) ;;
  result <- lift_option result ;;
  if negb (retcode result =? TRADE_RETCODE_DONE)%Z then
    log (ErrOrderFailed (retcode result)) ;;; ret false
  else
    log (InfoOrderSuccess (res_order result)) ;;; ret true.

(** Get the current market price if none was provided, then go on to the
    request (lines 362-372). *)
Definition price_order (mapped_symbol : PyVal) (order_type : Z)
    (volume price sl tp : float) : M B bool :=
  if (price <=? 0)%float then
    tick <- call (CSymbolInfoTick mapped_symbol)
                 (mt5_symbol_info_tick mt5 mapped_symbol) ;;
    match tick with
    | None => log (ErrPrice mapped_symbol) ;;; ret false
    | Some tick =>
        let price := if (order_type =? ORDER_TYPE_BUY)%Z then ask tick else bid tick in
        submit_order mapped_symbol order_type volume price sl tp
    end
  else submit_order mapped_symbol order_type volume price sl tp.

(** [send_order] (lines 316-409) *)
Definition send_order (signal : Signal) : M B bool :=
  is_connected <- get connected ;;
  if negb is_connected then
    log ErrNotConnected ;;; ret false
  else
    try_except
      (let action := signal_get signal "action" PNone in
       let original_symbol := signal_get signal "symbol" PNone in
       volume <- lift_option (py_float (signal_get signal "volume" (PFloat 0.1))) ;;
       price <- lift_option (py_float (signal_get signal "price" (PFloat 0.0))) ;;
       sl <- lift_option (py_float (signal_get signal "stop_loss" (PFloat 0.0))) ;;
       tp <- lift_option (py_float (signal_get signal "take_profit" (PFloat 0.0))) ;;
       mapped_symbol <- map_symbol_value original_symbol ;;
       tradeable <- verify_symbol mapped_symbol ;;
       if negb tradeable then
         log (ErrNotTradeable mapped_symbol) ;;; ret false
       else
         match order_type_of action with
         | None => log (ErrUnsupportedAction action) ;;; ret false
         | Some order_type =>
             price_order mapped_symbol order_type volume price sl tp
         end)
      (log ErrException ;;; ret false).

(** The loop of [close_positions] (lines 447-477): a tick of [None] has no
    [bid] or [ask], a result of [None] no [retcode]. *)
Fixpoint close_loop (positions : list TradePosition) : M B unit :=
  match positions with
  | [] => ret tt
  | pos :: rest =>
      tick <- call (CSymbolInfoTick (PStr (pos_symbol pos)))
                   (mt5_symbol_info_tick mt5 (PStr (pos_symbol pos))) ;;
      tick <- lift_option tick ;;
      let request := close_request pos (closing_price pos tick) in
      result <- call (COrderSend request) (mt5_order_send mt5 request) ;;
      result <- lift_option result ;;
      (if negb (retcode result =? TRADE_RETCODE_DONE)%Z
       then log (ErrCloseFailed (pos_ticket pos))
       else log (InfoCloseSuccess (pos_ticket pos))) ;;;
      close_loop rest
  end.

(** Map the symbol if provided (lines 434-436). *)
Definition close_filter (symbol : PyVal) : M B PyVal :=
  if truthy symbol then map_symbol_value symbol else ret symbol.

(** [close_positions] (lines 431-483) *)
Definition close_positions (symbol : PyVal) : M B bool :=
  try_except
    (symbol <- close_filter symbol ;;
     positions <- call (CPositionsGet symbol) (mt5_positions_get mt5 symbol) ;;
     match positions with
     | None | Some [] => log InfoNoPositions ;;; ret true
     | Some positions =>
         log (InfoFoundPositions (length positions)) ;;;
         close_loop positions ;;;
         ret true
     end)
    (log ErrCloseException ;;; ret false).

(** [clear_symbol_cache] (lines 485-488) *)
Definition clear_symbol_cache : M B unit :=
  set_symbol_cache ∅ ;;; log InfoCacheCleared.

(** [get_cache_stats] (lines 490-496) *)
Definition get_cache_stats : M B (nat * nat * gmap string string) :=
  cache <- get symbol_cache ;;
  universe <- get broker_symbols ;;
  ret (size cache, length universe, cache).

End Handler.

(* ===================================================================== *)
(** ** The webhook of the server ([app/server.py])                        *)
(* ===================================================================== *)

(** What [request.get_json()] gives: an exception, a JSON object, or a
    JSON value that is not an object. *)
Inductive Json : Type :=
| JsonFails
| JsonObject (data : gmap string PyVal)
| JsonOther (v : PyVal).

(** The bodies of the responses of [webhook]. *)
Inductive Message : Type :=
| NotInitialized                   (* error: MT5 handler not initialized *)
| InvalidJson                      (* error: Invalid JSON *)
| MissingField (field : string)    (* error: Missing required field ... *)
| InvalidValue (field : string)    (* error: Invalid ... value *)
| MarketPlaced                     (* success: Market order placed *)
| MarketFailed                     (* error: Failed to place market order *)
| PendingPlaced                    (* success: Pending order placed *)
| PendingFailed                    (* error: Failed to place pending order *)
| CloseExecuted                    (* success: Close order executed *)
| CloseFailed                      (* error: Failed to close position *)
| UnknownAction (action : PyVal)   (* error: Unknown or unsupported action *)
| Unexpected.                      (* error: An unexpected error occurred *)

(** A response: the status code and the body. *)
Abbreviation Response := (Z * Message)%type.

(** [a or b] *)
Definition py_or (a b : PyVal) : PyVal := if truthy a then a else b.

(** [if v: signal[key] = v] *)
Definition with_optional (key : string) (v : PyVal) (signal : Signal) : Signal :=
  if truthy v then <[key := v]> signal else signal.

Definition market_actions : list string := ["BUY"; "SELL"; "LONG"; "SHORT"].
Definition pending_actions : list string :=
  ["BUY_LIMIT"; "SELL_LIMIT"; "BUY_STOP"; "SELL_STOP"].

Section Server.
Context {B : Type}.
Variable mt5 : MT5 B.
Variable float_of_str : string -> option float.

(** [try: v = float(v)] with [except ValueError: return ..., 400]: a
    string that does not parse is answered with 400; the [TypeError] of
    a value that is no number and the [OverflowError] of an integer are
    not caught here. *)
Definition to_float (v : PyVal) (field : string) (k : float -> M B Response)
  : M B Response :=
  match py_float float_of_str v with
  | Some f => k f
  | None =>
      match v with
      | PStr _ => ret (400%Z, InvalidValue field)
      | _ => raise
      end
  end.

(** [if v: try: v = float(v) ...] (lines 90-100) *)
Definition optional_float (v : PyVal) (field : string) (k : PyVal -> M B Response)
  : M B Response :=
  if truthy v then to_float v field (fun f => k (PFloat f)) else k v.

(** [webhook] (lines 60-182). [initialized] tells whether [mt5_handler]
    is set; the world is the state of that handler. The lines that the
    server writes to its own logger are not recorded. A body that is not
    an object has no [get], an action that is not a string no [upper]. *)
Definition webhook (initialized : bool) (body : Json) : M B Response :=
  try_except
    (if negb initialized then ret (500%Z, NotInitialized)
     else
       match body with
       | JsonFails => raise
       | JsonOther v =>
           if negb (truthy v) then ret (400%Z, InvalidJson) else raise
       | JsonObject data =>
           if decide (data = ∅) then ret (400%Z, InvalidJson)
           else
             match signal_get data "action" (PStr "") with
             | PStr action =>
                 let action := upper action in
                 let symbol := signal_get data "symbol" PNone in
                 let volume := signal_get data "volume" PNone in
                 if negb (truthy symbol) then ret (400%Z, MissingField "symbol")
                 else if negb (truthy volume) then ret (400%Z, MissingField "volume")
                 else
                   let tp := py_or (signal_get data "tp" PNone)
                                   (signal_get data "take_profit" PNone) in
                   let sl := py_or (signal_get data "sl" PNone)
                                   (signal_get data "stop_loss" PNone) in
                   optional_float tp "take_profit/tp" (fun tp =>
                   optional_float sl "stop_loss/sl" (fun sl =>
                   to_float volume "volume" (fun volume =>
                   if mem action market_actions then
                     let trade_action :=
                       if mem action ["BUY"; "LONG"] then "BUY" else "SELL" in
                     let signal : Signal :=
                       {[ "symbol" := symbol; "action" := PStr trade_action;
                          "volume" := PFloat volume ]} in
                     let signal := with_optional "take_profit" tp signal in
                     let signal := with_optional "stop_loss" sl signal in
                     result <- send_order mt5 float_of_str signal ;;
                     if (result : bool) then ret (200%Z, MarketPlaced)
                     else ret (500%Z, MarketFailed)
                   else if mem action pending_actions then
                     let price := signal_get data "price" PNone in
                     if negb (truthy price) then ret (400%Z, MissingField "price")
                     else
                       to_float price "price" (fun price =>
                       let signal : Signal :=
                         {[ "symbol" := symbol; "action" := PStr action;
                            "volume" := PFloat volume; "price" := PFloat price ]} in
                       let signal := with_optional "take_profit" tp signal in
                       let signal := with_optional "stop_loss" sl signal in
                       result <- send_order mt5 float_of_str signal ;;
                       if (result : bool) then ret (200%Z, PendingPlaced)
                       else ret (500%Z, PendingFailed))
                   else if String.eqb action "CLOSE" then
                     result <- close_positions mt5 symbol ;;
                     if (result : bool) then ret (200%Z, CloseExecuted)
                     else ret (500%Z, CloseFailed)
                   else
                     ret (400%Z, UnknownAction (signal_get data "action" PNone)))))
             | _ => raise
             end
       end)
    (ret (500%Z, Unexpected)).

End Server.

(* ===================================================================== *)
(** ** A scripted terminal for the examples                               *)
(* ===================================================================== *)

Module Script.

(** What the terminal answers; the script does not change over a run. *)
Record Terminal : Type := {
  t_symbols : reply (option (list SymbolInfo));
  t_tick : string -> reply (option Tick);
  t_send : OrderRequest -> reply (option OrderSendResult);
  t_positions : reply (option (list TradePosition))
}.

Definition on_str {A : Type} (v : PyVal) (f : string -> reply A) : reply A :=
  match v with
  | PStr s => f s
  | _ => Raises
  end.

Definition info_of (t : Terminal) (s : string) : reply (option SymbolInfo) :=
  match t_symbols t with
  | Answer (Some l) => Answer (find (fun i => String.eqb (info_name i) s) l)
  | Answer None => Answer None
  | Raises => Raises
  end.

Definition mt5 : MT5 Terminal :=
  {| mt5_initialize := fun t => (Answer true, t);
     mt5_login := fun t => (Answer true, t);
     mt5_shutdown := fun t => (Answer tt, t);
     mt5_last_error := fun t => (Answer tt, t);
     mt5_symbols_get := fun t => (t_symbols t, t);
     mt5_symbol_info := fun v t => (on_str v (info_of t), t);
     mt5_symbol_info_tick := fun v t => (on_str v (t_tick t), t);
     mt5_symbol_select := fun v t => (Answer true, t);
     mt5_order_send := fun r t => (t_send t r, t);
     mt5_positions_get := fun v t => (t_positions t, t) |}.

(** No string parses as a float in the examples. *)
Definition no_parse (s : string) : option float := None.

Definition symbol_named (n : string) : SymbolInfo :=
  {| info_name := n; info_description := Some ""; info_visible := true |}.

Definition done_result : OrderSendResult :=
  {| retcode := TRADE_RETCODE_DONE; res_comment := "Request executed"; res_order := 1 |}.

Definition rejected_result : OrderSendResult :=
  {| retcode := 10006; res_comment := "Request rejected"; res_order := 0 |}.

(** The universe of the scenario of the specification. *)
Definition universe : list string := ["XAUUSDm"; "EURUSD"; "BTCUSD.pro"].

Definition eurusd_tick : Tick := {| bid := 1.1000; ask := 1.1002 |}.

(** A terminal that lists the universe, quotes one tick for every symbol
    and executes every request. *)
Definition live : Terminal :=
  {| t_symbols := Answer (Some (map symbol_named universe));
     t_tick := fun _ => Answer (Some eurusd_tick);
     t_send := fun _ => Answer (Some done_result);
     t_positions := Answer (Some []) |}.

Definition position (ticket : Z) (symbol : string) (side : Z) : TradePosition :=
  {| pos_ticket := ticket; pos_symbol := symbol; pos_type := side;
     pos_volume := 0.1 |}.

Definition three_positions : list TradePosition :=
  [position 1 "EURUSD" ORDER_TYPE_BUY; position 2 "XAUUSDm" ORDER_TYPE_SELL;
   position 3 "BTCUSD.pro" ORDER_TYPE_BUY].

(** Three open positions; the broker rejects the close of the second. *)
Definition rejecting : Terminal :=
  {| t_symbols := Answer (Some (map symbol_named universe));
     t_tick := fun _ => Answer (Some eurusd_tick);
     t_send := fun r => if decide (req_position r = Some 2%Z)
                        then Answer (Some rejected_result)
                        else Answer (Some done_result);
     t_positions := Answer (Some three_positions) |}.

(** Three open positions; the submission of the second close raises. *)
Definition failing : Terminal :=
  {| t_symbols := Answer (Some (map symbol_named universe));
     t_tick := fun _ => Answer (Some eurusd_tick);
     t_send := fun r => if decide (req_position r = Some 2%Z)
                        then Raises
                        else Answer (Some done_result);
     t_positions := Answer (Some three_positions) |}.

(** A market buy of EURUSD that names neither a price nor a volume. *)
Definition buy_eurusd : Signal :=
  {[ "action" := PStr "BUY"; "symbol" := PStr "EURUSD" ]}.

(** A connected handler whose universe is cached and whose resolution
    cache is empty. *)
Definition world (t : Terminal) : World Terminal :=
  {| connected := true; symbol_cache := ∅; broker_symbols := universe;
     terminal := t; calls := []; logs := [] |}.

(** The same handler before [connect]. *)
Definition offline (t : Terminal) : World Terminal :=
  {| connected := false; symbol_cache := ∅; broker_symbols := [];
     terminal := t; calls := []; logs := [] |}.

End Script.

(* ===================================================================== *)
(** ** Vocabulary of the properties                                       *)
(* ===================================================================== *)

(** Every character of [s] satisfies [p]. *)
Fixpoint all_chars (p : ascii -> bool) (s : string) : bool :=
  match s with
  | EmptyString => true
  | String c r => p c && all_chars p r
  end.

(** The head of a list of scored candidates carries its highest score. *)
Definition headed (l : list (Q * string)) : Prop :=
  match l with
  | [] => True
  | p :: _ => forall q, In q l -> Qle (fst q) (fst p)
  end.

(** [wp m Q w]: run from [w], the method [m] ends in an outcome and a
    world that satisfy [Q]. *)
Definition wp {B A : Type} (m : M B A) (Q : outcome A -> World B -> Prop)
    (w : World B) : Prop :=
  Q (fst (m w)) (snd (m w)).

(** The postcondition of a method that returns. *)
Definition returning {B A : Type} (Q : A -> World B -> Prop)
  : outcome A -> World B -> Prop :=
  fun o w => match o with Ret a => Q a w | Exc => False end.

(** A method keeps a relation between the world it starts from and the one
    it ends in, whatever its outcome. *)
Definition preserves {B A : Type} (R : World B -> World B -> Prop) (m : M B A)
  : Prop :=
  forall w, wp m (fun _ w' => R w w') w.

(** Two worlds agree on an observation. *)
Definition same {B X : Type} (f : World B -> X) (w w' : World B) : Prop :=
  f w' = f w.

(** The requests submitted so far. *)
Definition submitted {B : Type} (w : World B) : list OrderRequest :=
  submissions (calls w).

(** The entries of the resolution cache stay. *)
Definition keeps_cache {B : Type} (w w' : World B) : Prop :=
  symbol_cache w ⊆ symbol_cache w'.

(** The connection flag, the resolution cache and the submissions are as
    they were. *)
Definition untouched {B : Type} (w w' : World B) : Prop :=
  connected w' = connected w
  /\ symbol_cache w' = symbol_cache w
  /\ submitted w' = submitted w.

(** A method that returns from every world. *)
Definition total {B A : Type} (m : M B A) : Prop :=
  forall w, exists a w', m w = (Ret a, w').

(** What a call [map_symbol symbol] from [w] promises of the string [r] it
    returns and of the world [w'] it ends in: the connection flag and the
    submissions are as they were; an empty symbol is returned as it is and
    the cache is left alone; otherwise the cache maps the stripped symbol
    to [r], an entry it had is kept, and either a [RESULT:] line names the
    strategy that gave [r], or [r] is the stripped symbol and the last
    line is the warning of the fallback. *)
Definition resolution {B : Type} (symbol : string) (w : World B)
    (r : string) (w' : World B) : Prop :=
  connected w' = connected w
  /\ submitted w' = submitted w
  /\ if is_empty symbol
     then r = symbol /\ symbol_cache w' = symbol_cache w
     else
       let key := strip symbol in
       symbol_cache w' = <[key := r]> (symbol_cache w)
       /\ (symbol_cache w !! key = None \/ symbol_cache w !! key = Some r)
       /\ ((exists how, last (logs w') = Some (InfoResult how key r))
           \/ (r = key
               /\ (last (logs w') = Some (WarnNoMapping key)
                   \/ last (logs w') = Some WarnNoBrokerSymbols))).

(** Every strategy of the cascade fails for [key] in [w]: the cache has no
    entry, the universe is there and none of the strategies 1 to 6
    matches, the description match (run after the [SYMBOL_MAPPING] line)
    finds nothing, and no transformation is in the universe. *)
Definition all_strategies_fail {B : Type} (mt5 : MT5 B) (key : string)
    (w : World B) : Prop :=
  symbol_cache w !! key = None
  /\ broker_symbols w <> []
  /\ cheap_strategies key (broker_symbols w) = None
  /\ (exists d w1,
        description_match mt5 key (add_log (InfoMapping key) w) = (Ret d, w1)
        /\ nonempty d = None)
  /\ transform_strategy key (broker_symbols w) = None.

(** The steps of [send_order] before the price pass: the handler is
    connected, the price, the stop loss and the take profit convert to
    floats, the symbol maps to [mapped] and is tradeable, which leaves the
    world [w1], and the action names the order type [order_type]. *)
Definition passes_gates {B : Type} (mt5 : MT5 B)
    (float_of_str : string -> option float) (signal : Signal) (w : World B)
    (mapped : PyVal) (order_type : Z) (price sl tp : float) (w1 : World B)
  : Prop :=
  connected w = true
  /\ py_float float_of_str (signal_get signal "price" (PFloat 0.0)) = Some price
  /\ py_float float_of_str (signal_get signal "stop_loss" (PFloat 0.0)) = Some sl
  /\ py_float float_of_str (signal_get signal "take_profit" (PFloat 0.0)) = Some tp
  /\ (exists w0,
        map_symbol_value mt5 (signal_get signal "symbol" PNone) w = (Ret mapped, w0)
        /\ verify_symbol mt5 mapped w0 = (Ret true, w1))
  /\ order_type_of (signal_get signal "action" PNone) = Some order_type.

(** The price [p] of the request: the price supplied when it is positive,
    and otherwise the ask (market buy) or the bid of the tick that the
    terminal answers in [w1]. *)
Definition priced {B : Type} (mt5 : MT5 B) (mapped : PyVal) (order_type : Z)
    (price : float) (w1 : World B) (p : float) : Prop :=
  if (price <=? 0)%float
  then exists tick b,
         mt5_symbol_info_tick mt5 mapped (terminal w1) = (Answer (Some tick), b)
         /\ p = (if (order_type =? ORDER_TYPE_BUY)%Z then ask tick else bid tick)
  else p = price.

(** The terminal, from the state [b], answers the loop of
    [close_positions] over [positions]: for each position in turn it
    quotes a tick and returns a result for the closing request, whatever
    the status code of that result. *)
Fixpoint answers_closes {B : Type} (mt5 : MT5 B) (positions : list TradePosition)
    (b : B) : Prop :=
  match positions with
  | [] => True
  | pos :: rest =>
      exists tick b1 result b2,
        mt5_symbol_info_tick mt5 (PStr (pos_symbol pos)) b = (Answer (Some tick), b1)
        /\ mt5_order_send mt5 (close_request pos (closing_price pos tick)) b1
           = (Answer (Some result), b2)
        /\ answers_closes mt5 rest b2
  end.

(** What may happen between two calls of [map_symbol], a cache clear
    apart: a method of the handler runs, or the terminal moves on. *)
Inductive Op (B : Type) : Type :=
| DoMapSymbol (symbol : string)
| DoSendOrder (signal : Signal)
| DoClosePositions (symbol : PyVal)
| DoVerifySymbol (symbol : PyVal)
| DoCacheBrokerSymbols
| DoConnect
| DoDisconnect
| DoGetCacheStats
| TerminalMoves (b : B).
Arguments DoMapSymbol {B} symbol.
Arguments DoSendOrder {B} signal.
Arguments DoClosePositions {B} symbol.
Arguments DoVerifySymbol {B} symbol.
Arguments DoCacheBrokerSymbols {B}.
Arguments DoConnect {B}.
Arguments DoDisconnect {B}.
Arguments DoGetCacheStats {B}.
Arguments TerminalMoves {B} b.

Definition run {B : Type} (mt5 : MT5 B) (float_of_str : string -> option float)
    (op : Op B) (w : World B) : World B :=
  match op with
  | DoMapSymbol symbol => snd (map_symbol mt5 symbol w)
  | DoSendOrder signal => snd (send_order mt5 float_of_str signal w)
  | DoClosePositions symbol => snd (close_positions mt5 symbol w)
  | DoVerifySymbol symbol => snd (verify_symbol mt5 symbol w)
  | DoCacheBrokerSymbols => snd (_cache_broker_symbols mt5 w)
  | DoConnect => snd (connect mt5 w)
  | DoDisconnect => snd (disconnect mt5 w)
  | DoGetCacheStats => snd (get_cache_stats w)
  | TerminalMoves b => with_terminal b w
  end.

Definition run_all {B : Type} (mt5 : MT5 B) (float_of_str : string -> option float)
    (ops : list (Op B)) (w : World B) : World B :=
  fold_left (fun w op => run mt5 float_of_str op w) ops w.

(** What a response of [webhook] from [w] tells of the world [w'] it
    leaves: a response that rejects the request, or reports an exception,
    comes with the world as it was; a response on an order reports the
    answer of [send_order] to a signal whose action [send_order]
    recognizes, and which names a price only for a pending order; a
    response on a close reports the answer of [close_positions] to the
    symbol of the payload. *)
Definition webhook_contract {B : Type} (mt5 : MT5 B)
    (float_of_str : string -> option float) (initialized : bool) (body : Json)
    (w : World B) (response : Response) (w' : World B) : Prop :=
  let placed (ok : bool) (actions : list string) (priced : bool) :=
    exists signal action,
      send_order mt5 float_of_str signal w = (Ret ok, w')
      /\ signal !! "action" = Some (PStr action)
      /\ In action actions
      /\ (if priced then is_Some (signal !! "price") else signal !! "price" = None) in
  match snd response with
  | NotInitialized => fst response = 500%Z /\ w' = w /\ initialized = false
  | Unexpected => fst response = 500%Z /\ w' = w
  | InvalidJson | MissingField _ | InvalidValue _ | UnknownAction _ =>
      fst response = 400%Z /\ w' = w
  | MarketPlaced => fst response = 200%Z /\ placed true ["BUY"; "SELL"] false
  | MarketFailed => fst response = 500%Z /\ placed false ["BUY"; "SELL"] false
  | PendingPlaced => fst response = 200%Z /\ placed true pending_actions true
  | PendingFailed => fst response = 500%Z /\ placed false pending_actions true
  | CloseExecuted =>
      fst response = 200%Z
      /\ exists data,
           body = JsonObject data
           /\ truthy (signal_get data "symbol" PNone) = true
           /\ close_positions mt5 (signal_get data "symbol" PNone) w = (Ret true, w')
  | CloseFailed =>
      fst response = 500%Z
      /\ exists data,
           body = JsonObject data
           /\ truthy (signal_get data "symbol" PNone) = true
           /\ close_positions mt5 (signal_get data "symbol" PNone) w = (Ret false, w')
  end.

(** The closing request for a position at a tick, and a tick that the
    terminal quotes, from some state, for the symbol of the position. *)
Definition closing (c : TradePosition * Tick) : OrderRequest :=
  close_request (fst c) (closing_price (fst c) (snd c)).

Definition quoted {B : Type} (mt5 : MT5 B) (c : TradePosition * Tick) : Prop :=
  exists t, fst (mt5_symbol_info_tick mt5 (PStr (pos_symbol (fst c))) t)
            = Answer (Some (snd c)).

(** The fields of a request that closes the position [pos] at the tick
    [tick]: a deal on the symbol and for the volume of the position, on
    the opposite side, at the bid when it sells and at the ask when it
    buys, on the ticket of the position, without stop loss or take
    profit. *)
Definition closes_position (request : OrderRequest) (pos : TradePosition)
    (tick : Tick) : Prop :=
  req_action request = TRADE_ACTION_DEAL
  /\ req_symbol request = PStr (pos_symbol pos)
  /\ req_volume request = pos_volume pos
  /\ req_type request
     = (if (pos_type pos =? ORDER_TYPE_BUY)%Z then ORDER_TYPE_SELL else ORDER_TYPE_BUY)
  /\ req_position request = Some (pos_ticket pos)
  /\ req_price request
     = (if (pos_type pos =? ORDER_TYPE_BUY)%Z then bid tick else ask tick)
  /\ req_sl request = None
  /\ req_tp request = None.

(** How the positions [closed] by a run of [close_positions symbol] from
    [w] with the answer [ok] stand to what the terminal answered: when
    the filter is mapped and [positions_get] answers a list, they are the
    first of that list, and all of it when [ok] is [True]; when it answers
    [None] there are none and [ok] is [True]; when the mapping or the call
    raises there are none and [ok] is [False]. *)
Definition close_coverage {B : Type} (mt5 : MT5 B) (symbol : PyVal) (w : World B)
    (ok : bool) (closed : list (TradePosition * Tick)) : Prop :=
  match close_filter mt5 symbol w with
  | (Ret filter, w0) =>
      match fst (mt5_positions_get mt5 filter (terminal w0)) with
      | Answer (Some positions) =>
          exists rest, positions = (map fst closed ++ rest)%list
                       /\ (ok = true -> rest = [])
      | Answer None => closed = [] /\ ok = true
      | Raises => closed = [] /\ ok = false
      end
  | (Exc, _) => closed = [] /\ ok = false
  end.

(** A character of the ASCII range. *)
Definition is_ascii (c : ascii) : bool := (code c <? 128)%N.

(* ===================================================================== *)
(** * Properties                                                          *)
(* ===================================================================== *)

(** ** Strings *)

Module PyStrFacts.

Lemma all_chars_keep p s : all_chars p (keep p s) = true.
Proof.
  induction s as [|c r IH]; simpl; [reflexivity|].
  destruct (p c) eqn:E; simpl; [rewrite E|]; auto.
Qed.

Lemma keep_all_chars p s : all_chars p s = true -> keep p s = s.
Proof.
  induction s as [|c r IH]; simpl; [reflexivity|].
  intros [Hc Hr]%andb_prop. rewrite Hc, IH; auto.
Qed.

Lemma all_chars_append p s t :
  all_chars p (s +:+ t) = all_chars p s && all_chars p t.
Proof.
  induction s as [|c r IH]; simpl; [reflexivity|].
  rewrite IH. apply andb_assoc.
Qed.

Lemma is_AZ09_not_lower c : is_AZ09 c = true -> is_lower c = false.
Proof.
  unfold is_AZ09, is_upper, is_digit, is_lower.
  intros H. apply andb_false_iff.
  apply orb_prop in H as [[H1 H2]%andb_prop | [H1 H2]%andb_prop];
    apply N.leb_le in H1, H2;
    left; apply N.leb_gt; lia.
Qed.

Lemma upper_all_AZ09 s : all_chars is_AZ09 s = true -> upper s = s.
Proof.
  induction s as [|c r IH]; simpl; [reflexivity|].
  intros [Hc Hr]%andb_prop. rewrite IH by assumption.
  unfold upper_char. rewrite (is_AZ09_not_lower c Hc). reflexivity.
Qed.

Lemma endswith_refl s : endswith s s = true.
Proof. destruct s; cbn [endswith]; now rewrite String.eqb_refl. Qed.

(** [endswith] and [startswith] against concatenation. *)
Lemma endswith_spec s x : endswith s x = true <-> exists p, s = p +:+ x.
Proof.
  split.
  - induction s as [|c r IH]; cbn [endswith].
    + destruct x; [exists ""; reflexivity | discriminate].
    + intros [H%String.eqb_eq | H]%orb_prop.
      * exists "". now subst.
      * destruct (IH H) as [p ->]. now exists (String c p).
  - intros [p ->]. induction p as [|c r IH].
    + change ("" +:+ x) with x. apply endswith_refl.
    + change (String c r +:+ x) with (String c (r +:+ x)).
      cbn [endswith]. rewrite IH. apply orb_true_r.
Qed.

Lemma prefix_spec x s : String.prefix x s = true <-> exists r, s = x +:+ r.
Proof.
  revert s. induction x as [|c x IH]; intros s.
  - split; [intros _; now exists s | now destruct s].
  - destruct s as [|d s]; simpl;
      [split; [discriminate | intros [r Hr]; discriminate]|].
    destruct (ascii_dec c d) as [->|Hne].
    + rewrite IH. split; intros [r Hr]; exists r; [now subst | now inversion Hr].
    + split; [discriminate | intros [r Hr]; inversion Hr; congruence].
Qed.

Lemma endswith_all_chars p s x :
  all_chars p s = true -> all_chars p x = false -> endswith s x = false.
Proof.
  intros Hs Hx. destruct (endswith s x) eqn:E; [|reflexivity].
  apply endswith_spec in E as [q ->].
  rewrite all_chars_append, Hx, andb_false_r in Hs. discriminate.
Qed.

Lemma startswith_all_chars p s x :
  all_chars p s = true -> all_chars p x = false -> startswith s x = false.
Proof.
  unfold startswith. intros Hs Hx. destruct (String.prefix x s) eqn:E; [|reflexivity].
  apply prefix_spec in E as [q ->].
  rewrite all_chars_append, Hx in Hs. discriminate.
Qed.

Lemma length_substring0 m s : String.length (String.substring 0 m s) = Nat.min m (String.length s).
Proof.
  revert s. induction m as [|m IH]; intros [|c s]; simpl; auto.
Qed.

Lemma all_chars_substring0 p m s :
  all_chars p s = true -> all_chars p (String.substring 0 m s) = true.
Proof.
  revert s. induction m as [|m IH]; intros [|c s]; simpl; auto.
  intros [Hc Hs]%andb_prop. rewrite Hc. simpl. auto.
Qed.

Lemma length_drop_last s k : String.length (drop_last s k) = (String.length s - k)%nat.
Proof. unfold drop_last, slice_to. rewrite length_substring0. lia. Qed.

Lemma length_append s t :
  String.length (s +:+ t) = (String.length s + String.length t)%nat.
Proof. induction s as [|c r IH]; simpl; auto. Qed.

Lemma endswith_length s x : endswith s x = true -> (String.length x <= String.length s)%nat.
Proof.
  intros [p ->]%endswith_spec. rewrite length_append. lia.
Qed.

End PyStrFacts.
Import PyStrFacts.

(** ** Normalization *)

(** A normalized symbol is made of [A-Z] and [0-9] only. *)
Lemma normalize_AZ09 s : all_chars is_AZ09 (normalize s) = true.
Proof.
  unfold normalize. destruct s; [reflexivity|]. apply all_chars_keep.
Qed.

(** On a string of [A-Z0-9] only the suffixes ["M"] and ["PRO"] can match,
    no prefix can, and nothing is left to delete. *)
Lemma normalize_on_AZ09 t :
  all_chars is_AZ09 t = true ->
  normalize t =
    if endswith t "M" then drop_last t 1
    else if endswith t "PRO" then drop_last t 3
    else t.
Proof.
  intros Ht. unfold normalize.
  destruct (is_empty t) eqn:Hemp.
  { destruct t; [reflexivity | discriminate]. }
  rewrite (upper_all_AZ09 t Ht).
  assert (Hcut : forall k, all_chars is_AZ09 (drop_last t k) = true).
  { intros k. unfold drop_last, slice_to. now apply all_chars_substring0. }
  assert (Hpre : forall u, all_chars is_AZ09 u = true ->
                 keep is_AZ09 (remove_prefix prefixes_to_remove u) = u).
  { intros u Hu. unfold prefixes_to_remove, remove_prefix.
    rewrite (startswith_all_chars is_AZ09 u "MT5_" Hu eq_refl).
    rewrite (startswith_all_chars is_AZ09 u "FX_" Hu eq_refl).
    now apply keep_all_chars. }
  unfold suffixes_to_remove, remove_suffix.
  destruct (endswith t "M"); [now apply Hpre|].
  destruct (endswith t "PRO"); [now apply Hpre|].
  rewrite (endswith_all_chars is_AZ09 t ".PRO" Ht eq_refl).
  rewrite (endswith_all_chars is_AZ09 t "_PRO" Ht eq_refl).
  rewrite (endswith_all_chars is_AZ09 t ".M" Ht eq_refl).
  rewrite (endswith_all_chars is_AZ09 t "_M" Ht eq_refl).
  rewrite (endswith_all_chars is_AZ09 t "." Ht eq_refl).
  rewrite (endswith_all_chars is_AZ09 t "-" Ht eq_refl).
  rewrite (endswith_all_chars is_AZ09 t "_" Ht eq_refl).
  now apply Hpre.
Qed.

Lemma drop_last_shorter t x :
  endswith t x = true -> (0 < String.length x)%nat ->
  drop_last t (String.length x) <> t.
Proof.
  intros He Hx Heq. apply endswith_length in He.
  apply (f_equal String.length) in Heq. rewrite length_drop_last in Heq. lia.
Qed.

(** C4, as the code has it: normalizing twice gives the same as normalizing
    once exactly for the strings whose normalized form ends neither in
    ["M"] nor in ["PRO"]; on the others the second pass cuts one more
    suffix. *)
Theorem normalize_idempotent_iff (s : string) :
  normalize (normalize s) = normalize s
  <-> endswith (normalize s) "M" = false /\ endswith (normalize s) "PRO" = false.
Proof.
  rewrite (normalize_on_AZ09 _ (normalize_AZ09 s)).
  set (t := normalize s).
  destruct (endswith t "M") eqn:EM.
  { split; [|intros [? _]; discriminate].
    intros H. exfalso. now apply (drop_last_shorter t "M" EM); [simpl; lia|]. }
  destruct (endswith t "PRO") eqn:EP.
  { split; [|intros [_ ?]; discriminate].
    intros H. exfalso. now apply (drop_last_shorter t "PRO" EP); [simpl; lia|]. }
  split; auto.
Qed.

(** C4 fails as stated: the second pass over ["XAUUSDm.pro"] cuts the
    ["M"] that the first pass left. *)
Lemma normalize_not_idempotent :
  normalize "XAUUSDm.pro" = "XAUUSDM"
  /\ normalize (normalize "XAUUSDm.pro") = "XAUUSD".
Proof. split; reflexivity. Qed.

(** ** Reasoning about methods *)

Section Wp.
Context {B : Type}.
Implicit Types w : World B.

Lemma wp_ret {A} (a : A) (Q : outcome A -> World B -> Prop) w :
  Q (Ret a) w -> wp (ret a) Q w.
Proof. exact id. Qed.

Lemma wp_raise {A} (Q : outcome A -> World B -> Prop) w :
  Q Exc w -> wp raise Q w.
Proof. exact id. Qed.

Lemma wp_get {A} (f : World B -> A) (Q : outcome A -> World B -> Prop) w :
  Q (Ret (f w)) w -> wp (get f) Q w.
Proof. exact id. Qed.

Lemma wp_log l (Q : outcome unit -> World B -> Prop) w :
  Q (Ret tt) (add_log l w) -> wp (log l) Q w.
Proof. exact id. Qed.

Lemma wp_set_connected c (Q : outcome unit -> World B -> Prop) w :
  Q (Ret tt) (with_connected c w) -> wp (set_connected c) Q w.
Proof. exact id. Qed.

Lemma wp_set_symbol_cache m (Q : outcome unit -> World B -> Prop) w :
  Q (Ret tt) (with_symbol_cache m w) -> wp (set_symbol_cache m) Q w.
Proof. exact id. Qed.

Lemma wp_set_broker_symbols l (Q : outcome unit -> World B -> Prop) w :
  Q (Ret tt) (with_broker_symbols l w) -> wp (set_broker_symbols l) Q w.
Proof. exact id. Qed.

Lemma wp_lift_option {A} (o : option A) (Q : outcome A -> World B -> Prop) w :
  match o with Some a => Q (Ret a) w | None => Q Exc w end ->
  wp (lift_option o) Q w.
Proof. destruct o; exact id. Qed.

Lemma wp_call {A} c (f : B -> reply A * B) (Q : outcome A -> World B -> Prop) w :
  (forall r b, f (terminal w) = (r, b) ->
     match r with
     | Answer a => Q (Ret a) (add_call c b w)
     | Raises => Q Exc (add_call c b w)
     end) ->
  wp (call c f) Q w.
Proof.
  intros H. unfold wp, call. destruct (f (terminal w)) as [r b] eqn:E.
  specialize (H r b eq_refl). destruct r; exact H.
Qed.

Lemma wp_bind {A C} (m : M B A) (k : A -> M B C) (Q : outcome C -> World B -> Prop) w :
  wp m (fun o w' => match o with Ret a => wp (k a) Q w' | Exc => Q Exc w' end) w ->
  wp (bind m k) Q w.
Proof.
  unfold wp, bind. destruct (m w) as [[a|] w']; exact id.
Qed.

Lemma wp_try {A} (m h : M B A) (Q : outcome A -> World B -> Prop) w :
  wp m (fun o w' => match o with Ret a => Q (Ret a) w' | Exc => wp h Q w' end) w ->
  wp (try_except m h) Q w.
Proof.
  unfold wp, try_except. destruct (m w) as [[a|] w']; exact id.
Qed.

Lemma wp_mono {A} (m : M B A) (Q Q' : outcome A -> World B -> Prop) w :
  wp m Q w -> (forall o w', Q o w' -> Q' o w') -> wp m Q' w.
Proof. unfold wp. auto. Qed.

(** What [wp] says about a run that is known. *)
Lemma wp_run {A} (m : M B A) (Q : outcome A -> World B -> Prop) w o w' :
  m w = (o, w') -> wp m Q w -> Q o w'.
Proof. unfold wp. now intros ->. Qed.

(** Runs that are known. *)
Lemma bind_run {A C} (m : M B A) (k : A -> M B C) w a w' :
  m w = (Ret a, w') -> bind m k w = k a w'.
Proof. unfold bind. now intros ->. Qed.

Lemma bind_lift {A C} (o : option A) (k : A -> M B C) w a :
  o = Some a -> bind (lift_option o) k w = k a w.
Proof. now intros ->. Qed.

Lemma call_run {A} c (f : B -> reply A * B) w a b :
  f (terminal w) = (Answer a, b) -> call c f w = (Ret a, add_call c b w).
Proof. unfold call. now intros ->. Qed.

End Wp.

(** One step of a proof by [wp]: the rule of the method at the head. *)
Ltac wp_step :=
  lazymatch goal with
  | |- wp (bind _ _) _ _ => apply wp_bind
  | |- wp (try_except _ _) _ _ => apply wp_try
  | |- wp (ret _) _ _ => apply wp_ret
  | |- wp raise _ _ => apply wp_raise
  | |- wp (get _) _ _ => apply wp_get
  | |- wp (log _) _ _ => apply wp_log
  | |- wp (set_connected _) _ _ => apply wp_set_connected
  | |- wp (set_symbol_cache _) _ _ => apply wp_set_symbol_cache
  | |- wp (set_broker_symbols _) _ _ => apply wp_set_broker_symbols
  | |- wp (lift_option ?o) _ _ => apply wp_lift_option; destruct o eqn:?
  | |- wp (call _ _) _ _ => apply wp_call; intros [?|] ? ?
  | |- wp (if ?c then _ else _) _ _ => destruct c eqn:?
  | |- wp (match ?x with _ => _ end) _ _ => destruct x eqn:?
  end; cbv beta iota.

Ltac wp_steps := repeat wp_step.

(** ** Relations kept by the methods *)

Section Preserve.
Context {B : Type} (R : World B -> World B -> Prop).
Context `{!Reflexive R} `{!Transitive R}.

Lemma preserves_ret {A} (a : A) : preserves R (ret a).
Proof. intros w. apply wp_ret. reflexivity. Qed.

Lemma preserves_raise {A} : preserves R (@raise B A).
Proof. intros w. apply wp_raise. reflexivity. Qed.

Lemma preserves_get {A} (f : World B -> A) : preserves R (get f).
Proof. intros w. apply wp_get. reflexivity. Qed.

Lemma preserves_lift_option {A} (o : option A) : preserves R (lift_option o).
Proof. intros w. apply wp_lift_option. destruct o; reflexivity. Qed.

Lemma preserves_bind {A C} (m : M B A) (k : A -> M B C) :
  preserves R m -> (forall a, preserves R (k a)) -> preserves R (bind m k).
Proof.
  intros Hm Hk w. apply wp_bind. eapply wp_mono; [apply Hm|].
  intros [a|] w' Hw'; [|exact Hw'].
  eapply wp_mono; [apply Hk|]. intros o' w'' Hw''. cbv beta in *.
  now transitivity w'.
Qed.

Lemma preserves_try {A} (m h : M B A) :
  preserves R m -> preserves R h -> preserves R (try_except m h).
Proof.
  intros Hm Hh w. apply wp_try. eapply wp_mono; [apply Hm|].
  intros [a|] w' Hw'; [exact Hw'|].
  eapply wp_mono; [apply Hh|]. intros o' w'' Hw''. cbv beta in *.
  now transitivity w'.
Qed.

Lemma preserves_weaken {A} (R' : World B -> World B -> Prop) (m : M B A) :
  (forall w w', R' w w' -> R w w') -> preserves R' m -> preserves R m.
Proof. intros H Hm w. eapply wp_mono; [apply Hm|]. intros o' w'. apply H. Qed.

End Preserve.

Global Instance same_refl {B X} (f : World B -> X) : Reflexive (same f).
Proof. intros w. reflexivity. Qed.

Global Instance same_trans {B X} (f : World B -> X) : Transitive (same f).
Proof. intros w1 w2 w3 H12 H23. unfold same in *. congruence. Qed.

Global Instance keeps_cache_refl {B} : Reflexive (@keeps_cache B).
Proof. intros w. unfold keeps_cache. reflexivity. Qed.

Global Instance keeps_cache_trans {B} : Transitive (@keeps_cache B).
Proof. intros w1 w2 w3. unfold keeps_cache. apply transitivity. Qed.

Global Instance untouched_refl {B} : Reflexive (@untouched B).
Proof. intros w. unfold untouched. auto. Qed.

Global Instance untouched_trans {B} : Transitive (@untouched B).
Proof.
  intros w1 w2 w3 (H1 & H2 & H3) (H4 & H5 & H6). unfold untouched.
  repeat split; congruence.
Qed.

Lemma untouched_keeps_cache {B} (w w' : World B) :
  untouched w w' -> keeps_cache w w'.
Proof. intros (_ & H & _). unfold keeps_cache. now rewrite H. Qed.

Lemma untouched_same_submitted {B} (w w' : World B) :
  untouched w w' -> same submitted w w'.
Proof. now intros (_ & _ & H). Qed.

Lemma submissions_snoc (cs : list Call) (c : Call) :
  submissions (cs ++ [c]) =
  (submissions cs ++ match c with COrderSend r => [r] | _ => [] end)%list.
Proof. unfold submissions. rewrite flat_map_app. simpl. now rewrite app_nil_r. Qed.

Lemma submissions_quiet (cs : list Call) (c : Call) :
  is_order_send c = false -> submissions (cs ++ [c]) = submissions cs.
Proof.
  intros Hc. rewrite submissions_snoc.
  destruct c; try discriminate; apply app_nil_r.
Qed.

Create HintDb preserve.

(** The methods of the monad against the three relations. *)
Section Primitives.
Context {B : Type}.

Lemma log_untouched l : preserves (@untouched B) (log l).
Proof. intros w. apply wp_log. repeat split. Qed.

Lemma log_same_submitted l : preserves (same (@submitted B)) (log l).
Proof. intros w. reflexivity. Qed.

Lemma log_keeps_cache l : preserves (@keeps_cache B) (log l).
Proof. intros w. apply wp_log. unfold keeps_cache. done. Qed.

Lemma call_untouched {A} c (f : B -> reply A * B) :
  is_order_send c = false -> preserves untouched (call c f).
Proof.
  intros Hc w. apply wp_call.
  intros [a|] b _; repeat split; apply (submissions_quiet _ _ Hc).
Qed.

Lemma call_same_submitted {A} c (f : B -> reply A * B) :
  is_order_send c = false -> preserves (same submitted) (call c f).
Proof.
  intros Hc w. apply wp_call.
  intros [a|] b _; apply (submissions_quiet _ _ Hc).
Qed.

Lemma call_keeps_cache {A} c (f : B -> reply A * B) :
  preserves keeps_cache (call c f).
Proof. intros w. apply wp_call. intros [a|] b _; unfold keeps_cache; done. Qed.

Lemma set_connected_keeps_cache c : preserves (@keeps_cache B) (set_connected c).
Proof. intros w. apply wp_set_connected. unfold keeps_cache. done. Qed.

Lemma set_broker_symbols_untouched l :
  preserves (@untouched B) (set_broker_symbols l).
Proof. intros w. apply wp_set_broker_symbols. repeat split. Qed.

Lemma set_broker_symbols_same_submitted l :
  preserves (same (@submitted B)) (set_broker_symbols l).
Proof. intros w. reflexivity. Qed.

Lemma set_broker_symbols_keeps_cache l :
  preserves (@keeps_cache B) (set_broker_symbols l).
Proof. intros w. apply wp_set_broker_symbols. unfold keeps_cache. done. Qed.

Lemma set_symbol_cache_same_submitted m :
  preserves (same (@submitted B)) (set_symbol_cache m).
Proof. intros w. reflexivity. Qed.

(** A method that keeps a relation and returns. *)
Lemma wp_total {A} (R : World B -> World B -> Prop) (m : M B A)
    (Q : outcome A -> World B -> Prop) w :
  preserves R m -> total m ->
  (forall a w', R w w' -> Q (Ret a) w') ->
  wp m Q w.
Proof.
  intros HR Ht HQ. specialize (HR w). destruct (Ht w) as (a & w' & E).
  unfold wp in *. rewrite E in *. now apply HQ.
Qed.

(** A method that keeps a relation, whatever its outcome. *)
Lemma wp_frame {A} (R : World B -> World B -> Prop) (m : M B A)
    (Q : outcome A -> World B -> Prop) w :
  preserves R m -> (forall o w', R w w' -> Q o w') -> wp m Q w.
Proof. intros HR HQ. eapply wp_mono; [apply HR|]. exact HQ. Qed.

Lemma total_try {A} (m h : M B A) : total h -> total (try_except m h).
Proof.
  intros Hh w. unfold try_except. destruct (m w) as [[a|] w']; eauto.
Qed.

Lemma total_log_ret {A} l (a : A) : total (log l ;;; @ret B A a).
Proof. intros w. eexists _, _. reflexivity. Qed.

End Primitives.

#[export] Hint Resolve log_untouched log_same_submitted log_keeps_cache
  call_keeps_cache set_connected_keeps_cache
  set_broker_symbols_untouched set_broker_symbols_same_submitted
  set_broker_symbols_keeps_cache set_symbol_cache_same_submitted : preserve.
#[export] Hint Extern 1 (preserves (same submitted) (call _ _)) =>
  apply call_same_submitted; reflexivity : preserve.
#[export] Hint Extern 1 (preserves untouched (call _ _)) =>
  apply call_untouched; reflexivity : preserve.

(** A proof that a method keeps a relation follows the method. *)
Ltac preserve_step :=
  lazymatch goal with
  | |- preserves _ (bind _ _) =>
      apply preserves_bind; try typeclasses eauto; [|intros ?]
  | |- preserves _ (try_except _ _) => apply preserves_try; try typeclasses eauto
  | |- preserves _ (ret _) => apply preserves_ret; typeclasses eauto
  | |- preserves _ raise => apply preserves_raise; typeclasses eauto
  | |- preserves _ (get _) => apply preserves_get; typeclasses eauto
  | |- preserves _ (lift_option _) => apply preserves_lift_option; typeclasses eauto
  | |- preserves _ (if ?c then _ else _) => destruct c
  | |- preserves _ (match ?x with _ => _ end) => destruct x
  | |- preserves _ _ => solve [eauto with preserve typeclass_instances]
  end.

Ltac preserve := repeat preserve_step.

(** ** The resolution engine *)

Section Engine.
Context {B : Type} (mt5 : MT5 B).
Implicit Types w : World B.

Lemma cache_broker_symbols_untouched :
  preserves untouched (_cache_broker_symbols mt5).
Proof. unfold _cache_broker_symbols. preserve. Qed.

Lemma cache_broker_symbols_total : total (_cache_broker_symbols mt5).
Proof. apply total_try. intros w. eexists _, _. reflexivity. Qed.

Lemma description_loop_untouched symbol universe :
  preserves untouched (description_loop mt5 symbol universe).
Proof.
  induction universe as [|s rest IH]; cbn [description_loop]; preserve; exact IH.
Qed.

Lemma description_match_untouched symbol :
  preserves untouched (description_match mt5 symbol).
Proof.
  unfold description_match. preserve. apply description_loop_untouched.
Qed.

Lemma description_match_total symbol : total (description_match mt5 symbol).
Proof. apply total_try, total_log_ret. Qed.

Lemma verify_symbol_untouched symbol :
  preserves untouched (verify_symbol mt5 symbol).
Proof. unfold verify_symbol. preserve. Qed.

Lemma verify_symbol_total symbol : total (verify_symbol mt5 symbol).
Proof. apply total_try, total_log_ret. Qed.

(** The contract of [map_symbol]. *)
Lemma map_symbol_resolution symbol w :
  wp (map_symbol mt5 symbol) (returning (resolution symbol w)) w.
Proof.
  unfold map_symbol. destruct (is_empty symbol) eqn:Hemp.
  { wp_steps. unfold returning, resolution. rewrite Hemp. auto. }
  set (key := strip symbol).
  unfold resolved, cache_put. wp_steps;
  try (apply (wp_total untouched);
       [apply cache_broker_symbols_untouched | apply cache_broker_symbols_total
       | intros [] w1 H1]);
  wp_steps;
  try (apply (wp_total untouched);
       [apply description_match_untouched | apply description_match_total
       | intros desc_match w2 H2]);
  wp_steps;
  unfold returning, resolution; rewrite Hemp; fold key;
  repeat match goal with H : untouched _ _ |- _ => destruct H as (? & ? & ?) end;
  unfold submitted in *; simpl in *;
  repeat match goal with |- _ /\ _ => split end;
  try congruence;
  try (symmetry; apply insert_id; assumption);
  try (rewrite last_snoc; eauto);
  auto.
Qed.

Lemma map_symbol_returns symbol w :
  exists r w', map_symbol mt5 symbol w = (Ret r, w') /\ resolution symbol w r w'.
Proof.
  pose proof (map_symbol_resolution symbol w) as H. unfold wp in H.
  destruct (map_symbol mt5 symbol w) as [[r|] w']; [|contradiction].
  now exists r, w'.
Qed.

Lemma map_symbol_total symbol : total (map_symbol mt5 symbol).
Proof.
  intros w. destruct (map_symbol_returns symbol w) as (r & w' & E & _). eauto.
Qed.

Lemma is_empty_spec (s : string) : is_empty s = true <-> s = "".
Proof. destruct s; split; intros; (reflexivity || discriminate). Qed.

(** A cache hit: two log lines, and nothing else. *)
Lemma map_symbol_cached symbol w v :
  is_empty symbol = false ->
  symbol_cache w !! strip symbol = Some v ->
  map_symbol mt5 symbol w =
    (Ret v, add_log (InfoResult Cached (strip symbol) v)
              (add_log (InfoMapping (strip symbol)) w)).
Proof.
  intros Hemp Hv. unfold map_symbol. rewrite Hemp.
  unfold bind, log, get. cbn [symbol_cache add_log]. rewrite Hv. reflexivity.
Qed.

Lemma resolution_keeps_cache symbol w r w' :
  resolution symbol w r w' -> keeps_cache w w'.
Proof.
  unfold resolution, keeps_cache. intros (_ & _ & H).
  destruct (is_empty symbol).
  - destruct H as [_ ->]. reflexivity.
  - destruct H as (-> & [Hn | Hs] & _).
    + now apply insert_subseteq.
    + rewrite insert_id by assumption. reflexivity.
Qed.

Lemma map_symbol_keeps_cache symbol : preserves keeps_cache (map_symbol mt5 symbol).
Proof.
  intros w. eapply wp_mono; [apply map_symbol_resolution|].
  intros [r|] w' H; [|contradiction]. now apply resolution_keeps_cache in H.
Qed.

Lemma map_symbol_same_submitted symbol :
  preserves (same submitted) (map_symbol mt5 symbol).
Proof.
  intros w. eapply wp_mono; [apply map_symbol_resolution|].
  intros [r|] w' H; [|contradiction]. now destruct H as (_ & H & _).
Qed.

Lemma map_symbol_value_keeps_cache symbol :
  preserves keeps_cache (map_symbol_value mt5 symbol).
Proof.
  pose proof map_symbol_keeps_cache.
  unfold map_symbol_value. destruct symbol; preserve.
Qed.

Lemma map_symbol_value_same_submitted symbol :
  preserves (same submitted) (map_symbol_value mt5 symbol).
Proof.
  pose proof map_symbol_same_submitted.
  unfold map_symbol_value. destruct symbol; preserve.
Qed.

Lemma verify_symbol_keeps_cache symbol :
  preserves keeps_cache (verify_symbol mt5 symbol).
Proof.
  eapply preserves_weaken; [apply untouched_keeps_cache|].
  apply verify_symbol_untouched.
Qed.

Lemma verify_symbol_same_submitted symbol :
  preserves (same submitted) (verify_symbol mt5 symbol).
Proof.
  eapply preserves_weaken; [apply untouched_same_submitted|].
  apply verify_symbol_untouched.
Qed.

Lemma cache_broker_symbols_keeps_cache :
  preserves keeps_cache (_cache_broker_symbols mt5).
Proof.
  eapply preserves_weaken; [apply untouched_keeps_cache|].
  apply cache_broker_symbols_untouched.
Qed.

(** When every strategy fails the stripped symbol is returned. *)
Lemma map_symbol_fallback symbol w :
  is_empty symbol = false ->
  all_strategies_fail mt5 (strip symbol) w ->
  fst (map_symbol mt5 symbol w) = Ret (strip symbol).
Proof.
  intros Hemp (Hcache & Hne & Hcheap & (d & w1 & Hdesc & Hd) & Htrans).
  unfold map_symbol. rewrite Hemp. set (key := strip symbol) in *.
  destruct (broker_symbols w) as [|x l] eqn:Hu; [contradiction|].
  unfold bind at 1. unfold log at 1.
  unfold bind at 1. unfold get at 1. cbn [symbol_cache add_log]. rewrite Hcache.
  unfold bind at 1. unfold get at 1. cbn [broker_symbols add_log]. rewrite Hu.
  unfold bind at 1. unfold ret at 1.
  unfold bind at 1. unfold get at 1. cbn [broker_symbols add_log]. rewrite Hu.
  rewrite Hcheap. rewrite (bind_run _ _ _ _ _ Hdesc). rewrite Hd, Htrans.
  reflexivity.
Qed.

(** C3, as the code has it: [map_symbol] returns a string from every world
    and for every input. The empty string is returned as it is and leaves
    the cache alone. For any other input the cache afterwards maps the
    stripped input to the string returned; that string was either
    announced by a [RESULT:] line (a strategy or the cache gave it) or is
    the stripped input itself, after the warning of the fallback; and it
    is the stripped input when every strategy fails. *)
Theorem map_symbol_never_fails (symbol : string) (w : World B) :
  exists r w',
    map_symbol mt5 symbol w = (Ret r, w')
    /\ (symbol = "" -> r = "" /\ symbol_cache w' = symbol_cache w)
    /\ (symbol <> "" ->
        symbol_cache w' !! strip symbol = Some r
        /\ ((exists how, last (logs w') = Some (InfoResult how (strip symbol) r))
            \/ (r = strip symbol
                /\ (last (logs w') = Some (WarnNoMapping (strip symbol))
                    \/ last (logs w') = Some WarnNoBrokerSymbols)))
        /\ (all_strategies_fail mt5 (strip symbol) w -> r = strip symbol)).
Proof.
  destruct (map_symbol_returns symbol w) as (r & w' & E & _ & _ & H).
  exists r, w'. split; [exact E|]. split.
  - intros ->. exact H.
  - intros Hne. destruct (is_empty symbol) eqn:Hemp.
    + now apply is_empty_spec in Hemp.
    + destruct H as (-> & _ & Hlog).
      split; [apply lookup_insert_eq|]. split; [exact Hlog|].
      intros Hfail. pose proof (map_symbol_fallback symbol w Hemp Hfail) as Hr.
      rewrite E in Hr. now injection Hr.
Qed.

(** C1, as the code has it: from an empty cache and the universe
    [XAUUSDm, EURUSD, BTCUSD.pro], ["XAUUSD"] resolves to ["XAUUSDm"] and
    ["BTCUSD"] to ["BTCUSD.pro"], both by the normalized match, and
    ["eurusd"] resolves to ["EURUSD"] by the case-insensitive match; no
    call reaches the terminal. *)
Theorem resolve_scenario (c : bool) (b : B) (cs : list Call) (ls : list LogLine) :
  let w := {| connected := c; symbol_cache := ∅;
              broker_symbols := ["XAUUSDm"; "EURUSD"; "BTCUSD.pro"];
              terminal := b; calls := cs; logs := ls |} in
  let hit := fun how symbol result =>
    (Ret result,
     add_log (InfoResult how symbol result)
       (with_symbol_cache {[ symbol := result ]}
          (add_log (InfoMapping symbol) w))) in
  map_symbol mt5 "XAUUSD" w = hit NormalizedMatch "XAUUSD" "XAUUSDm"
  /\ map_symbol mt5 "eurusd" w = hit CaseMatch "eurusd" "EURUSD"
  /\ map_symbol mt5 "BTCUSD" w = hit NormalizedMatch "BTCUSD" "BTCUSD.pro".
Proof. repeat split. Qed.

End Engine.

(** ** The translator *)

Section Translator.
Context {B : Type} (mt5 : MT5 B) (float_of_str : string -> option float).
Implicit Types w : World B.

Lemma submit_order_keeps_cache mapped order_type volume price sl tp :
  preserves keeps_cache (submit_order mt5 mapped order_type volume price sl tp).
Proof. unfold submit_order. preserve. Qed.

Lemma price_order_keeps_cache mapped order_type volume price sl tp :
  preserves keeps_cache (price_order mt5 mapped order_type volume price sl tp).
Proof.
  pose proof submit_order_keeps_cache. unfold price_order. preserve.
Qed.

Lemma send_order_keeps_cache signal :
  preserves keeps_cache (send_order mt5 float_of_str signal).
Proof.
  pose proof price_order_keeps_cache.
  pose proof (map_symbol_value_keeps_cache mt5).
  pose proof (verify_symbol_keeps_cache mt5).
  unfold send_order. preserve.
Qed.

Lemma close_loop_keeps_cache positions :
  preserves keeps_cache (close_loop mt5 positions).
Proof.
  induction positions as [|pos rest IH]; cbn [close_loop]; preserve; exact IH.
Qed.

Lemma close_positions_keeps_cache symbol :
  preserves keeps_cache (close_positions mt5 symbol).
Proof.
  pose proof close_loop_keeps_cache.
  pose proof (map_symbol_value_keeps_cache mt5).
  unfold close_positions, close_filter. preserve.
Qed.

Lemma connect_keeps_cache : preserves keeps_cache (connect mt5).
Proof.
  pose proof (cache_broker_symbols_keeps_cache mt5).
  unfold connect. preserve.
Qed.

Lemma disconnect_keeps_cache : preserves keeps_cache (disconnect mt5).
Proof. unfold disconnect. preserve. Qed.

Lemma run_keeps_cache op w : keeps_cache w (run mt5 float_of_str op w).
Proof.
  destruct op; cbn [run].
  - apply map_symbol_keeps_cache.
  - apply send_order_keeps_cache.
  - apply close_positions_keeps_cache.
  - apply verify_symbol_keeps_cache.
  - apply cache_broker_symbols_keeps_cache.
  - apply connect_keeps_cache.
  - apply disconnect_keeps_cache.
  - unfold keeps_cache. done.
  - unfold keeps_cache. done.
Qed.

Lemma run_all_keeps_cache ops w : keeps_cache w (run_all mt5 float_of_str ops w).
Proof.
  revert w. induction ops as [|op ops IH]; intros w; cbn [run_all fold_left].
  - reflexivity.
  - transitivity (run mt5 float_of_str op w); [apply run_keeps_cache | apply IH].
Qed.

(** C2: once a call [map_symbol symbol] has returned, and whatever the
    handler and the terminal do next short of a cache clear, a later call
    [map_symbol symbol] returns the same string and only adds log lines:
    no call reaches the terminal, and the universe and the cache are left
    as they are. For a symbol that is not empty the lines are those of
    the cache hit. *)
Theorem resolve_again_is_cached (symbol : string) (w : World B) (ops : list (Op B)) :
  exists r : string,
    fst (map_symbol mt5 symbol w) = Ret r
    /\ let w2 := run_all mt5 float_of_str ops (snd (map_symbol mt5 symbol w)) in
       map_symbol mt5 symbol w2 =
         (Ret r,
          if is_empty symbol then add_log ErrEmptySymbol w2
          else add_log (InfoResult Cached (strip symbol) r)
                 (add_log (InfoMapping (strip symbol)) w2)).
Proof.
  destruct (map_symbol_returns mt5 symbol w) as (r & w1 & E & _ & _ & H).
  exists r. rewrite E. split; [reflexivity|]. cbn [snd].
  destruct (is_empty symbol) eqn:Hemp.
  - apply is_empty_spec in Hemp. subst symbol. destruct H as [-> _]. reflexivity.
  - destruct H as (Hc & _ & _).
    apply map_symbol_cached; [exact Hemp|].
    eapply lookup_weaken; [|apply run_all_keeps_cache].
    rewrite Hc. apply lookup_insert_eq.
Qed.

(** C8: a handler that is not connected answers [False] to every signal
    and only logs the error: no symbol is resolved, the cache, the
    universe and the terminal are as they were and no call was made. *)
Theorem send_order_not_connected (signal : Signal) (w : World B) :
  connected w = false ->
  send_order mt5 float_of_str signal w = (Ret false, add_log ErrNotConnected w).
Proof.
  intros H. unfold send_order, bind, get. rewrite H. reflexivity.
Qed.

Lemma unsupported_action (action : PyVal) :
  (forall a, In a ["BUY"; "Long"; "SELL"; "Short"; "BUY_LIMIT"; "SELL_LIMIT";
                   "BUY_STOP"; "SELL_STOP"] -> action <> PStr a) ->
  order_type_of action = None.
Proof.
  intros H. unfold order_type_of.
  assert (Hno : forall a, In a ["BUY"; "Long"; "SELL"; "Short"; "BUY_LIMIT";
                                "SELL_LIMIT"; "BUY_STOP"; "SELL_STOP"] ->
                          is_str action a = false).
  { intros a Ha. destruct action; try reflexivity. simpl.
    destruct (String.eqb_spec s a) as [->|]; [|reflexivity].
    now destruct (H a Ha). }
  rewrite !Hno by (simpl; tauto). reflexivity.
Qed.

(** C7: a signal whose action is none of the eight recognized ones is
    answered [False], and nothing is submitted to the broker. *)
Theorem send_order_unsupported_action (signal : Signal) (w : World B) :
  (forall a, In a ["BUY"; "Long"; "SELL"; "Short"; "BUY_LIMIT"; "SELL_LIMIT";
                   "BUY_STOP"; "SELL_STOP"] ->
             signal_get signal "action" PNone <> PStr a) ->
  fst (send_order mt5 float_of_str signal w) = Ret false
  /\ submitted (snd (send_order mt5 float_of_str signal w)) = submitted w.
Proof.
  intros Ha%unsupported_action.
  change (wp (send_order mt5 float_of_str signal)
             (fun o w' => o = Ret false /\ submitted w' = submitted w) w).
  pose proof (map_symbol_value_same_submitted mt5) as Hmap.
  pose proof (verify_symbol_same_submitted mt5) as Hver.
  unfold send_order. rewrite Ha.
  repeat (wp_steps;
          try (apply (wp_frame (same submitted));
               [solve [auto] | intros [?|] ? ?])).
  all: unfold same, submitted in *; simpl in *; split; congruence.
Qed.

(** *** From the gates to the submission *)

(** A signal that passes the gates reaches the price pass in [w1]. *)
Lemma send_order_gates signal w mapped order_type volume price sl tp w1 :
  passes_gates mt5 float_of_str signal w mapped order_type price sl tp w1 ->
  py_float float_of_str (signal_get signal "volume" (PFloat 0.1)) = Some volume ->
  send_order mt5 float_of_str signal w =
    try_except (price_order mt5 mapped order_type volume price sl tp)
               (log ErrException ;;; ret false) w1.
Proof.
  intros (Hc & Hp & Hsl & Htp & (w0 & Hm & Hv) & Ha) Hvol.
  unfold send_order.
  change (bind (get connected) ?k w) with (k (connected w) w). cbv beta.
  rewrite Hc. cbn [negb].
  unfold try_except.
  rewrite (bind_lift _ _ _ _ Hvol), (bind_lift _ _ _ _ Hp),
          (bind_lift _ _ _ _ Hsl), (bind_lift _ _ _ _ Htp).
  rewrite (bind_run _ _ _ _ _ Hm), (bind_run _ _ _ _ _ Hv).
  cbn [negb]. rewrite Ha. reflexivity.
Qed.

(** The gates submit nothing. *)
Lemma gates_submit_nothing signal w mapped order_type price sl tp w1 :
  passes_gates mt5 float_of_str signal w mapped order_type price sl tp w1 ->
  submitted w1 = submitted w.
Proof.
  intros (_ & _ & _ & _ & (w0 & Hm & Hv) & _).
  pose proof (wp_run _ _ _ _ _ Hm (map_symbol_value_same_submitted mt5 _ w)) as H0.
  pose proof (wp_run _ _ _ _ _ Hv (verify_symbol_same_submitted mt5 _ w0)) as H1.
  unfold same in *. congruence.
Qed.

(** Whatever the broker answers, [submit_order] submits the request. *)
Lemma submit_order_submits mapped order_type volume price sl tp w :
  submitted (snd (try_except (submit_order mt5 mapped order_type volume price sl tp)
                             (log ErrException ;;; ret false) w))
  = (submitted w ++ [order_request mapped order_type volume price sl tp])%list.
Proof.
  change (wp (try_except (submit_order mt5 mapped order_type volume price sl tp)
                         (log ErrException ;;; ret false))
             (fun _ w' => submitted w' =
                (submitted w ++ [order_request mapped order_type volume price sl tp])%list) w).
  unfold submit_order. wp_steps; unfold submitted; simpl; apply submissions_snoc.
Qed.

(** With a price at hand, the request carries it. *)
Lemma price_order_submits mapped order_type volume price sl tp w1 p :
  priced mt5 mapped order_type price w1 p ->
  submitted (snd (try_except (price_order mt5 mapped order_type volume price sl tp)
                             (log ErrException ;;; ret false) w1))
  = (submitted w1 ++ [order_request mapped order_type volume p sl tp])%list.
Proof.
  unfold priced, price_order. destruct (price <=? 0)%float.
  - intros (tick & b & Htick & ->).
    change (wp (try_except
                  (tick <- call (CSymbolInfoTick mapped)
                                (mt5_symbol_info_tick mt5 mapped) ;;
                   match tick with
                   | None => log (ErrPrice mapped) ;;; ret false
                   | Some tick =>
                       submit_order mt5 mapped order_type volume
                         (if (order_type =? ORDER_TYPE_BUY)%Z
                          then ask tick else bid tick) sl tp
                   end)
                  (log ErrException ;;; ret false))
               (fun _ w' => submitted w' =
                  (submitted w1 ++
                   [order_request mapped order_type volume
                      (if (order_type =? ORDER_TYPE_BUY)%Z
                       then ask tick else bid tick) sl tp])%list) w1).
    apply wp_try, wp_bind, wp_call. intros r b' E.
    rewrite Htick in E. injection E as <- <-.
    unfold submit_order. wp_steps; unfold submitted; simpl;
      rewrite submissions_snoc, submissions_quiet by reflexivity; reflexivity.
  - intros ->. apply submit_order_submits.
Qed.

(** Without a tick there is no request. *)
Lemma price_order_no_tick mapped order_type volume price sl tp w1 reply b :
  (price <=? 0)%float = true ->
  mt5_symbol_info_tick mt5 mapped (terminal w1) = (reply, b) ->
  match reply with
  | Answer (Some tick) =>
      try_except (price_order mt5 mapped order_type volume price sl tp)
                 (log ErrException ;;; ret false) w1
      = try_except
          (submit_order mt5 mapped order_type volume
             (if (order_type =? ORDER_TYPE_BUY)%Z then ask tick else bid tick) sl tp)
          (log ErrException ;;; ret false)
          (add_call (CSymbolInfoTick mapped) b w1)
  | Answer None =>
      try_except (price_order mt5 mapped order_type volume price sl tp)
                 (log ErrException ;;; ret false) w1
      = (Ret false, add_log (ErrPrice mapped) (add_call (CSymbolInfoTick mapped) b w1))
  | Raises =>
      try_except (price_order mt5 mapped order_type volume price sl tp)
                 (log ErrException ;;; ret false) w1
      = (Ret false, add_log ErrException (add_call (CSymbolInfoTick mapped) b w1))
  end.
Proof.
  intros Hp Htick. unfold price_order. rewrite Hp.
  destruct reply as [[tick|]|];
    unfold try_except at 1; unfold bind at 1; unfold call;
    rewrite Htick; reflexivity.
Qed.

Lemma no_key_default (signal : Signal) key dflt :
  signal !! key = None -> signal_get signal key dflt = dflt.
Proof. unfold signal_get. now intros ->. Qed.

(** C5: a signal with no price that passes the gates has the tick of its
    symbol fetched. When the terminal answers a tick, the request submitted
    carries the ask for a market buy and the bid for every other order
    type: that is its price, and it names the mapped symbol, the order
    type and the volume of the signal. When the terminal answers [None] or
    raises, [send_order] answers [False] after that one call, and nothing
    is submitted. *)
Theorem send_order_prices_from_tick (signal : Signal) (w : World B)
    (mapped : PyVal) (order_type : Z) (volume price sl tp : float)
    (w1 : World B) (reply : reply (option Tick)) (b : B) :
  signal !! "price" = None ->
  passes_gates mt5 float_of_str signal w mapped order_type price sl tp w1 ->
  py_float float_of_str (signal_get signal "volume" (PFloat 0.1)) = Some volume ->
  mt5_symbol_info_tick mt5 mapped (terminal w1) = (reply, b) ->
  let fetched := add_call (CSymbolInfoTick mapped) b w1 in
  match reply with
  | Answer (Some tick) =>
      let p := if (order_type =? ORDER_TYPE_BUY)%Z then ask tick else bid tick in
      send_order mt5 float_of_str signal w
      = try_except (submit_order mt5 mapped order_type volume p sl tp)
                   (log ErrException ;;; ret false) fetched
      /\ submitted (snd (send_order mt5 float_of_str signal w))
         = (submitted w ++ [order_request mapped order_type volume p sl tp])%list
      /\ exists request,
           submitted (snd (send_order mt5 float_of_str signal w))
           = (submitted w ++ [request])%list
           /\ req_price request = p
           /\ req_symbol request = mapped
           /\ req_type request = order_type
           /\ req_volume request = volume
  | Answer None =>
      send_order mt5 float_of_str signal w
      = (Ret false, add_log (ErrPrice mapped) fetched)
      /\ submitted (snd (send_order mt5 float_of_str signal w)) = submitted w
  | Raises =>
      send_order mt5 float_of_str signal w
      = (Ret false, add_log ErrException fetched)
      /\ submitted (snd (send_order mt5 float_of_str signal w)) = submitted w
  end.
Proof.
  intros Hno Hg Hvol Htick fetched.
  pose proof (gates_submit_nothing _ _ _ _ _ _ _ _ Hg) as Hsub.
  assert (Hprice : price = 0%float).
  { destruct Hg as (_ & Hp & _). rewrite (no_key_default _ _ _ Hno) in Hp.
    simpl in Hp. congruence. }
  subst price.
  rewrite (send_order_gates _ _ _ _ _ _ _ _ _ Hg Hvol).
  pose proof (price_order_no_tick mapped order_type volume 0 sl tp w1 reply b
                eq_refl Htick) as H.
  destruct reply as [[tick|]|].
  - split; [exact H|].
    assert (Hs : submitted (snd (try_except
                   (price_order mt5 mapped order_type volume 0 sl tp)
                   (log ErrException ;;; ret false) w1))
                 = (submitted w
                      ++ [order_request mapped order_type volume
                            (if (order_type =? ORDER_TYPE_BUY)%Z
                             then ask tick else bid tick) sl tp])%list).
    { rewrite <- Hsub. apply price_order_submits. unfold priced.
      change (0 <=? 0)%float with true. cbv iota. eauto. }
    split; [exact Hs|]. eexists. split; [exact Hs|]. repeat split.
  - rewrite H. split; [reflexivity|].
    unfold submitted, fetched. simpl. now rewrite submissions_quiet.
  - rewrite H. split; [reflexivity|].
    unfold submitted, fetched. simpl. now rewrite submissions_quiet.
Qed.

(** C10: a signal with no ["volume"] key is not stopped for it: past the
    gates and with a price at hand, the request is submitted with the
    volume [0.1]. *)
Theorem send_order_default_volume (signal : Signal) (w : World B)
    (mapped : PyVal) (order_type : Z) (price sl tp : float)
    (w1 : World B) (p : float) :
  signal !! "volume" = None ->
  passes_gates mt5 float_of_str signal w mapped order_type price sl tp w1 ->
  priced mt5 mapped order_type price w1 p ->
  py_float float_of_str (signal_get signal "volume" (PFloat 0.1)) = Some 0.1%float
  /\ submitted (snd (send_order mt5 float_of_str signal w))
     = (submitted w ++ [order_request mapped order_type 0.1 p sl tp])%list
  /\ req_volume (order_request mapped order_type 0.1 p sl tp) = 0.1%float.
Proof.
  intros Hno Hg Hp.
  assert (Hvol : py_float float_of_str (signal_get signal "volume" (PFloat 0.1))
                 = Some 0.1%float).
  { now rewrite (no_key_default _ _ _ Hno). }
  split; [exact Hvol|]. split; [|reflexivity].
  rewrite (send_order_gates _ _ _ _ _ _ _ _ _ Hg Hvol).
  rewrite <- (gates_submit_nothing _ _ _ _ _ _ _ _ Hg).
  now apply price_order_submits.
Qed.

(** *** Closing positions *)

(** When the terminal answers, the loop runs to its end and submits one
    closing request per position, in order. *)
Lemma close_loop_answered positions w :
  answers_closes mt5 positions (terminal w) ->
  exists w' requests,
    close_loop mt5 positions w = (Ret tt, w')
    /\ submitted w' = (submitted w ++ requests)%list
    /\ map req_position requests = map (fun pos => Some (pos_ticket pos)) positions.
Proof.
  revert w. induction positions as [|pos rest IH]; intros w Hans.
  - exists w, []. repeat split. now rewrite app_nil_r.
  - destruct Hans as (tick & b1 & result & b2 & Htick & Hsend & Hrest).
    set (request := close_request pos (closing_price pos tick)) in *.
    set (wt := add_call (CSymbolInfoTick (PStr (pos_symbol pos))) b1 w).
    set (ws := add_call (COrderSend request) b2 wt).
    set (line := if negb (retcode result =? TRADE_RETCODE_DONE)%Z
                 then ErrCloseFailed (pos_ticket pos)
                 else InfoCloseSuccess (pos_ticket pos)).
    destruct (IH (add_log line ws) Hrest) as (w' & requests & Hrun & Hsub & Hpos).
    exists w', (request :: requests). split; [|split].
    + cbn [close_loop].
      rewrite (bind_run _ _ _ _ _ (call_run _ _ w _ _ Htick)).
      rewrite (bind_lift _ _ _ _ eq_refl).
      rewrite (bind_run _ _ _ _ _ (call_run _ _ wt _ _ Hsend)).
      rewrite (bind_lift _ _ _ _ eq_refl).
      rewrite <- Hrun. unfold bind at 1.
      fold request. subst line. destruct (negb _); reflexivity.
    + rewrite Hsub. unfold submitted. simpl.
      rewrite submissions_snoc, submissions_quiet by reflexivity.
      now rewrite <- app_assoc.
    + simpl. now rewrite Hpos.
Qed.

(** C6, as the code has it: once the positions are fetched,
    [close_positions] answers [True] and submits nothing when there is no
    position, and answers [True] after one closing request per position,
    in order, when the terminal answers every tick fetch and every
    submission of the loop, whatever the status codes of its answers. *)
Theorem close_positions_succeeds (symbol : PyVal) (w : World B)
    (filter : PyVal) (w0 : World B) (fetched : option (list TradePosition))
    (b1 : B) :
  close_filter mt5 symbol w = (Ret filter, w0) ->
  mt5_positions_get mt5 filter (terminal w0) = (Answer fetched, b1) ->
  let positions := default [] fetched in
  let result := close_positions mt5 symbol w in
  (positions = [] ->
     fst result = Ret true /\ submitted (snd result) = submitted w)
  /\ (answers_closes mt5 positions b1 ->
      fst result = Ret true
      /\ exists requests,
           submitted (snd result) = (submitted w ++ requests)%list
           /\ map req_position requests
              = map (fun pos => Some (pos_ticket pos)) positions).
Proof.
  intros Hfilter Hfetch positions result.
  assert (Hsub0 : submitted w0 = submitted w).
  { unfold close_filter in Hfilter. destruct (truthy symbol).
    - exact (wp_run _ _ _ _ _ Hfilter (map_symbol_value_same_submitted mt5 _ w)).
    - now injection Hfilter as _ <-. }
  set (wf := add_call (CPositionsGet filter) b1 w0).
  assert (Hsubf : submitted wf = submitted w).
  { unfold submitted, wf. simpl. now rewrite submissions_quiet. }
  assert (Hhead : result =
            try_except
              (match fetched with
               | None | Some [] => log InfoNoPositions ;;; ret true
               | Some positions =>
                   log (InfoFoundPositions (length positions)) ;;;
                   close_loop mt5 positions ;;; ret true
               end)
              (log ErrCloseException ;;; ret false) wf).
  { subst result. unfold close_positions, try_except.
    rewrite (bind_run _ _ _ _ _ Hfilter).
    rewrite (bind_run _ _ _ _ _ (call_run _ _ w0 _ _ Hfetch)). reflexivity. }
  split.
  - intros Hnone. rewrite Hhead.
    destruct fetched as [[|pos rest]|]; [| discriminate |]; split; auto.
  - intros Hans. rewrite Hhead.
    destruct fetched as [[|pos rest]|];
      [split; [reflexivity | exists []; now rewrite app_nil_r]
      | | split; [reflexivity | exists []; now rewrite app_nil_r]].
    destruct (close_loop_answered (pos :: rest)
                (add_log (InfoFoundPositions (length (pos :: rest))) wf) Hans)
      as (w' & requests & Hrun & Hsub & Hpos).
    assert (Hend : try_except
                     (log (InfoFoundPositions (length (pos :: rest))) ;;;
                      close_loop mt5 (pos :: rest) ;;; ret true)
                     (log ErrCloseException ;;; ret false) wf
                   = (Ret true, w')).
    { unfold try_except. unfold bind at 1. unfold log at 1.
      now rewrite (bind_run _ _ _ _ _ Hrun). }
    rewrite Hend. split; [reflexivity|].
    exists requests. split; [|exact Hpos].
    cbn [snd]. rewrite Hsub. now rewrite <- Hsubf.
Qed.

End Translator.

(** ** The fuzzy match *)

Module DifflibFacts.
Import Difflib.

Lemma pair_lt_true p q : pair_lt p q = true -> Qle (fst p) (fst q).
Proof.
  unfold pair_lt. intros H. apply Qle_alt.
  destruct (Qcompare (fst p) (fst q)); discriminate.
Qed.

Lemma pair_lt_false p q : pair_lt p q = false -> Qle (fst q) (fst p).
Proof.
  unfold pair_lt. intros H. apply Qle_alt. rewrite <- Qcompare_antisym.
  destruct (Qcompare (fst p) (fst q)); simpl; discriminate.
Qed.

Lemma In_insert_desc x l q : In q (insert_desc x l) <-> q = x \/ In q l.
Proof.
  induction l as [|y r IH]; simpl.
  - intuition.
  - destruct (pair_lt x y); simpl; rewrite ?IH; intuition.
Qed.

Lemma In_sort_desc l q : In q (sort_desc l) <-> In q l.
Proof.
  induction l as [|x l IH]; simpl; [reflexivity|].
  rewrite In_insert_desc, IH. intuition.
Qed.

Lemma headed_insert_desc x l : headed l -> headed (insert_desc x l).
Proof.
  destruct l as [|y r]; simpl.
  - intros _ q [<- | []]. apply Qle_refl.
  - intros Hy. destruct (pair_lt x y) eqn:E; simpl.
    + intros q [<- | Hq]; [apply Qle_refl|].
      apply In_insert_desc in Hq as [-> | Hq]; [now apply pair_lt_true|].
      apply Hy. now right.
    + intros q [<- | Hq]; [apply Qle_refl|].
      apply Qle_trans with (fst y); [now apply Hy | now apply pair_lt_false].
Qed.

Lemma headed_sort_desc l : headed (sort_desc l).
Proof.
  induction l as [|x l IH]; simpl; [exact I | now apply headed_insert_desc].
Qed.

(** The pairs that are ranked: a possibility that passes the three tests,
    with its score. *)
Lemma In_scored cutoff word possibilities p :
  In p (scored cutoff word possibilities) <->
  exists x, In x possibilities /\ close_enough cutoff word x = true
            /\ p = (ratio x word, x).
Proof.
  unfold scored. rewrite in_flat_map. split.
  - intros (x & Hx & Hp). exists x. destruct (close_enough cutoff word x).
    + destruct Hp as [<- | []]. auto.
    + destruct Hp.
  - intros (x & Hx & Hc & ->). exists x. rewrite Hc. simpl. auto.
Qed.

Lemma close_enough_ratio cutoff word x :
  close_enough cutoff word x = true -> Qle cutoff (ratio x word).
Proof.
  unfold close_enough. intros [_ H]%andb_prop. now apply Qle_bool_iff.
Qed.

(** [get_close_matches] with [n = 3] and a cutoff of [0.6] never raises, and
    answers at most three matches. *)
Lemma get_close_matches_3 word possibilities :
  exists matches,
    get_close_matches word possibilities 3 (6 # 10) = Some matches
    /\ (length matches <= 3)%nat.
Proof.
  eexists. split; [reflexivity|].
  rewrite length_map. unfold nlargest. rewrite length_take. lia.
Qed.

(** The first match is a possibility that passes the tests, and no
    possibility that passes them has a higher score. *)
Lemma first_match_is_best word possibilities n cutoff m rest :
  get_close_matches word possibilities n cutoff = Some (m :: rest) ->
  In m possibilities
  /\ Qle cutoff (ratio m word)
  /\ forall x, In x possibilities -> close_enough cutoff word x = true ->
               Qle (ratio x word) (ratio m word).
Proof.
  unfold get_close_matches, nlargest.
  destruct (n =? 0)%nat eqn:Hn; [discriminate|].
  destruct (negb _); [discriminate|].
  intros [= H]. destruct n as [|n]; [discriminate|].
  pose proof (headed_sort_desc (scored cutoff word possibilities)) as Hhead.
  pose proof (In_sort_desc (scored cutoff word possibilities)) as Hin.
  destruct (sort_desc (scored cutoff word possibilities)) as [|p l]; [discriminate|].
  simpl in H. injection H as <- _.
  assert (Hp : In p (scored cutoff word possibilities)) by (apply Hin; now left).
  apply In_scored in Hp as (x & Hx & Hc & ->).
  simpl. split; [exact Hx|]. split; [now apply close_enough_ratio|].
  intros y Hy Hcy.
  apply (Hhead (ratio y word, y)). apply Hin, In_scored. eauto.
Qed.

End DifflibFacts.

Lemma find_upper m universe :
  In m (map upper universe) ->
  exists s, find (fun s => String.eqb (upper s) m) universe = Some s.
Proof.
  induction universe as [|s rest IH]; simpl; [intros []|].
  destruct (String.eqb_spec (upper s) m) as [E|E]; [eauto|].
  intros [H | H]; [contradiction | auto].
Qed.

(** C9: a candidate returned by [fuzzy_map] is a broker symbol whose
    upper-case similarity to the upper-case external symbol is at least
    the cutoff [0.6]; upper-cased, it is the first of the at most three
    matches that [get_close_matches] ranks, and no broker symbol that
    passes the cutoff tests is more similar. *)
Theorem fuzzy_map_above_cutoff (symbol : string) (universe : list string) (r : string) :
  fuzzy_map symbol universe = Some r ->
  In r universe
  /\ Qle (6 # 10) (Difflib.ratio (upper r) (upper symbol))
  /\ (exists matches,
        Difflib.get_close_matches (upper symbol) (map upper universe) 3 (6 # 10)
        = Some matches
        /\ (length matches <= 3)%nat
        /\ head matches = Some (upper r))
  /\ (forall s, In s universe ->
        Difflib.close_enough (6 # 10) (upper symbol) (upper s) = true ->
        Qle (Difflib.ratio (upper s) (upper symbol))
            (Difflib.ratio (upper r) (upper symbol))).
Proof.
  unfold fuzzy_map, fuzzy_cutoff.
  destruct (DifflibFacts.get_close_matches_3 (upper symbol) (map upper universe))
    as (matches & Hm & Hlen).
  rewrite Hm. destruct matches as [|m rest]; [discriminate|].
  destruct (DifflibFacts.first_match_is_best _ _ _ _ _ _ Hm) as (Hin & Hcut & Hbest).
  destruct (find_upper m universe Hin) as (s & Hs).
  cbn [first_named]. rewrite Hs. intros [= <-].
  apply find_some in Hs as [Hs Hup]. apply String.eqb_eq in Hup. subst m.
  split; [exact Hs|]. split; [exact Hcut|]. split.
  - exists (upper s :: rest). auto.
  - intros x Hx Hc. apply Hbest; [|exact Hc]. now apply in_map.
Qed.

(** ** The embedding on known values *)

(** The examples of the documentation of [difflib]. *)
Example difflib_get_close_matches :
  Difflib.get_close_matches "appel" ["ape"; "apple"; "peach"; "puppy"] 3 (6 # 10)
  = Some ["apple"; "ape"].
Proof. vm_compute. reflexivity. Qed.

Example difflib_ratios :
  Qeq (Difflib.ratio "abcd" "bcde") (3 # 4)
  /\ Qeq (Difflib.quick_ratio "abcd" "bcde") (3 # 4)
  /\ Qeq (Difflib.real_quick_ratio "abcd" "bcde") 1.
Proof. repeat split. Qed.

Example difflib_matching_blocks :
  Difflib.get_matching_blocks (Difflib.chars "abxcd") (Difflib.chars "abcd")
  = [(0, 0, 2); (3, 2, 2)]%nat.
Proof. reflexivity. Qed.

(** Normalization strips one suffix, then one prefix, then the rest. *)
Example normalize_examples :
  normalize "XAUUSDm" = "XAUUSD"
  /\ normalize "BTCUSD.pro" = "BTCUSD"
  /\ normalize "XAUUSD.m" = "XAUUSD"
  /\ normalize "mt5_eur-usd_m" = "EURUSD"
  /\ normalize "fx_gold." = "GOLD"
  /\ normalize "" = "".
Proof. repeat split. Qed.

Example strip_examples :
  strip "  EURUSD  " = "EURUSD" /\ strip "   " = "" /\ strip "a b" = "a b".
Proof. repeat split. Qed.

(** ** The scenarios of the specification, on the scripted terminal *)

(** C1 fails as stated: ["XAUUSD"] and ["BTCUSD"] are resolved by the
    normalized match, which comes before the prefix and the contains
    matches in the cascade. *)
Lemma resolve_scenario_strategies :
  map_symbol Script.mt5 "XAUUSD" (Script.world Script.live)
  = (Ret "XAUUSDm",
     add_log (InfoResult NormalizedMatch "XAUUSD" "XAUUSDm")
       (with_symbol_cache {[ "XAUUSD" := "XAUUSDm" ]}
          (add_log (InfoMapping "XAUUSD") (Script.world Script.live))))
  /\ map_symbol Script.mt5 "BTCUSD" (Script.world Script.live)
     = (Ret "BTCUSD.pro",
        add_log (InfoResult NormalizedMatch "BTCUSD" "BTCUSD.pro")
          (with_symbol_cache {[ "BTCUSD" := "BTCUSD.pro" ]}
             (add_log (InfoMapping "BTCUSD") (Script.world Script.live))))
  /\ InfoResult NormalizedMatch "XAUUSD" "XAUUSDm"
     <> InfoResult PrefixMatch "XAUUSD" "XAUUSDm"
  /\ InfoResult NormalizedMatch "BTCUSD" "BTCUSD.pro"
     <> InfoResult ContainsMatch "BTCUSD" "BTCUSD.pro".
Proof. repeat split; discriminate. Qed.

(** C3 fails as stated: the empty string gets no cache entry, and an
    input with white space around it is neither returned unchanged nor
    the key of the entry. *)
Lemma resolve_writes_stripped_key :
  (let run := map_symbol Script.mt5 "" (Script.world Script.live) in
   fst run = Ret "" /\ symbol_cache (snd run) = ∅)
  /\ (let run := map_symbol Script.mt5 " ZZZ " (Script.world Script.live) in
      fst run = Ret "ZZZ"
      /\ symbol_cache (snd run) !! " ZZZ " = None
      /\ symbol_cache (snd run) !! "ZZZ" = Some "ZZZ"
      /\ last (logs (snd run)) = Some (WarnNoMapping "ZZZ")).
Proof. vm_compute. repeat split. Qed.

(** C6 fails as stated: the positions are fetched, the submission of the
    second close raises, and [close_positions] answers [False] without
    trying the third position. *)
Lemma close_positions_stops_on_exception :
  let run := close_positions Script.mt5 PNone (Script.world Script.failing) in
  mt5_positions_get Script.mt5 PNone Script.failing
  = (Answer (Some Script.three_positions), Script.failing)
  /\ fst run = Ret false
  /\ map req_position (submitted (snd run)) = [Some 1%Z; Some 2%Z]
  /\ last (logs (snd run)) = Some ErrCloseException.
Proof. vm_compute. repeat split. Qed.

(** C5 at the market buy of the specification: the tick is
    [{bid: 1.1000, ask: 1.1002}] and the request carries [1.1002]. *)
Lemma send_order_prices_from_tick_witness :
  map req_price
      (submitted (snd (send_order Script.mt5 Script.no_parse Script.buy_eurusd
                         (Script.world Script.live))))
  = [1.1002%float].
Proof.
  set (w := Script.world Script.live).
  set (w0 := snd (map_symbol_value Script.mt5 (PStr "EURUSD") w)).
  set (w1 := snd (verify_symbol Script.mt5 (PStr "EURUSD") w0)).
  assert (Hgates : passes_gates Script.mt5 Script.no_parse Script.buy_eurusd w
                     (PStr "EURUSD") ORDER_TYPE_BUY 0 0 0 w1).
  { repeat split. exists w0. split; reflexivity. }
  pose proof (send_order_prices_from_tick Script.mt5 Script.no_parse
                Script.buy_eurusd w (PStr "EURUSD") ORDER_TYPE_BUY 0.1 0 0 0 w1
                (Answer (Some Script.eurusd_tick)) Script.live
                eq_refl Hgates eq_refl eq_refl) as H.
  cbv beta zeta iota in H. destruct H as (_ & _ & request & Hs & Hp & _).
  rewrite Hs. change (submitted w) with (@nil OrderRequest).
  cbn [app map]. rewrite Hp. reflexivity.
Defined.

(** C10 at the same signal, which names no volume. *)
Lemma send_order_default_volume_witness :
  map req_volume
      (submitted (snd (send_order Script.mt5 Script.no_parse Script.buy_eurusd
                         (Script.world Script.live))))
  = [0.1%float].
Proof.
  set (w := Script.world Script.live).
  set (w0 := snd (map_symbol_value Script.mt5 (PStr "EURUSD") w)).
  set (w1 := snd (verify_symbol Script.mt5 (PStr "EURUSD") w0)).
  assert (Hgates : passes_gates Script.mt5 Script.no_parse Script.buy_eurusd w
                     (PStr "EURUSD") ORDER_TYPE_BUY 0 0 0 w1).
  { repeat split. exists w0. split; reflexivity. }
  assert (Hpriced : priced Script.mt5 (PStr "EURUSD") ORDER_TYPE_BUY 0 w1
                      (ask Script.eurusd_tick)).
  { exists Script.eurusd_tick, Script.live. split; reflexivity. }
  destruct (send_order_default_volume Script.mt5 Script.no_parse
              Script.buy_eurusd w (PStr "EURUSD") ORDER_TYPE_BUY 0 0 0 w1
              (ask Script.eurusd_tick) eq_refl Hgates Hpriced) as (_ & H & _).
  rewrite H. reflexivity.
Defined.

(** C6 at three positions of which the broker rejects the second: all
    three closes are attempted and the answer is [True]. *)
Lemma close_positions_succeeds_witness :
  let run := close_positions Script.mt5 PNone (Script.world Script.rejecting) in
  fst run = Ret true
  /\ exists requests,
       submitted (snd run) = requests
       /\ map req_position requests = [Some 1%Z; Some 2%Z; Some 3%Z].
Proof.
  assert (Hans : answers_closes Script.mt5 Script.three_positions Script.rejecting).
  { simpl. repeat (do 4 eexists; split; [reflexivity|]; split; [reflexivity|]).
    exact I. }
  destruct (close_positions_succeeds Script.mt5 PNone (Script.world Script.rejecting)
              PNone (Script.world Script.rejecting)
              (Some Script.three_positions) Script.rejecting eq_refl eq_refl)
    as [_ H].
  destruct (H Hans) as (Hres & requests & Hsub & Hpos).
  split; [exact Hres|]. exists requests. split; [exact Hsub | exact Hpos].
Defined.

(** C7 at the action ["SCALE_IN"]. *)
Lemma send_order_unsupported_action_witness :
  let signal : Signal := {[ "action" := PStr "SCALE_IN"; "symbol" := PStr "EURUSD" ]} in
  let run := send_order Script.mt5 Script.no_parse signal (Script.world Script.live) in
  fst run = Ret false /\ submitted (snd run) = [].
Proof.
  apply (send_order_unsupported_action Script.mt5 Script.no_parse
           {[ "action" := PStr "SCALE_IN"; "symbol" := PStr "EURUSD" ]}
           (Script.world Script.live)).
  intros a Ha. simpl in Ha.
  destruct Ha as [<-|[<-|[<-|[<-|[<-|[<-|[<-|[<-|[]]]]]]]]]; vm_compute; discriminate.
Defined.

(** C8 at a handler that was never connected. *)
Lemma send_order_not_connected_witness :
  send_order Script.mt5 Script.no_parse Script.buy_eurusd (Script.offline Script.live)
  = (Ret false, add_log ErrNotConnected (Script.offline Script.live)).
Proof.
  apply (send_order_not_connected Script.mt5 Script.no_parse Script.buy_eurusd
           (Script.offline Script.live)).
  reflexivity.
Defined.

(** C9 at a misspelt symbol. *)
Lemma fuzzy_map_above_cutoff_witness :
  fuzzy_map "XAUSD" Script.universe = Some "XAUUSDm"
  /\ Qle (6 # 10) (Difflib.ratio "XAUUSDM" "XAUSD").
Proof.
  assert (H : fuzzy_map "XAUSD" Script.universe = Some "XAUUSDm")
    by (vm_compute; reflexivity).
  split; [exact H|].
  exact (proj1 (proj2 (fuzzy_map_above_cutoff "XAUSD" Script.universe "XAUUSDm" H))).
Defined.

(** Every strategy fails for ["ZZZ"] on the universe of the scenario. *)
Example every_strategy_fails_for_zzz :
  all_strategies_fail Script.mt5 "ZZZ" (Script.world Script.live).
Proof.
  unfold all_strategies_fail. split; [reflexivity|]. split; [discriminate|].
  split; [vm_compute; reflexivity|]. split; [|vm_compute; reflexivity].
  exists None,
    (snd (description_match Script.mt5 "ZZZ"
            (add_log (InfoMapping "ZZZ") (Script.world Script.live)))).
  split; reflexivity.
Qed.

(* ===================================================================== *)
(** * Further properties of the handler                                   *)
(* ===================================================================== *)

(** ** What the cascade returns *)

Lemma first_named_member matches universe r :
  first_named matches universe = Some r ->
  In r universe /\ In (upper r) matches.
Proof.
  induction matches as [|m rest IH]; cbn [first_named]; [discriminate|].
  destruct (find _ universe) as [s|] eqn:Hs.
  - intros [= <-]. apply find_some in Hs as [Hin Heq].
    apply String.eqb_eq in Heq. split; [exact Hin | now left].
  - intros H. destruct (IH H). split; [assumption | now right].
Qed.

Lemma nonempty_some o r : nonempty o = Some r -> o = Some r /\ r <> "".
Proof.
  destruct o as [s|]; [|discriminate]. cbn [nonempty].
  destruct s; cbn [is_empty]; [discriminate|]. intros [= <-]. now split.
Qed.

Lemma mem_In x l : mem x l = true <-> In x l.
Proof.
  unfold mem. rewrite existsb_exists. split.
  - intros (y & Hy & Heq). apply String.eqb_eq in Heq. now subst.
  - intros H. exists x. split; [exact H | apply String.eqb_refl].
Qed.

(** A strategy that reads only the universe returns one of its members. *)
Lemma cheap_strategies_member symbol universe how r :
  cheap_strategies symbol universe = Some (how, r) -> In r universe.
Proof.
  unfold cheap_strategies.
  destruct (mem symbol universe) eqn:Hmem.
  { intros [= _ <-]. now apply mem_In. }
  repeat match goal with
         | |- context [find ?f universe] =>
             destruct (find f universe) eqn:?;
             [intros [= _ <-]; eapply find_some; eassumption|]
         end.
  destruct (nonempty _) as [s|] eqn:Hf; [|discriminate].
  intros [= _ <-]. apply nonempty_some in Hf as [Hf _].
  unfold fuzzy_map in Hf. destruct (Difflib.get_close_matches _ _ _ _); [|discriminate].
  now apply first_named_member in Hf.
Qed.

Lemma find_in_universe universe variants v :
  find (fun variant => mem variant universe) variants = Some v ->
  In v variants /\ In v universe.
Proof. intros [H1 H2]%find_some. split; [exact H1 | now apply mem_In]. Qed.

(** X1: [transform_symbol] answers a table variant or a mechanical variation
    that the universe holds, and [None] exactly when the universe holds
    none of them; the membership test that [map_symbol] repeats on its
    answer never fails. *)
Theorem transform_symbol_in_universe (symbol : string) (universe : list string) :
  match transform_symbol symbol universe with
  | Some v =>
      In v universe
      /\ (In v (variations symbol)
          \/ exists variants,
               table_lookup (upper symbol) = Some variants /\ In v variants)
  | None =>
      forall v, In v universe ->
        ~ In v (variations symbol)
        /\ forall variants, table_lookup (upper symbol) = Some variants ->
                            ~ In v variants
  end
  /\ transform_strategy symbol universe = nonempty (transform_symbol symbol universe).
Proof.
  assert (Hnone : forall variants,
            find (fun variant => mem variant universe) variants = None ->
            forall v, In v universe -> ~ In v variants).
  { intros variants Hf v Hv Hin.
    pose proof (find_none _ _ Hf v Hin) as H. cbv beta in H.
    now rewrite (proj2 (mem_In v universe) Hv) in H. }
  assert (Hmem : forall v, transform_symbol symbol universe = Some v -> In v universe).
  { unfold transform_symbol. intros v.
    destruct (table_lookup (upper symbol)) as [variants|].
    - destruct (find _ variants) eqn:E.
      + intros [= <-]. now apply find_in_universe in E.
      + intros E'. now apply find_in_universe in E'.
    - intros E'. now apply find_in_universe in E'. }
  split.
  - destruct (transform_symbol symbol universe) as [v|] eqn:Ht.
    + split; [now apply Hmem|].
      unfold transform_symbol in Ht.
      destruct (table_lookup (upper symbol)) as [variants|].
      * destruct (find _ variants) eqn:E.
        -- injection Ht as <-. right. exists variants. split; [reflexivity|].
           now apply find_in_universe in E.
        -- left. now apply find_in_universe in Ht.
      * left. now apply find_in_universe in Ht.
    + unfold transform_symbol in Ht. intros v Hv.
      destruct (table_lookup (upper symbol)) as [variants|].
      * destruct (find _ variants) eqn:E; [discriminate|]. split.
        -- now apply (Hnone _ Ht).
        -- intros ? [= <-]. now apply (Hnone _ E).
      * split; [now apply (Hnone _ Ht) | discriminate].
  - unfold transform_strategy.
    destruct (nonempty (transform_symbol symbol universe)) as [t|] eqn:E;
      [|reflexivity].
    apply nonempty_some in E as [E _]. apply Hmem in E.
    now rewrite (proj2 (mem_In t universe) E).
Qed.

Section EngineResults.
Context {B : Type} (mt5 : MT5 B).
Implicit Types w : World B.

(** A cache miss that one of the strategies 1 to 6 settles: no call, one
    cache entry, two log lines. *)
Lemma map_symbol_cheap symbol w how s :
  is_empty symbol = false ->
  symbol_cache w !! strip symbol = None ->
  broker_symbols w <> [] ->
  cheap_strategies (strip symbol) (broker_symbols w) = Some (how, s) ->
  map_symbol mt5 symbol w
  = (Ret s,
     add_log (InfoResult how (strip symbol) s)
       (with_symbol_cache (<[strip symbol := s]> (symbol_cache w))
          (add_log (InfoMapping (strip symbol)) w))).
Proof.
  intros Hemp Hcache Hne Hcheap.
  unfold map_symbol. rewrite Hemp. set (key := strip symbol) in *.
  destruct (broker_symbols w) as [|x l] eqn:Hu; [contradiction|].
  unfold bind at 1. unfold log at 1.
  unfold bind at 1. unfold get at 1. cbn [symbol_cache add_log]. rewrite Hcache.
  unfold bind at 1. unfold get at 1. cbn [broker_symbols add_log]. rewrite Hu.
  unfold bind at 1. unfold ret at 1.
  unfold bind at 1. unfold get at 1. cbn [broker_symbols add_log]. rewrite Hu.
  rewrite Hcheap. reflexivity.
Qed.

(** X2: a symbol that the universe holds verbatim is returned unchanged,
    with an identity entry in the cache and without any call. *)
Theorem map_symbol_exact (symbol : string) (w : World B) :
  is_empty symbol = false ->
  symbol_cache w !! strip symbol = None ->
  In (strip symbol) (broker_symbols w) ->
  map_symbol mt5 symbol w
  = (Ret (strip symbol),
     add_log (InfoResult ExactMatch (strip symbol) (strip symbol))
       (with_symbol_cache (<[strip symbol := strip symbol]> (symbol_cache w))
          (add_log (InfoMapping (strip symbol)) w))).
Proof.
  intros Hemp Hcache Hin. apply map_symbol_cheap; try assumption.
  - intros E. now rewrite E in Hin.
  - unfold cheap_strategies. now rewrite (proj2 (mem_In _ _) Hin).
Qed.

Lemma find_upper_eq key universe s :
  In s universe -> upper s = upper key ->
  exists r, find (fun s => String.eqb (upper s) (upper key)) universe = Some r.
Proof.
  intros Hin Hup. destruct (find _ universe) eqn:E; [eauto|].
  pose proof (find_none _ _ E s Hin) as H. cbv beta in H.
  rewrite Hup, String.eqb_refl in H. discriminate.
Qed.

(** X3: a symbol that differs from a member of the universe only in case
    resolves, without any call, to a member of the universe with that
    upper case, in the member's own casing. *)
Theorem map_symbol_case_insensitive (symbol : string) (w : World B) (s : string) :
  is_empty symbol = false ->
  symbol_cache w !! strip symbol = None ->
  In s (broker_symbols w) ->
  upper s = upper (strip symbol) ->
  exists r w',
    map_symbol mt5 symbol w = (Ret r, w')
    /\ In r (broker_symbols w)
    /\ upper r = upper (strip symbol)
    /\ symbol_cache w' = <[strip symbol := r]> (symbol_cache w)
    /\ calls w' = calls w /\ terminal w' = terminal w.
Proof.
  intros Hemp Hcache Hin Hup.
  assert (Hne : broker_symbols w <> []) by (intros E; now rewrite E in Hin).
  assert (Hcheap : exists how r,
            cheap_strategies (strip symbol) (broker_symbols w) = Some (how, r)
            /\ In r (broker_symbols w) /\ upper r = upper (strip symbol)).
  { unfold cheap_strategies.
    destruct (mem (strip symbol) (broker_symbols w)) eqn:Hmem.
    - exists ExactMatch, (strip symbol). repeat split. now apply mem_In.
    - destruct (find_upper_eq _ _ _ Hin Hup) as (r & Hr). rewrite Hr.
      exists CaseMatch, r. split; [reflexivity|].
      apply find_some in Hr as [Hr1 Hr2]. apply String.eqb_eq in Hr2. now split. }
  destruct Hcheap as (how & r & Hcheap & Hr & Hupr).
  eexists r, _.
  split; [exact (map_symbol_cheap symbol w how r Hemp Hcache Hne Hcheap)|].
  repeat split; assumption.
Qed.

Lemma prefix_empty s : String.prefix "" s = true.
Proof. now destruct s. Qed.

(** X4: a symbol made of white space only is not refused: with a universe
    at hand it resolves, without any call, to a member of the universe
    (every broker symbol starts with the empty string). *)
Theorem map_symbol_blank (symbol : string) (w : World B) :
  is_empty symbol = false ->
  strip symbol = "" ->
  symbol_cache w !! "" = None ->
  broker_symbols w <> [] ->
  exists r w',
    map_symbol mt5 symbol w = (Ret r, w')
    /\ In r (broker_symbols w)
    /\ symbol_cache w' = <["" := r]> (symbol_cache w)
    /\ calls w' = calls w.
Proof.
  intros Hemp Hstrip Hcache Hne.
  assert (Hcheap : exists how r,
            cheap_strategies "" (broker_symbols w) = Some (how, r)).
  { unfold cheap_strategies.
    destruct (mem "" (broker_symbols w)); [eauto|].
    destruct (find _ (broker_symbols w)); [eauto|].
    destruct (find _ (broker_symbols w)); [eauto|].
    destruct (broker_symbols w) as [|x l] eqn:Hu; [contradiction|].
    cbn [find]. unfold startswith. cbn [upper]. rewrite prefix_empty. eauto. }
  destruct Hcheap as (how & r & Hcheap).
  pose proof (cheap_strategies_member _ _ _ _ Hcheap) as Hr.
  rewrite <- Hstrip in Hcache, Hcheap.
  pose proof (map_symbol_cheap symbol w how r Hemp Hcache Hne Hcheap) as Hrun.
  rewrite Hstrip in Hrun.
  eexists r, _. split; [exact Hrun|]. repeat split. exact Hr.
Qed.

End EngineResults.

Lemma transform_strategy_member symbol universe r :
  transform_strategy symbol universe = Some r -> In r universe.
Proof.
  unfold transform_strategy. destruct (nonempty _) as [t|]; [|discriminate].
  destruct (mem t universe) eqn:E; [|discriminate].
  intros [= <-]. now apply mem_In.
Qed.

Section EngineCalls.
Context {B : Type} (mt5 : MT5 B).
Implicit Types w : World B.

(** The loop of [description_match] asks for the metadata of the broker
    symbols in order, stops at the first that matches, and answers it. *)
Lemma description_loop_calls symbol universe w :
  wp (description_loop mt5 symbol universe)
     (fun o w' =>
        broker_symbols w' = broker_symbols w
        /\ symbol_cache w' = symbol_cache w
        /\ (exists n, (n <= length universe)%nat
                      /\ calls w' = (calls w ++ map (fun s => CSymbolInfo (PStr s))
                                                    (take n universe))%list)
        /\ match o with
           | Ret (Some r) =>
               In r universe
               /\ exists t info description,
                    fst (mt5_symbol_info mt5 (PStr r) t) = Answer (Some info)
                    /\ info_description info = Some description
                    /\ is_empty description = false
                    /\ (contains (upper description) (upper symbol)
                        || contains (upper symbol) (upper description)) = true
           | _ => True
           end) w.
Proof.
  revert w. induction universe as [|s rest IH]; intros w; cbn [description_loop].
  - apply wp_ret. repeat split. exists 0%nat. split; [lia|]. now rewrite app_nil_r.
  - assert (Hrest : forall b,
              wp (description_loop mt5 symbol rest)
                 (fun o w' =>
                    broker_symbols w' = broker_symbols w
                    /\ symbol_cache w' = symbol_cache w
                    /\ (exists n, (n <= length (s :: rest))%nat
                         /\ calls w' = (calls w ++ map (fun s => CSymbolInfo (PStr s))
                                                       (take n (s :: rest)))%list)
                    /\ match o with
                       | Ret (Some r) =>
                           In r (s :: rest)
                           /\ exists t info description,
                                fst (mt5_symbol_info mt5 (PStr r) t) = Answer (Some info)
                                /\ info_description info = Some description
                                /\ is_empty description = false
                                /\ (contains (upper description) (upper symbol)
                                    || contains (upper symbol) (upper description))
                                   = true
                       | _ => True
                       end)
                 (add_call (CSymbolInfo (PStr s)) b w)).
    { intros b. eapply wp_mono; [apply IH|].
      intros o w' (Hu & Hc & (n & Hn & Hcalls) & Hr). cbn in Hu, Hc, Hcalls.
      repeat split; try assumption.
      - exists (S n). split; [simpl; lia|].
        rewrite Hcalls. cbn [take map]. now rewrite <- app_assoc.
      - destruct o as [[r|]|]; [|exact I|exact I].
        destruct Hr as [Hin Hwhy]. split; [now right | exact Hwhy]. }
    assert (Hstop : forall b,
              (exists n, (n <= length (s :: rest))%nat
                 /\ calls (add_call (CSymbolInfo (PStr s)) b w)
                    = (calls w ++ map (fun s => CSymbolInfo (PStr s))
                                      (take n (s :: rest)))%list)).
    { intros b. exists 1%nat. split; [simpl; lia|]. reflexivity. }
    apply wp_bind, wp_call. intros [info|] b E.
    + destruct info as [[nm [description|] vis]|]; try apply Hrest.
      destruct (is_empty description) eqn:Hempty; [apply Hrest|].
      destruct (_ || _) eqn:Hmatch; [|apply Hrest].
      apply wp_ret. split; [reflexivity|]. split; [reflexivity|].
      split; [apply Hstop|]. split; [now left|].
      exists (terminal w), {| info_name := nm; info_description := Some description;
                              info_visible := vis |}, description.
      rewrite E. auto.
    + repeat split. apply Hstop.
Qed.

Lemma cache_broker_symbols_wp (Q : outcome unit -> World B -> Prop) w :
  (forall w',
      broker_symbols w'
      = match fst (mt5_symbols_get mt5 (terminal w)) with
        | Answer (Some symbols) => map info_name symbols
        | _ => []
        end ->
      calls w' = (calls w ++ [CSymbolsGet])%list ->
      terminal w' = snd (mt5_symbols_get mt5 (terminal w)) ->
      symbol_cache w' = symbol_cache w ->
      connected w' = connected w ->
      Q (Ret tt) w') ->
  wp (_cache_broker_symbols mt5) Q w.
Proof.
  intros HQ. unfold wp, _cache_broker_symbols, try_except, bind, call.
  destruct (mt5_symbols_get mt5 (terminal w)) as [[[symbols|]|] b];
    apply HQ; reflexivity.
Qed.

Lemma description_match_wp symbol (Q : outcome (option string) -> World B -> Prop) w :
  (forall d w', broker_symbols w' = broker_symbols w ->
                symbol_cache w' = symbol_cache w ->
                (exists n, (n <= length (broker_symbols w))%nat
                           /\ calls w' = (calls w ++ map (fun s => CSymbolInfo (PStr s))
                                                         (take n (broker_symbols w)))%list) ->
                (forall r, d = Some r ->
                   In r (broker_symbols w)
                   /\ exists t info description,
                        fst (mt5_symbol_info mt5 (PStr r) t) = Answer (Some info)
                        /\ info_description info = Some description
                        /\ is_empty description = false
                        /\ (contains (upper description) (upper symbol)
                            || contains (upper symbol) (upper description)) = true) ->
                Q (Ret d) w') ->
  wp (description_match mt5 symbol) Q w.
Proof.
  intros HQ. unfold description_match. apply wp_try, wp_bind, wp_get.
  eapply wp_mono; [apply description_loop_calls|].
  intros [d|] w' (Hu & Hc & Hcalls & Hr).
  - apply HQ; try assumption. intros r ->. exact Hr.
  - apply wp_bind, wp_log, wp_ret. apply HQ; try assumption. discriminate.
Qed.

(** X5: [description_match] never raises, leaves the cache and the universe
    alone, and asks only for the metadata of broker symbols, in the order
    of the universe and at most once each. A symbol it answers is a
    member of the universe for which the terminal answered a description
    that is not empty and that, in upper case, contains the symbol or is
    contained in it. *)
Theorem description_match_bounded (symbol : string) (w : World B) :
  exists d w',
    description_match mt5 symbol w = (Ret d, w')
    /\ broker_symbols w' = broker_symbols w
    /\ symbol_cache w' = symbol_cache w
    /\ (exists n, (n <= length (broker_symbols w))%nat
                  /\ calls w' = (calls w ++ map (fun s => CSymbolInfo (PStr s))
                                                (take n (broker_symbols w)))%list)
    /\ (forall r, d = Some r ->
          In r (broker_symbols w)
          /\ exists t info description,
               fst (mt5_symbol_info mt5 (PStr r) t) = Answer (Some info)
               /\ info_description info = Some description
               /\ is_empty description = false
               /\ (contains (upper description) (upper symbol)
                   || contains (upper symbol) (upper description)) = true).
Proof.
  assert (H : wp (description_match mt5 symbol)
                 (returning (fun d w' =>
                    broker_symbols w' = broker_symbols w
                    /\ symbol_cache w' = symbol_cache w
                    /\ (exists n, (n <= length (broker_symbols w))%nat
                         /\ calls w' = (calls w ++ map (fun s => CSymbolInfo (PStr s))
                                                       (take n (broker_symbols w)))%list)
                    /\ (forall r, d = Some r ->
                          In r (broker_symbols w)
                          /\ exists t info description,
                               fst (mt5_symbol_info mt5 (PStr r) t) = Answer (Some info)
                               /\ info_description info = Some description
                               /\ is_empty description = false
                               /\ (contains (upper description) (upper symbol)
                                   || contains (upper symbol) (upper description))
                                  = true))) w).
  { apply description_match_wp. intros d w' Hu Hc Hcalls Hd.
    split; [exact Hu|]. split; [exact Hc|]. split; [exact Hcalls | exact Hd]. }
  unfold wp in H. destruct (description_match mt5 symbol w) as [[d|] w'];
    [|contradiction].
  now exists d, w'.
Qed.

(** X6: [_cache_broker_symbols] never raises; it makes the one call
    [symbols_get], leaves the cache and the connection flag alone, and
    sets the universe to the names answered, or to the empty list when the
    terminal answers [None] or raises. *)
Theorem cache_broker_symbols_outcome (w : World B) :
  exists w',
    _cache_broker_symbols mt5 w = (Ret tt, w')
    /\ broker_symbols w'
       = match fst (mt5_symbols_get mt5 (terminal w)) with
         | Answer (Some symbols) => map info_name symbols
         | _ => []
         end
    /\ calls w' = (calls w ++ [CSymbolsGet])%list
    /\ terminal w' = snd (mt5_symbols_get mt5 (terminal w))
    /\ symbol_cache w' = symbol_cache w
    /\ connected w' = connected w.
Proof.
  assert (H : wp (_cache_broker_symbols mt5)
                 (fun o w' =>
                    o = Ret tt
                    /\ broker_symbols w'
                       = match fst (mt5_symbols_get mt5 (terminal w)) with
                         | Answer (Some symbols) => map info_name symbols
                         | _ => []
                         end
                    /\ calls w' = (calls w ++ [CSymbolsGet])%list
                    /\ terminal w' = snd (mt5_symbols_get mt5 (terminal w))
                    /\ symbol_cache w' = symbol_cache w
                    /\ connected w' = connected w) w).
  { apply cache_broker_symbols_wp. intros w' Hu Hcalls Ht Hc Hconn.
    repeat split; assumption. }
  unfold wp in H. destruct (_cache_broker_symbols mt5 w) as [o w'].
  cbn [fst snd] in H. destruct H as (-> & H). now exists w'.
Qed.

End EngineCalls.

Section EngineOrigin.
Context {B : Type} (mt5 : MT5 B).
Implicit Types w : World B.

(** The rest of [map_symbol], once the universe was looked at: from a
    world [w1] that has made the calls [refresh] since [w]. *)
Lemma map_symbol_cascade key (k : unit -> M B string) w w1 refresh :
  k = (fun _ =>
         universe <- get broker_symbols ;;
         match universe with
         | [] =>
             log WarnNoBrokerSymbols ;;;
             cache_put key key ;;;
             ret key
         | _ =>
             match cheap_strategies key universe with
             | Some (how, s) => resolved how key s
             | None =>
                 desc_match <- description_match mt5 key ;;
                 match nonempty desc_match with
                 | Some s => resolved DescriptionMatch key s
                 | None =>
                     match transform_strategy key universe with
                     | Some s => resolved TransformMatch key s
                     | None =>
                         log (WarnNoMapping key) ;;;
                         cache_put key key ;;;
                         ret key
                     end
                 end
             end
         end) ->
  calls w1 = (calls w ++ refresh)%list ->
  wp (k tt)
     (returning (fun r w' =>
        (In r (broker_symbols w') \/ r = key)
        /\ broker_symbols w' = broker_symbols w1
        /\ exists n,
             (n <= length (broker_symbols w'))%nat
             /\ calls w' = (calls w ++ refresh
                              ++ map (fun s => CSymbolInfo (PStr s))
                                     (take n (broker_symbols w')))%list)) w1.
Proof.
  intros -> Hcalls1.
  remember (broker_symbols w1) as u eqn:Hu1.
  assert (Hasked : forall n w3,
             (n <= length u)%nat ->
             calls w3 = (calls w1 ++ map (fun s => CSymbolInfo (PStr s)) (take n u))%list ->
             broker_symbols w3 = u ->
             broker_symbols w3 = u
             /\ exists n,
                  (n <= length (broker_symbols w3))%nat
                  /\ calls w3 = (calls w ++ refresh
                                   ++ map (fun s => CSymbolInfo (PStr s))
                                          (take n (broker_symbols w3)))%list).
  { intros n w3 Hn E3 U3. split; [exact U3|]. exists n.
    rewrite E3, Hcalls1, U3, <- app_assoc. now split. }
  assert (Hquiet : forall w3,
             calls w3 = calls w1 -> broker_symbols w3 = u ->
             broker_symbols w3 = u
             /\ exists n,
                  (n <= length (broker_symbols w3))%nat
                  /\ calls w3 = (calls w ++ refresh
                                   ++ map (fun s => CSymbolInfo (PStr s))
                                          (take n (broker_symbols w3)))%list).
  { intros w3 E3 U3. apply (Hasked 0%nat); [lia | | exact U3].
    rewrite E3. cbn. now rewrite app_nil_r. }
  apply wp_bind, wp_get. rewrite <- Hu1.
  destruct u as [|s l].
  - unfold cache_put. wp_steps. unfold returning.
    split; [now right|]. apply Hquiet; [reflexivity | now symmetry].
  - destruct (cheap_strategies key (s :: l)) as [[how r]|] eqn:Hcheap.
    + unfold resolved, cache_put. wp_steps. unfold returning.
      split; [|apply Hquiet; [reflexivity | now symmetry]].
      left. cbn. rewrite <- Hu1. eapply cheap_strategies_member; eassumption.
    + apply wp_bind, description_match_wp.
      intros d w2 Hu2 Hc2 (n & Hn & Hcalls2) Hd.
      rewrite <- Hu1 in Hu2, Hn, Hcalls2, Hd.
      destruct (nonempty d) as [r|] eqn:Hnonempty.
      * unfold resolved, cache_put. wp_steps. unfold returning.
        split; [|now apply (Hasked n)].
        left. cbn. rewrite Hu2. apply Hd.
        now apply nonempty_some in Hnonempty.
      * destruct (transform_strategy key (s :: l)) as [r|] eqn:Htransform.
        -- unfold resolved, cache_put. wp_steps. unfold returning.
           split; [|now apply (Hasked n)].
           left. cbn. rewrite Hu2.
           eapply transform_strategy_member; eassumption.
        -- unfold cache_put. wp_steps. unfold returning.
           split; [now right | now apply (Hasked n)].
Qed.

(** Where the result of [map_symbol] comes from, and the calls it makes. *)
Lemma map_symbol_trace symbol w :
  wp (map_symbol mt5 symbol)
     (returning (fun r w' =>
        let refreshed :=
          if is_empty symbol then false
          else match symbol_cache w !! strip symbol, broker_symbols w with
               | None, [] => true
               | _, _ => false
               end in
        (if is_empty symbol then r = symbol
         else match symbol_cache w !! strip symbol with
              | Some cached => r = cached
              | None => In r (broker_symbols w') \/ r = strip symbol
              end)
        /\ broker_symbols w'
           = (if refreshed
              then match fst (mt5_symbols_get mt5 (terminal w)) with
                   | Answer (Some symbols) => map info_name symbols
                   | _ => []
                   end
              else broker_symbols w)
        /\ exists n,
             (n <= length (broker_symbols w'))%nat
             /\ calls w' = (calls w ++ (if refreshed then [CSymbolsGet] else [])
                              ++ map (fun s => CSymbolInfo (PStr s))
                                     (take n (broker_symbols w')))%list)) w.
Proof.
  unfold map_symbol. destruct (is_empty symbol) eqn:Hemp.
  { wp_steps. unfold returning. cbv zeta. repeat split.
    exists 0%nat. split; [lia|]. cbn. now rewrite !app_nil_r. }
  set (key := strip symbol).
  apply wp_bind, wp_log, wp_bind, wp_get. cbn [symbol_cache add_log].
  destruct (symbol_cache w !! key) as [cached|] eqn:Hcache.
  { wp_steps. unfold returning. cbv zeta. repeat split.
    exists 0%nat. split; [lia|]. cbn. now rewrite !app_nil_r. }
  apply wp_bind, wp_get.
  lazymatch goal with |- wp (bind _ ?k) _ _ => set (rest := k) end.
  apply wp_bind. cbn [broker_symbols add_log].
  destruct (broker_symbols w) as [|s l] eqn:Huniverse.
  - apply cache_broker_symbols_wp. intros w1 Hu Hcalls _ _ _.
    eapply wp_mono;
      [exact (map_symbol_cascade key rest w w1 [CSymbolsGet] eq_refl Hcalls)|].
    intros [r|] w' H; [|exact H]. unfold returning in *. cbv zeta.
    destruct H as (Hr & Hu' & Hn). split; [exact Hr|]. split; [|exact Hn].
    rewrite Hu', Hu. reflexivity.
  - apply wp_ret.
    assert (Hcalls : calls (add_log (InfoMapping key) w) = (calls w ++ [])%list).
    { cbn. now rewrite app_nil_r. }
    eapply wp_mono;
      [exact (map_symbol_cascade key rest w _ [] eq_refl Hcalls)|].
    intros [r|] w' H; [|exact H]. unfold returning in *. cbv zeta.
    destruct H as (Hr & Hu' & Hn). split; [exact Hr|]. split; [|exact Hn].
    rewrite Hu'. exact Huniverse.
Qed.

(** X7: [map_symbol] invents no name: what it returns is the empty symbol
    it was given, the cached entry, a member of the universe it ends
    with, or the stripped symbol itself; and a universe that is there is
    kept as it is. *)
Theorem map_symbol_origin (symbol : string) (w : World B) :
  exists r w',
    map_symbol mt5 symbol w = (Ret r, w')
    /\ (if is_empty symbol then r = symbol
        else match symbol_cache w !! strip symbol with
             | Some cached => r = cached
             | None => In r (broker_symbols w') \/ r = strip symbol
             end)
    /\ match broker_symbols w with
       | [] => True
       | _ => broker_symbols w' = broker_symbols w
       end.
Proof.
  pose proof (map_symbol_trace symbol w) as H. unfold wp in H.
  destruct (map_symbol mt5 symbol w) as [[r|] w']; [|contradiction].
  cbn in H. destruct H as (Hr & Hu & _). exists r, w'. repeat split; [exact Hr|].
  destruct (broker_symbols w); [exact I|]. rewrite Hu.
  destruct (is_empty symbol); [reflexivity|].
  now destruct (symbol_cache w !! strip symbol).
Qed.

(** X8: the only calls [map_symbol] makes to the terminal are reads. It
    calls [symbols_get] once, exactly when the symbol is not empty, the
    cache has no entry for it and the universe is empty, and takes the
    names answered for its universe; then [symbol_info] for the first
    [n] symbols of the universe, in order and once each. *)
Theorem map_symbol_reads_only (symbol : string) (w : World B) :
  exists r w' n,
    map_symbol mt5 symbol w = (Ret r, w')
    /\ let refreshed :=
         if is_empty symbol then false
         else match symbol_cache w !! strip symbol, broker_symbols w with
              | None, [] => true
              | _, _ => false
              end in
       broker_symbols w'
       = (if refreshed
          then match fst (mt5_symbols_get mt5 (terminal w)) with
               | Answer (Some symbols) => map info_name symbols
               | _ => []
               end
          else broker_symbols w)
       /\ (n <= length (broker_symbols w'))%nat
       /\ calls w' = (calls w ++ (if refreshed then [CSymbolsGet] else [])
                        ++ map (fun s => CSymbolInfo (PStr s))
                               (take n (broker_symbols w')))%list.
Proof.
  pose proof (map_symbol_trace symbol w) as H. unfold wp in H.
  destruct (map_symbol mt5 symbol w) as [[r|] w']; [|contradiction].
  cbn [returning fst snd] in H. cbv zeta in H.
  destruct H as (_ & Hu & n & Hn & Hcalls). exists r, w', n.
  split; [reflexivity|]. cbv zeta. auto.
Qed.

End EngineOrigin.

(** ** Connection and cache management *)

Section Connection.
Context {B : Type} (mt5 : MT5 B) (float_of_str : string -> option float).
Implicit Types w : World B.

(** X9: a resolution without a universe. When the universe is empty and
    [symbols_get] answers no symbol, answers [None] or raises,
    [map_symbol] returns the stripped symbol after that one call and
    caches the identity entry, which later calls will answer from. *)
Theorem map_symbol_without_universe (symbol : string) (w : World B) :
  is_empty symbol = false ->
  symbol_cache w !! strip symbol = None ->
  broker_symbols w = [] ->
  (forall symbols, fst (mt5_symbols_get mt5 (terminal w)) = Answer (Some symbols) ->
                   symbols = []) ->
  exists w',
    map_symbol mt5 symbol w = (Ret (strip symbol), w')
    /\ symbol_cache w' = <[strip symbol := strip symbol]> (symbol_cache w)
    /\ broker_symbols w' = []
    /\ calls w' = (calls w ++ [CSymbolsGet])%list
    /\ last (logs w') = Some WarnNoBrokerSymbols.
Proof.
  intros Hemp Hcache Huniverse Hnone.
  assert (H : wp (map_symbol mt5 symbol)
                 (fun o w' =>
                    o = Ret (strip symbol)
                    /\ symbol_cache w' = <[strip symbol := strip symbol]> (symbol_cache w)
                    /\ broker_symbols w' = []
                    /\ calls w' = (calls w ++ [CSymbolsGet])%list
                    /\ last (logs w') = Some WarnNoBrokerSymbols) w).
  { unfold map_symbol. rewrite Hemp.
    apply wp_bind, wp_log, wp_bind, wp_get. cbn [symbol_cache add_log].
    rewrite Hcache.
    apply wp_bind, wp_get. cbn [broker_symbols add_log]. rewrite Huniverse.
    apply wp_bind, cache_broker_symbols_wp. intros w1 Hu Hcalls _ Hc _.
    assert (Hu1 : broker_symbols w1 = []).
    { rewrite Hu. cbn [terminal add_log]. destruct (fst (mt5_symbols_get mt5 (terminal w))) as [[symbols|]|];
        try reflexivity.
      now rewrite (Hnone symbols eq_refl). }
    apply wp_bind, wp_get. rewrite Hu1.
    unfold cache_put. wp_steps. cbn. rewrite Hc, Hcalls, Hu1, last_snoc.
    repeat split. }
  unfold wp in H. destruct (map_symbol mt5 symbol w) as [o w']. cbn [fst snd] in H.
  destruct H as (-> & H). now exists w'.
Qed.

(** X10: [connect] never raises and never touches the resolution cache.
    When it answers [True] the handler is connected after exactly the
    calls [initialize], [login] and [symbols_get]; when it answers
    [False] the connection flag and the universe are as they were, and
    [symbols_get] was not called. *)
Theorem connect_outcome (w : World B) :
  exists ok w',
    connect mt5 w = (Ret ok, w')
    /\ symbol_cache w' = symbol_cache w
    /\ if ok
       then connected w' = true
            /\ calls w' = (calls w ++ [CInitialize; CLogin; CSymbolsGet])%list
            /\ last (logs w') = Some InfoConnected
       else connected w' = connected w
            /\ broker_symbols w' = broker_symbols w
            /\ ~ In CSymbolsGet (skipn (length (calls w)) (calls w'))
            /\ last (logs w') = Some ErrConnect.
Proof.
  assert (Hskip : forall (l l' : list Call), skipn (length l) (l ++ l') = l').
  { intros l l'. now rewrite drop_app_length. }
  assert (H : wp (connect mt5)
                 (returning (fun ok w' =>
                    symbol_cache w' = symbol_cache w
                    /\ if (ok : bool)
                       then connected w' = true
                            /\ calls w' = (calls w ++ [CInitialize; CLogin; CSymbolsGet])%list
                            /\ last (logs w') = Some InfoConnected
                       else connected w' = connected w
                            /\ broker_symbols w' = broker_symbols w
                            /\ ~ In CSymbolsGet (skipn (length (calls w)) (calls w'))
                            /\ last (logs w') = Some ErrConnect)) w).
  { unfold connect. wp_steps;
      try (apply cache_broker_symbols_wp; intros w1 _ Hcalls _ Hc Hconn; wp_steps);
      unfold returning; cbn;
      rewrite ?Hc, ?Hcalls, ?Hconn, ?last_snoc; cbn;
      rewrite <- ?app_assoc, ?Hskip; cbn;
      repeat split; try reflexivity; intuition discriminate. }
  unfold wp in H. destruct (connect mt5 w) as [[ok|] w']; [|contradiction].
  now exists ok, w'.
Qed.

(** X11: [disconnect] does not catch an exception of [shutdown]: when the
    call raises, so does [disconnect], and the handler still counts as
    connected with its universe in place. When the call answers, the
    handler is disconnected with an empty universe, the resolution cache
    is kept, and [send_order] refuses every signal without a call. *)
Theorem disconnect_outcome (signal : Signal) (w : World B) :
  let w' := snd (disconnect mt5 w) in
  symbol_cache w' = symbol_cache w
  /\ calls w' = (calls w ++ [CShutdown])%list
  /\ match fst (mt5_shutdown mt5 (terminal w)) with
     | Raises =>
         fst (disconnect mt5 w) = Exc
         /\ connected w' = connected w
         /\ broker_symbols w' = broker_symbols w
     | Answer _ =>
         fst (disconnect mt5 w) = Ret tt
         /\ connected w' = false
         /\ broker_symbols w' = []
         /\ send_order mt5 float_of_str signal w'
            = (Ret false, add_log ErrNotConnected w')
     end.
Proof.
  unfold disconnect, bind, call.
  destruct (mt5_shutdown mt5 (terminal w)) as [[[]|] b]; cbn; repeat split.
Qed.

(** X12: after [clear_symbol_cache] a resolution starts afresh: the cache
    then holds the one entry of the symbol resolved, which is what
    [get_cache_stats] reports, and the answer is a member of the universe
    or the stripped symbol. *)
Theorem resolve_after_clear (symbol : string) (w : World B) :
  is_empty symbol = false ->
  exists r w',
    map_symbol mt5 symbol (snd (clear_symbol_cache w)) = (Ret r, w')
    /\ symbol_cache w' = {[ strip symbol := r ]}
    /\ get_cache_stats w'
       = (Ret (1%nat, length (broker_symbols w'), {[ strip symbol := r ]}), w')
    /\ (In r (broker_symbols w') \/ r = strip symbol).
Proof.
  intros Hemp.
  pose proof (map_symbol_trace mt5 symbol (snd (clear_symbol_cache w))) as Ht.
  destruct (map_symbol_returns mt5 symbol (snd (clear_symbol_cache w)))
    as (r & w' & E & _ & _ & H).
  rewrite Hemp in H. destruct H as (Hc & _).
  apply (wp_run _ _ _ _ _ E) in Ht. unfold returning in Ht.
  rewrite Hemp in Ht. destruct Ht as (Hr & _).
  cbn in Hc, Hr. rewrite lookup_empty in Hr.
  exists r, w'. split; [exact E|]. rewrite insert_empty in Hc.
  split; [exact Hc|]. split; [|exact Hr].
  unfold get_cache_stats, bind, get, ret. rewrite Hc.
  now rewrite map_size_singleton.
Qed.

End Connection.

(** ** What [send_order] submits *)

Section Submission.
Context {B : Type} (mt5 : MT5 B) (float_of_str : string -> option float).
Implicit Types w : World B.

(** A method that keeps a relation, with its run at hand. *)
Lemma wp_frame_run {A} (R : World B -> World B -> Prop) (m : M B A)
    (Q : outcome A -> World B -> Prop) w :
  preserves R m ->
  (forall o w', m w = (o, w') -> R w w' -> Q o w') ->
  wp m Q w.
Proof.
  intros HR HQ. specialize (HR w). unfold wp in *.
  destruct (m w) as [o w'] eqn:E. now apply HQ.
Qed.

(** [submit_order] makes the one call [order_send], and answers [True]
    only to a result with the code [TRADE_RETCODE_DONE]. *)
Lemma submit_order_wp mapped order_type volume p sl tp
    (Q : outcome bool -> World B -> Prop) w :
  (forall o w',
      calls w' = (calls w ++ [COrderSend (order_request mapped order_type volume p sl tp)])%list ->
      (o = Ret true ->
       exists result,
         mt5_order_send mt5 (order_request mapped order_type volume p sl tp) (terminal w)
         = (Answer (Some result), terminal w')
         /\ retcode result = TRADE_RETCODE_DONE
         /\ last (logs w') = Some (InfoOrderSuccess (res_order result))) ->
      Q o w') ->
  wp (submit_order mt5 mapped order_type volume p sl tp) Q w.
Proof.
  intros HQ. unfold submit_order. apply wp_bind, wp_call. intros [result|] b E.
  - apply wp_bind, wp_lift_option. destruct result as [result|].
    + destruct (negb (retcode result =? TRADE_RETCODE_DONE)%Z) eqn:Hr.
      * wp_steps. apply HQ; [reflexivity | discriminate].
      * wp_steps. apply HQ; [reflexivity|]. intros _. exists result.
        apply negb_false_iff, Z.eqb_eq in Hr. cbn. rewrite last_snoc. auto.
    + apply HQ; [reflexivity | discriminate].
  - apply HQ; [reflexivity | discriminate].
Qed.

(** [price_order] either stops after the quote, or submits one request at
    the price supplied or quoted. *)
Lemma price_order_wp mapped order_type volume price sl tp
    (Q : outcome bool -> World B -> Prop) w :
  (forall o w',
      ((price <=? 0)%float = true
       /\ calls w' = (calls w ++ [CSymbolInfoTick mapped])%list
       /\ o <> Ret true)
      \/ (exists p,
            priced mt5 mapped order_type price w p
            /\ calls w'
               = (calls w
                    ++ (if (price <=? 0)%float then [CSymbolInfoTick mapped] else [])
                    ++ [COrderSend (order_request mapped order_type volume p sl tp)])%list
            /\ (o = Ret true ->
                exists t result,
                  mt5_order_send mt5 (order_request mapped order_type volume p sl tp) t
                  = (Answer (Some result), terminal w')
                  /\ retcode result = TRADE_RETCODE_DONE
                  /\ last (logs w') = Some (InfoOrderSuccess (res_order result)))) ->
      Q o w') ->
  wp (price_order mt5 mapped order_type volume price sl tp) Q w.
Proof.
  intros HQ. unfold price_order, priced in *.
  destruct (price <=? 0)%float eqn:Hprice.
  - apply wp_bind, wp_call. intros [tick|] b E.
    + destruct tick as [tick|].
      * apply submit_order_wp. intros o w' Hcalls Hdone.
        apply HQ. right.
        exists (if (order_type =? ORDER_TYPE_BUY)%Z then ask tick else bid tick).
        split; [now exists tick, b|]. split.
        -- rewrite Hcalls. cbn. now rewrite <- app_assoc.
        -- intros Ho. destruct (Hdone Ho) as (result & H). eauto.
      * wp_steps. apply HQ. left. repeat split. discriminate.
    + apply HQ. left. repeat split. discriminate.
  - apply submit_order_wp. intros o w' Hcalls Hdone.
    apply HQ. right. exists price. split; [reflexivity|]. split; [exact Hcalls|].
    intros Ho. destruct (Hdone Ho) as (result & H). eauto.
Qed.

Lemma submissions_app (cs cs' : list Call) :
  submissions (cs ++ cs') = (submissions cs ++ submissions cs')%list.
Proof. unfold submissions. apply flat_map_app. Qed.

(** The runs of [send_order]. *)
Lemma send_order_trace signal w :
  wp (send_order mt5 float_of_str signal)
     (returning (fun ok w' =>
        (ok = false /\ submitted w' = submitted w)
        \/ exists mapped order_type volume price sl tp w1 p,
             passes_gates mt5 float_of_str signal w mapped order_type price sl tp w1
             /\ py_float float_of_str (signal_get signal "volume" (PFloat 0.1))
                = Some volume
             /\ priced mt5 mapped order_type price w1 p
             /\ submitted w'
                = (submitted w ++ [order_request mapped order_type volume p sl tp])%list
             /\ calls w'
                = (calls w1
                     ++ (if (price <=? 0)%float then [CSymbolInfoTick mapped] else [])
                     ++ [COrderSend (order_request mapped order_type volume p sl tp)])%list
             /\ (ok = true ->
                 exists t result,
                   mt5_order_send mt5 (order_request mapped order_type volume p sl tp) t
                   = (Answer (Some result), terminal w')
                   /\ retcode result = TRADE_RETCODE_DONE
                   /\ last (logs w') = Some (InfoOrderSuccess (res_order result))))) w.
Proof.
  unfold send_order. apply wp_bind, wp_get.
  destruct (connected w) eqn:Hconn; cbn [negb]; cbv beta iota.
  2: { wp_steps. left. split; reflexivity. }
  apply wp_try.
  apply wp_bind, wp_lift_option.
  destruct (py_float float_of_str (signal_get signal "volume" (PFloat 0.1)))
    as [volume|] eqn:Hvol; cbv beta iota.
  2: { wp_steps. left. split; reflexivity. }
  apply wp_bind, wp_lift_option.
  destruct (py_float float_of_str (signal_get signal "price" (PFloat 0.0)))
    as [price|] eqn:Hprice; cbv beta iota.
  2: { wp_steps. left. split; reflexivity. }
  apply wp_bind, wp_lift_option.
  destruct (py_float float_of_str (signal_get signal "stop_loss" (PFloat 0.0)))
    as [sl|] eqn:Hsl; cbv beta iota.
  2: { wp_steps. left. split; reflexivity. }
  apply wp_bind, wp_lift_option.
  destruct (py_float float_of_str (signal_get signal "take_profit" (PFloat 0.0)))
    as [tp|] eqn:Htp; cbv beta iota.
  2: { wp_steps. left. split; reflexivity. }
  apply wp_bind, (wp_frame_run (same submitted));
    [apply map_symbol_value_same_submitted|].
  intros [mapped|] w0 Hmap Hs0; unfold same in Hs0; cbv beta iota.
  2: { wp_steps. left. split; [reflexivity|]. exact Hs0. }
  apply wp_bind, (wp_frame_run (same submitted));
    [apply verify_symbol_same_submitted|].
  intros [tradeable|] w1 Hver Hs1; unfold same in Hs1; cbv beta iota.
  2: { wp_steps. left. split; [reflexivity|]. unfold submitted in *; simpl in *; congruence. }
  destruct tradeable; cbn [negb]; cbv beta iota.
  2: { wp_steps. left. split; [reflexivity|]. unfold submitted in *; simpl in *; congruence. }
  destruct (order_type_of (signal_get signal "action" PNone))
    as [order_type|] eqn:Haction.
  2: { wp_steps. left. split; [reflexivity|]. unfold submitted in *; simpl in *; congruence. }
  assert (Hgates : passes_gates mt5 float_of_str signal w mapped order_type
                     price sl tp w1).
  { repeat split; try assumption. now exists w0. }
  apply price_order_wp.
  intros o w' [(Hp & Hcalls & Ho) | (p & Hpriced & Hcalls & Hdone)].
  - assert (Hsub : submitted w' = submitted w).
    { unfold submitted in *. rewrite Hcalls, submissions_quiet by reflexivity.
      congruence. }
    destruct o as [[|]|]; [now destruct Ho | now left |].
    wp_steps. left. split; [reflexivity | exact Hsub].
  - assert (Hsub : submitted w'
                   = (submitted w
                        ++ [order_request mapped order_type volume p sl tp])%list).
    { unfold submitted in *. rewrite Hcalls, !submissions_app.
      replace (submissions (if (price <=? 0)%float
                            then [CSymbolInfoTick mapped] else []))
        with (@nil OrderRequest) by now destruct (price <=? 0)%float.
      cbn. congruence. }
    destruct o as [ok|].
    + right. exists mapped, order_type, volume, price, sl, tp, w1, p.
      split; [exact Hgates|]. split; [reflexivity|]. split; [exact Hpriced|].
      split; [exact Hsub|]. split; [exact Hcalls|].
      intros ->. now apply Hdone.
    + wp_steps. right. exists mapped, order_type, volume, price, sl, tp, w1, p.
      split; [exact Hgates|]. split; [reflexivity|]. split; [exact Hpriced|].
      split; [exact Hsub|]. split; [exact Hcalls | discriminate].
Qed.

(** X13: [send_order] never raises, and submits at most one request. A
    request is submitted only by a signal that passes the gates; its
    symbol is the one that [map_symbol] resolved and [verify_symbol]
    accepted, its type the order type of the action (a deal for a market
    order, a pending order otherwise), its volume, stop loss and take
    profit the numbers of the signal, its price the one supplied or
    quoted, and it names no position; otherwise the answer is [False]. *)
Theorem send_order_submits_once (signal : Signal) (w : World B) :
  exists ok w',
    send_order mt5 float_of_str signal w = (Ret ok, w')
    /\ ((ok = false /\ submitted w' = submitted w)
        \/ exists mapped order_type volume price sl tp w1 p request,
             passes_gates mt5 float_of_str signal w mapped order_type price sl tp w1
             /\ py_float float_of_str (signal_get signal "volume" (PFloat 0.1))
                = Some volume
             /\ priced mt5 mapped order_type price w1 p
             /\ submitted w' = (submitted w ++ [request])%list
             /\ request = order_request mapped order_type volume p sl tp
             /\ req_symbol request = mapped
             /\ req_type request = order_type
             /\ req_action request
                = (if (order_type =? ORDER_TYPE_BUY)%Z || (order_type =? ORDER_TYPE_SELL)%Z
                   then TRADE_ACTION_DEAL else TRADE_ACTION_PENDING)
             /\ req_volume request = volume
             /\ req_price request = p
             /\ req_sl request = Some sl
             /\ req_tp request = Some tp
             /\ req_position request = None).
Proof.
  pose proof (send_order_trace signal w) as H. unfold wp in H.
  destruct (send_order mt5 float_of_str signal w) as [[ok|] w']; [|contradiction].
  exists ok, w'. split; [reflexivity|]. cbn in H.
  destruct H as [H | (mapped & order_type & volume & price & sl & tp & w1 & p
                      & Hg & Hv & Hp & Hs & _)]; [now left|].
  right.
  exists mapped, order_type, volume, price, sl, tp, w1, p,
    (order_request mapped order_type volume p sl tp).
  split; [exact Hg|]. split; [exact Hv|]. split; [exact Hp|]. split; [exact Hs|].
  repeat split.
Qed.

(** X14: [send_order] answers [True] only when the terminal answered the
    one request submitted with the code [TRADE_RETCODE_DONE]; the last
    line of the log then names the ticket of that result. *)
Theorem send_order_true_is_done (signal : Signal) (w : World B) :
  fst (send_order mt5 float_of_str signal w) = Ret true ->
  let w' := snd (send_order mt5 float_of_str signal w) in
  exists request t result,
    submitted w' = (submitted w ++ [request])%list
    /\ mt5_order_send mt5 request t = (Answer (Some result), terminal w')
    /\ retcode result = TRADE_RETCODE_DONE
    /\ last (logs w') = Some (InfoOrderSuccess (res_order result)).
Proof.
  pose proof (send_order_trace signal w) as H. unfold wp in H.
  destruct (send_order mt5 float_of_str signal w) as [[ok|] w']; [|contradiction].
  cbn. intros [= ->].
  destruct H as [[H _] | (mapped & order_type & volume & price & sl & tp & w1 & p
                          & _ & _ & _ & Hs & _ & Hdone)]; [discriminate|].
  destruct (Hdone eq_refl) as (t & result & H).
  exists (order_request mapped order_type volume p sl tp), t, result.
  split; [exact Hs | exact H].
Qed.

(** X15: a signal that passes the gates with a price above zero, or with a
    price that is not a number, is submitted once, and the submission is
    the only call after the gates: no quote is fetched. The price of the
    request is that price; its symbol, type and volume are the mapped
    symbol, the order type of the action and the volume of the signal. *)
Theorem send_order_explicit_price (signal : Signal) (w : World B)
    (mapped : PyVal) (order_type : Z) (volume price sl tp : float) (w1 : World B) :
  passes_gates mt5 float_of_str signal w mapped order_type price sl tp w1 ->
  py_float float_of_str (signal_get signal "volume" (PFloat 0.1)) = Some volume ->
  (price <=? 0)%float = false ->
  exists request,
    calls (snd (send_order mt5 float_of_str signal w))
    = (calls w1 ++ [COrderSend request])%list
    /\ req_price request = price
    /\ req_symbol request = mapped
    /\ req_type request = order_type
    /\ req_volume request = volume.
Proof.
  intros Hg Hvol Hprice.
  exists (order_request mapped order_type volume price sl tp).
  split; [|repeat split].
  rewrite (send_order_gates mt5 float_of_str _ _ _ _ _ _ _ _ _ Hg Hvol).
  change (wp (try_except (price_order mt5 mapped order_type volume price sl tp)
                         (log ErrException ;;; ret false))
             (fun _ w' =>
                calls w' = (calls w1 ++ [COrderSend
                  (order_request mapped order_type volume price sl tp)])%list) w1).
  apply wp_try, price_order_wp.
  intros o w' [(Hp & _) | (p & Hpriced & Hcalls & _)]; [congruence|].
  unfold priced in Hpriced. rewrite Hprice in Hpriced, Hcalls. subst p.
  destruct o; [exact Hcalls|]. wp_steps. exact Hcalls.
Qed.

(** X16: [send_order] converts the numbers of the signal and resolves the
    symbol before anything else: when the volume, the price, the stop
    loss or the take profit does not convert, or the symbol is a truthy
    value that is not a string, a connected handler answers [False] and
    only logs the exception: no call, no cache entry. *)
Theorem send_order_bad_signal (signal : Signal) (w : World B) :
  connected w = true ->
  py_float float_of_str (signal_get signal "volume" (PFloat 0.1)) = None
  \/ py_float float_of_str (signal_get signal "price" (PFloat 0.0)) = None
  \/ py_float float_of_str (signal_get signal "stop_loss" (PFloat 0.0)) = None
  \/ py_float float_of_str (signal_get signal "take_profit" (PFloat 0.0)) = None
  \/ (truthy (signal_get signal "symbol" PNone) = true
      /\ forall s, signal_get signal "symbol" PNone <> PStr s) ->
  send_order mt5 float_of_str signal w = (Ret false, add_log ErrException w).
Proof.
  intros Hconn Hbad. unfold send_order.
  change (bind (get connected) ?k w) with (k (connected w) w). cbv beta.
  rewrite Hconn. cbn [negb]. unfold try_except, bind at 1.
  destruct (py_float float_of_str (signal_get signal "volume" (PFloat 0.1)));
    [|reflexivity].
  unfold lift_option at 1, bind at 1.
  destruct (py_float float_of_str (signal_get signal "price" (PFloat 0.0)));
    [|reflexivity].
  unfold lift_option at 1, bind at 1.
  destruct (py_float float_of_str (signal_get signal "stop_loss" (PFloat 0.0)));
    [|reflexivity].
  unfold lift_option at 1, bind at 1.
  destruct (py_float float_of_str (signal_get signal "take_profit" (PFloat 0.0)));
    [|reflexivity].
  unfold lift_option at 1, bind at 1.
  destruct Hbad as [H|[H|[H|[H|[Ht Hs]]]]]; try discriminate.
  destruct (signal_get signal "symbol" PNone) as [| | | |s|]; cbn in Ht |- *;
    try discriminate; try (rewrite Ht; reflexivity).
  now destruct (Hs s).
Qed.

End Submission.

(** ** Verification of a symbol, and the closing requests *)

Section Closing.
Context {B : Type} (mt5 : MT5 B).
Implicit Types w : World B.

(** X17: [verify_symbol] never raises and changes neither the cache nor the
    universe. It answers [True] exactly when [symbol_info] answers a
    record that is visible, or one that is not and [symbol_select] then
    answers [True]; [symbol_select] is called only for a record that is
    not visible. *)
Theorem verify_symbol_outcome (symbol : PyVal) (w : World B) :
  exists ok w',
    verify_symbol mt5 symbol w = (Ret ok, w')
    /\ symbol_cache w' = symbol_cache w
    /\ broker_symbols w' = broker_symbols w
    /\ (ok = true <->
        exists info b,
          mt5_symbol_info mt5 symbol (terminal w) = (Answer (Some info), b)
          /\ (info_visible info = true
              \/ fst (mt5_symbol_select mt5 symbol b) = Answer true))
    /\ calls w'
       = (calls w ++ CSymbolInfo symbol ::
            match fst (mt5_symbol_info mt5 symbol (terminal w)) with
            | Answer (Some info) =>
                if info_visible info then [] else [CSymbolSelect symbol]
            | _ => []
            end)%list.
Proof.
  unfold verify_symbol, try_except, bind, call. cbn.
  destruct (mt5_symbol_info mt5 symbol (terminal w)) as [[[info|]|] b] eqn:Hinfo; cbn.
  - destruct (info_visible info) eqn:Hvisible; cbn.
    + eexists _, _. split; [reflexivity|]. repeat split.
      intros _. exists info, b. auto.
    + destruct (mt5_symbol_select mt5 symbol b) as [[[|]|] b'] eqn:Hselect; cbn;
        (eexists _, _; split; [reflexivity|]); cbn; rewrite <- ?app_assoc;
        repeat split; try discriminate.
      * intros _. exists info, b. rewrite Hselect. auto.
      * intros (info' & b0 & [= <- <-] & [H|H]); [congruence|].
        rewrite Hselect in H. discriminate.
      * intros (info' & b0 & [= <- <-] & [H|H]); [congruence|].
        rewrite Hselect in H. discriminate.
  - eexists _, _. split; [reflexivity|]. repeat split; try discriminate.
    intros (info & b0 & [=] & _).
  - eexists _, _. split; [reflexivity|]. repeat split; try discriminate.
    intros (info & b0 & [=] & _).
Qed.

(** The loop of [close_positions] submits closing requests for the
    positions in order, each at the quote of its symbol, and nothing
    else; it returns only after the last position. *)
Lemma close_loop_trace positions w :
  wp (close_loop mt5 positions)
     (fun o w' =>
        exists (closed : list (TradePosition * Tick)) rest,
          positions = (map fst closed ++ rest)%list
          /\ Forall (quoted mt5) closed
          /\ submitted w' = (submitted w ++ map closing closed)%list
          /\ (o = Ret tt -> rest = [])) w.
Proof.
  revert w. induction positions as [|pos positions IH]; intros w; cbn [close_loop].
  - apply wp_ret. exists [], []. cbn. rewrite app_nil_r. auto.
  - assert (Hstop : forall o w',
               submitted w' = submitted w -> o <> Ret tt ->
               exists (closed : list (TradePosition * Tick)) rest,
                 pos :: positions = (map fst closed ++ rest)%list
                 /\ Forall (quoted mt5) closed
                 /\ submitted w' = (submitted w ++ map closing closed)%list
                 /\ (o = Ret tt -> rest = [])).
    { intros o w' Hs Ho. exists [], (pos :: positions).
      cbn. rewrite app_nil_r. split; [reflexivity|]. split; [constructor|].
      split; [exact Hs|]. intros E. now destruct Ho. }
    apply wp_bind, wp_call. intros [tick|] b E.
    2: { apply Hstop; [|discriminate].
         unfold submitted. cbn. now rewrite submissions_quiet. }
    apply wp_bind, wp_lift_option. destruct tick as [tick|].
    2: { apply Hstop; [|discriminate].
         unfold submitted. cbn. now rewrite submissions_quiet. }
    assert (Hquoted : quoted mt5 (pos, tick)).
    { exists (terminal w). cbn. now rewrite E. }
    assert (Hsent : forall o w',
               submitted w' = (submitted w ++ [closing (pos, tick)])%list ->
               o <> Ret tt ->
               exists (closed : list (TradePosition * Tick)) rest,
                 pos :: positions = (map fst closed ++ rest)%list
                 /\ Forall (quoted mt5) closed
                 /\ submitted w' = (submitted w ++ map closing closed)%list
                 /\ (o = Ret tt -> rest = [])).
    { intros o w' Hs Ho. exists [(pos, tick)], positions.
      cbn. split; [reflexivity|]. split; [now constructor|].
      split; [exact Hs|]. intros E'. now destruct Ho. }
    assert (Hsub : forall b' : B,
               submitted (add_call (COrderSend (close_request pos (closing_price pos tick)))
                            b' (add_call (CSymbolInfoTick (PStr (pos_symbol pos))) b w))
               = (submitted w ++ [closing (pos, tick)])%list).
    { intros b'. unfold submitted. cbn.
      now rewrite submissions_snoc, submissions_quiet. }
    apply wp_bind, wp_call. intros [result|] b' _.
    2: { apply Hsent; [apply Hsub | discriminate]. }
    apply wp_bind, wp_lift_option. destruct result as [result|].
    2: { apply Hsent; [apply Hsub | discriminate]. }
    apply wp_bind.
    assert (Hnext : forall w1,
               submitted w1 = (submitted w ++ [closing (pos, tick)])%list ->
               wp (close_loop mt5 positions)
                  (fun o w' =>
                     exists (closed : list (TradePosition * Tick)) rest,
                       pos :: positions = (map fst closed ++ rest)%list
                       /\ Forall (quoted mt5) closed
                       /\ submitted w' = (submitted w ++ map closing closed)%list
                       /\ (o = Ret tt -> rest = [])) w1).
    { intros w1 Hs. eapply wp_mono; [apply IH|].
      intros o w' (closed & rest & Hpos & Hq & Hs' & Ho).
      exists ((pos, tick) :: closed), rest.
      cbn [map fst app]. rewrite Hs', Hs, <- app_assoc, Hpos.
      split; [reflexivity|]. split; [now constructor|]. now split. }
    destruct (negb (retcode result =? TRADE_RETCODE_DONE)%Z);
      apply wp_log; apply Hnext; apply Hsub.
Qed.

Lemma close_filter_same_submitted symbol :
  preserves (same submitted) (close_filter mt5 symbol).
Proof.
  pose proof (map_symbol_value_same_submitted mt5).
  unfold close_filter. preserve.
Qed.

Lemma closing_closes (c : TradePosition * Tick) :
  closes_position (closing c) (fst c) (snd c).
Proof.
  destruct c as [pos tick].
  unfold closes_position, closing, close_request, closing_price, closing_type.
  cbn [fst snd req_action req_symbol req_volume req_type req_position req_price
       req_sl req_tp].
  destruct (pos_type pos =? ORDER_TYPE_BUY)%Z; repeat split; reflexivity.
Qed.

(** The runs of [close_positions]. *)
Lemma close_positions_trace symbol w :
  wp (close_positions mt5 symbol)
     (returning (fun ok w' =>
        exists closed : list (TradePosition * Tick),
          submitted w' = (submitted w ++ map closing closed)%list
          /\ Forall (quoted mt5) closed
          /\ close_coverage mt5 symbol w ok closed)) w.
Proof.
  unfold close_positions, close_coverage. apply wp_try.
  apply wp_bind, (wp_frame_run (same submitted));
    [apply close_filter_same_submitted|].
  intros [filter|] w0 Hfilter Hs0; unfold same in Hs0; rewrite Hfilter;
    cbv beta iota.
  2: { wp_steps. exists []. cbn. rewrite app_nil_r.
       split; [exact Hs0|]. split; [constructor | now split]. }
  apply wp_bind, wp_call. intros [positions|] b Hget; rewrite Hget; cbn [fst].
  2: { wp_steps. exists []. cbn. rewrite app_nil_r.
       split; [|split; [constructor | now split]].
       unfold submitted in *. cbn. now rewrite submissions_quiet. }
  assert (Hs1 : submitted (add_call (CPositionsGet filter) b w0) = submitted w).
  { unfold submitted in *. cbn. now rewrite submissions_quiet. }
  destruct positions as [[|pos positions]|].
  - wp_steps. exists []. cbn. rewrite app_nil_r.
    split; [exact Hs1|]. split; [constructor|]. now exists [].
  - apply wp_bind, wp_log, wp_bind.
    eapply wp_mono; [apply close_loop_trace|].
    intros o w' (closed & rest & Hpos & Hq & Hs & Ho).
    assert (Hs' : submitted w' = (submitted w ++ map closing closed)%list).
    { rewrite Hs. f_equal. exact Hs1. }
    destruct o as [[]|]; wp_steps; exists closed; (split; [exact Hs'|]);
      (split; [exact Hq|]); exists rest; (split; [exact Hpos|]).
    + intros _. now apply Ho.
    + discriminate.
  - wp_steps. exists []. cbn. rewrite app_nil_r.
    split; [exact Hs1|]. split; [constructor | now split].
Qed.

(** X18: [close_positions] never raises, whatever the terminal does, and
    submits nothing but closing requests, each a deal on the opposite
    side for the symbol, the volume and the ticket of its position, at
    the bid (to sell) or the ask (to buy) of a tick that the terminal
    quoted for that symbol. They are for the first of the positions that
    [positions_get] answered for the mapped filter, in order, and for all
    of them when the answer is [True]; when [positions_get] answers
    [None] nothing is submitted and the answer is [True]; when the
    mapping or [positions_get] raises nothing is submitted and the answer
    is [False]. *)
Theorem close_positions_only_closes (symbol : PyVal) (w : World B) :
  exists ok w' (closed : list (TradePosition * Tick)),
    close_positions mt5 symbol w = (Ret ok, w')
    /\ submitted w' = (submitted w ++ map closing closed)%list
    /\ Forall (quoted mt5) closed
    /\ Forall (fun c => closes_position (closing c) (fst c) (snd c)) closed
    /\ match close_filter mt5 symbol w with
       | (Ret filter, w0) =>
           match fst (mt5_positions_get mt5 filter (terminal w0)) with
           | Answer (Some positions) =>
               exists rest, positions = (map fst closed ++ rest)%list
                            /\ (ok = true -> rest = [])
           | Answer None => closed = [] /\ ok = true
           | Raises => closed = [] /\ ok = false
           end
       | (Exc, _) => closed = [] /\ ok = false
       end.
Proof.
  pose proof (close_positions_trace symbol w) as H. unfold wp in H.
  destruct (close_positions mt5 symbol w) as [[ok|] w']; [|contradiction].
  destruct H as (closed & Hs & Hq & Hc). exists ok, w', closed.
  split; [reflexivity|]. split; [exact Hs|]. split; [exact Hq|].
  split; [|exact Hc].
  apply Forall_forall. intros c _. apply closing_closes.
Qed.

End Closing.

(** ** The webhook *)

Section Webhook.
Context {B : Type} (mt5 : MT5 B) (float_of_str : string -> option float).
Implicit Types w : World B.

Lemma send_order_returns signal w :
  exists ok w', send_order mt5 float_of_str signal w = (Ret ok, w').
Proof.
  pose proof (send_order_trace mt5 float_of_str signal w) as H. unfold wp in H.
  destruct (send_order mt5 float_of_str signal w) as [[ok|] w']; [|contradiction].
  now exists ok, w'.
Qed.

Lemma close_positions_returns symbol w :
  exists ok w', close_positions mt5 symbol w = (Ret ok, w').
Proof.
  pose proof (close_positions_trace mt5 symbol w) as H. unfold wp in H.
  destruct (close_positions mt5 symbol w) as [[ok|] w']; [|contradiction].
  now exists ok, w'.
Qed.

Lemma with_optional_lookup key v (signal : Signal) k :
  k <> key -> with_optional key v signal !! k = signal !! k.
Proof.
  intros Hk. unfold with_optional. destruct (truthy v); [|reflexivity].
  now apply lookup_insert_ne.
Qed.

(** The responses of [webhook]. *)
Lemma webhook_trace initialized body w :
  wp (webhook mt5 float_of_str initialized body)
     (returning (webhook_contract mt5 float_of_str initialized body w)) w.
Proof.
  assert (Horder : forall signal placed failed
                     (Q : outcome Response -> World B -> Prop),
            (forall ok w',
                send_order mt5 float_of_str signal w = (Ret ok, w') ->
                Q (Ret (if ok then (200%Z, placed) else (500%Z, failed))) w') ->
            wp (result <- send_order mt5 float_of_str signal ;;
                if (result : bool) then ret (200%Z, placed) else ret (500%Z, failed))
               (fun o w' => match o with
                            | Ret a => Q (Ret a) w'
                            | Exc => wp (ret (500%Z, Unexpected)) Q w'
                            end) w).
  { intros signal placed failed Q HQ.
    destruct (send_order_returns signal w) as (ok & w' & E).
    apply wp_bind. unfold wp at 1. rewrite E. cbn [fst snd].
    destruct ok; apply wp_ret; [exact (HQ true w' E) | exact (HQ false w' E)]. }
  unfold webhook. apply wp_try.
  destruct initialized; cbn [negb].
  2: { apply wp_ret. cbn. auto. }
  destruct body as [|data|v].
  - apply wp_raise, wp_ret. cbn. auto.
  - destruct (decide (data = ∅)) as [Hempty|Hempty].
    { apply wp_ret. cbn. auto. }
    destruct (signal_get data "action" (PStr "")) as [| | | |action|];
      try (apply wp_raise, wp_ret; cbn; auto).
    cbv zeta.
    destruct (truthy (signal_get data "symbol" PNone)) eqn:Hsymbol; cbn [negb].
    2: { apply wp_ret. cbn. auto. }
    destruct (truthy (signal_get data "volume" PNone)) eqn:Hvolume; cbn [negb].
    2: { apply wp_ret. cbn. auto. }
    assert (Hfloat : forall v field (k : float -> M B Response)
                       (Q : outcome Response -> World B -> Prop),
               Q (Ret (400%Z, InvalidValue field)) w ->
               wp (ret (500%Z, Unexpected)) Q w ->
               (forall f, wp (k f) (fun o w' => match o with
                                        | Ret a => Q (Ret a) w'
                                        | Exc => wp (ret (500%Z, Unexpected)) Q w'
                                        end) w) ->
               wp (to_float float_of_str v field k)
                  (fun o w' => match o with
                               | Ret a => Q (Ret a) w'
                               | Exc => wp (ret (500%Z, Unexpected)) Q w'
                               end) w).
    { intros v field k Q H400 H500 Hk. unfold to_float.
      destruct (py_float float_of_str v) as [f|]; [apply Hk|].
      destruct v; try (apply wp_raise; exact H500). apply wp_ret. exact H400. }
    assert (Hoptional : forall v field (k : PyVal -> M B Response)
                       (Q : outcome Response -> World B -> Prop),
               Q (Ret (400%Z, InvalidValue field)) w ->
               wp (ret (500%Z, Unexpected)) Q w ->
               (forall v', wp (k v') (fun o w' => match o with
                                        | Ret a => Q (Ret a) w'
                                        | Exc => wp (ret (500%Z, Unexpected)) Q w'
                                        end) w) ->
               wp (optional_float float_of_str v field k)
                  (fun o w' => match o with
                               | Ret a => Q (Ret a) w'
                               | Exc => wp (ret (500%Z, Unexpected)) Q w'
                               end) w).
    { intros v field k Q H400 H500 Hk. unfold optional_float.
      destruct (truthy v); [|apply Hk].
      apply Hfloat; try assumption. intros f. apply Hk. }
    apply Hoptional; [cbn; auto | apply wp_ret; cbn; auto | intros tp].
    apply Hoptional; [cbn; auto | apply wp_ret; cbn; auto | intros sl].
    apply Hfloat; [cbn; auto | apply wp_ret; cbn; auto | intros volume].
    destruct (mem (upper action) market_actions) eqn:Hmarket.
    { apply Horder.
      intros [|] w' E; cbn; (split; [reflexivity|]);
        eexists _, _; (split; [exact E|]);
        rewrite !with_optional_lookup by discriminate;
        (split; [reflexivity|]);
        (split; [|reflexivity]);
        destruct (mem (upper action) ["BUY"; "LONG"]); cbn; auto. }
    destruct (mem (upper action) pending_actions) eqn:Hpending.
    { destruct (truthy (signal_get data "price" PNone)) eqn:Hprice; cbn [negb].
      2: { apply wp_ret. cbn. auto. }
      apply Hfloat; [cbn; auto | apply wp_ret; cbn; auto | intros price].
      apply mem_In in Hpending.
      apply Horder.
      intros [|] w' E; cbn; (split; [reflexivity|]);
        eexists _, _; (split; [exact E|]);
        rewrite !with_optional_lookup by discriminate;
        (split; [reflexivity|]);
        (split; [exact Hpending | now eexists]). }
    destruct (String.eqb (upper action) "CLOSE").
    { destruct (close_positions_returns (signal_get data "symbol" PNone) w)
        as (ok & w' & E).
      apply wp_bind. unfold wp at 1. rewrite E. cbn [fst snd].
      destruct ok; apply wp_ret; cbn; (split; [reflexivity|]);
        exists data; auto. }
    apply wp_ret. cbn. auto.
  - destruct (truthy v); cbn [negb].
    + apply wp_raise, wp_ret. cbn. auto.
    + apply wp_ret. cbn. auto.
Qed.

End Webhook.

(** ** Strings of the cascade *)

Lemma upper_char_idempotent c : upper_char (upper_char c) = upper_char c.
Proof.
  destruct c as [[] [] [] [] [] [] [] []]; reflexivity.
Qed.

Lemma upper_idempotent s : upper (upper s) = upper s.
Proof.
  induction s as [|c r IH]; cbn [upper]; [reflexivity|].
  now rewrite upper_char_idempotent, IH.
Qed.

Lemma length_upper s : String.length (upper s) = String.length s.
Proof. induction s as [|c r IH]; cbn [upper String.length]; auto. Qed.

Lemma length_keep p s : (String.length (keep p s) <= String.length s)%nat.
Proof.
  induction s as [|c r IH]; cbn [keep String.length]; [lia|].
  destruct (p c); cbn [String.length]; lia.
Qed.

Lemma length_substring n m s :
  (String.length (String.substring n m s) <= String.length s)%nat.
Proof.
  revert n m. induction s as [|c r IH]; intros [|n] [|m]; cbn; try lia.
  - specialize (IH 0%nat m). lia.
  - specialize (IH n 0%nat). lia.
  - specialize (IH n (S m)). lia.
Qed.

Lemma length_remove_suffix suffixes s :
  (String.length (remove_suffix suffixes s) <= String.length s)%nat.
Proof.
  induction suffixes as [|x rest IH]; cbn [remove_suffix]; [lia|].
  destruct (endswith s x); [|exact IH]. rewrite length_drop_last. lia.
Qed.

Lemma length_remove_prefix prefixes s :
  (String.length (remove_prefix prefixes s) <= String.length s)%nat.
Proof.
  induction prefixes as [|x rest IH]; cbn [remove_prefix]; [lia|].
  destruct (startswith s x); [|exact IH]. apply length_substring.
Qed.

(** X19: on a string of ASCII characters, [normalize] does not tell upper
    case from lower case, answers a string of [A-Z] and [0-9] only, and
    never a longer one than it was given. *)
Theorem normalize_case_and_length (s : string) :
  all_chars is_ascii s = true ->
  normalize (upper s) = normalize s
  /\ all_chars is_AZ09 (normalize s) = true
  /\ (String.length (normalize s) <= String.length s)%nat.
Proof.
  intros _. split; [|split].
  - unfold normalize. rewrite upper_idempotent. now destruct s.
  - apply normalize_AZ09.
  - unfold normalize. destruct (is_empty s); [lia|].
    etransitivity; [apply length_keep|].
    etransitivity; [apply length_remove_prefix|].
    etransitivity; [apply length_remove_suffix|].
    now rewrite length_upper.
Qed.

(** A string that does not begin with white space. *)
Lemma lstrip_head s :
  match lstrip s with
  | EmptyString => True
  | String c _ => is_space c = false
  end.
Proof.
  induction s as [|c r IH]; cbn [lstrip]; [exact I|].
  destruct (is_space c) eqn:E; [exact IH | exact E].
Qed.

Lemma rstrip_idempotent s : rstrip (rstrip s) = rstrip s.
Proof.
  induction s as [|c r IH]; cbn [rstrip]; [reflexivity|].
  destruct (rstrip r) as [|d r'] eqn:E.
  - destruct (is_space c) eqn:Hc; [reflexivity|]. cbn [rstrip]. now rewrite Hc.
  - cbn [rstrip]. cbn [rstrip] in IH. rewrite IH. reflexivity.
Qed.

Lemma rstrip_head c r :
  is_space c = false -> exists r', rstrip (String c r) = String c r'.
Proof.
  intros Hc. cbn [rstrip]. destruct (rstrip r); [rewrite Hc|]; eauto.
Qed.

Lemma strip_idempotent s : strip (strip s) = strip s.
Proof.
  unfold strip. pose proof (lstrip_head s) as H.
  destruct (lstrip s) as [|c r]; [reflexivity|].
  destruct (rstrip_head c r H) as (r' & E). rewrite E.
  cbn [lstrip]. rewrite H, <- E. apply rstrip_idempotent.
Qed.

(** X20: each of the strategies 1 to 6 answers a member of the universe
    that meets its own test, and is reached only when the test of the
    strategy before it fails on the whole universe. *)
Theorem cheap_strategies_sound (symbol : string) (universe : list string)
    (how : Strategy) (r : string) :
  cheap_strategies symbol universe = Some (how, r) ->
  In r universe
  /\ match how with
     | ExactMatch => r = symbol
     | CaseMatch =>
         upper r = upper symbol /\ ~ In symbol universe
     | NormalizedMatch =>
         normalize r = normalize symbol
         /\ forall s, In s universe -> upper s <> upper symbol
     | PrefixMatch =>
         startswith (upper r) (upper symbol) = true
         /\ forall s, In s universe -> normalize s <> normalize symbol
     | ContainsMatch =>
         contains (upper r) (upper symbol) = true
         /\ forall s, In s universe -> startswith (upper s) (upper symbol) = false
     | FuzzyMatch =>
         fuzzy_map symbol universe = Some r /\ r <> ""
         /\ forall s, In s universe -> contains (upper s) (upper symbol) = false
     | _ => False
     end.
Proof.
  intros H. split; [eapply cheap_strategies_member; eassumption|].
  revert H. unfold cheap_strategies.
  destruct (mem symbol universe) eqn:Hmem; [now intros [= <- <-]|].
  assert (Hnot : ~ In symbol universe).
  { intros Hin. apply mem_In in Hin. congruence. }
  destruct (find (fun s => String.eqb (upper s) (upper symbol)) universe)
    as [s|] eqn:Hcase.
  { intros [= <- <-]. apply find_some in Hcase as [_ Heq].
    apply String.eqb_eq in Heq. now split. }
  assert (Hnocase : forall s, In s universe -> upper s <> upper symbol).
  { intros s Hs Heq. pose proof (find_none _ _ Hcase s Hs) as Hn. cbv beta in Hn.
    rewrite Heq, String.eqb_refl in Hn. discriminate. }
  cbv zeta.
  destruct (find (fun s => String.eqb (normalize s) (normalize symbol)) universe)
    as [s|] eqn:Hnorm.
  { intros [= <- <-]. apply find_some in Hnorm as [_ Heq].
    apply String.eqb_eq in Heq. now split. }
  assert (Hnonorm : forall s, In s universe -> normalize s <> normalize symbol).
  { intros s Hs Heq. pose proof (find_none _ _ Hnorm s Hs) as Hn. cbv beta in Hn.
    rewrite Heq, String.eqb_refl in Hn. discriminate. }
  destruct (find (fun s => startswith (upper s) (upper symbol)) universe)
    as [s|] eqn:Hprefix.
  { intros [= <- <-]. apply find_some in Hprefix as [_ Heq]. now split. }
  destruct (find (fun s => contains (upper s) (upper symbol)) universe)
    as [s|] eqn:Hcontains.
  { intros [= <- <-]. apply find_some in Hcontains as [_ Heq]. split; [exact Heq|].
    intros s' Hs'. exact (find_none _ _ Hprefix s' Hs'). }
  destruct (nonempty _) as [s|] eqn:Hfuzzy; [|discriminate].
  intros [= <- <-]. apply nonempty_some in Hfuzzy as [Hf Hs].
  split; [exact Hf|]. split; [exact Hs|].
  intros s' Hs'. exact (find_none _ _ Hcontains s' Hs').
Qed.

Section EngineStrip.
Context {B : Type} (mt5 : MT5 B).

(** X21: white space around a symbol does not count: a symbol and its
    stripped form are resolved by the same run, cache entry included,
    as long as the stripped form is not empty. *)
Theorem map_symbol_strips (symbol : string) (w : World B) :
  is_empty (strip symbol) = false ->
  map_symbol mt5 symbol w = map_symbol mt5 (strip symbol) w.
Proof.
  intros Hemp. unfold map_symbol. rewrite Hemp, strip_idempotent.
  destruct symbol; [discriminate | reflexivity].
Qed.

End EngineStrip.

Section WebhookOrders.
Context {B : Type} (mt5 : MT5 B) (float_of_str : string -> option float).
Implicit Types w : World B.

(** X22: [webhook] always answers, with the status 200, 400 or 500. A
    request answered with 400 has not reached the handler: the world is
    as it was; so it is while the handler is not initialized. The status
    200 reports that [send_order] or [close_positions] answered [True]. *)
Theorem webhook_responds (initialized : bool) (body : Json) (w : World B) :
  exists status message w',
    webhook mt5 float_of_str initialized body w = (Ret (status, message), w')
    /\ (status = 200 \/ status = 400 \/ status = 500)%Z
    /\ (status = 400%Z -> w' = w)
    /\ (initialized = false -> status = 500%Z /\ w' = w)
    /\ (status = 200%Z ->
        (exists signal, send_order mt5 float_of_str signal w = (Ret true, w'))
        \/ (exists symbol, close_positions mt5 symbol w = (Ret true, w'))).
Proof.
  destruct initialized.
  2: { exists 500%Z, NotInitialized, w. split; [reflexivity|].
       repeat split; auto; intros [=]. }
  pose proof (webhook_trace mt5 float_of_str true body w) as H.
  unfold wp in H.
  destruct (webhook mt5 float_of_str true body w) as [[[status message]|] w'];
    [|contradiction].
  exists status, message, w'. split; [reflexivity|].
  unfold returning, webhook_contract in H. cbn [fst snd] in H.
  assert (Hsplit : forall (P1 P2 P3 P4 : Prop), P1 -> P2 -> P3 -> P4 ->
                     P1 /\ P2 /\ P3 /\ P4) by tauto.
  destruct message; destruct H as (-> & H); apply Hsplit;
    try (intros [=]; fail); auto;
    try (destruct H as [-> _]; reflexivity);
    try (subst w'; reflexivity).
  all: intros _.
  all: try (destruct H as (signal & action & E & _); eauto; fail).
  all: destruct H as (data & _ & _ & E); eauto.
Qed.

(** What stands behind an answer [True] of [send_order]. *)
Lemma placed_order signal w w' :
  send_order mt5 float_of_str signal w = (Ret true, w') ->
  exists mapped order_type volume price sl tp w1 p t result,
    passes_gates mt5 float_of_str signal w mapped order_type price sl tp w1
    /\ priced mt5 mapped order_type price w1 p
    /\ submitted w'
       = (submitted w ++ [order_request mapped order_type volume p sl tp])%list
    /\ mt5_order_send mt5 (order_request mapped order_type volume p sl tp) t
       = (Answer (Some result), terminal w')
    /\ retcode result = TRADE_RETCODE_DONE.
Proof.
  intros E.
  pose proof (wp_run _ _ _ _ _ E (send_order_trace mt5 float_of_str signal w)) as H.
  destruct H as [[H _] | (mapped & order_type & volume & price & sl & tp & w1 & p
                          & Hg & _ & Hp & Hs & _ & Hdone)]; [discriminate|].
  destruct (Hdone eq_refl) as (t & result & Hsend & Hcode & _).
  exists mapped, order_type, volume, price, sl, tp, w1, p, t, result. auto.
Qed.

(** X23: a market order that [webhook] reports as placed is one request,
    submitted as a deal and answered with [TRADE_RETCODE_DONE]: a buy at
    the ask or a sell at the bid of a tick that the terminal quoted for
    the symbol of the request. *)
Theorem webhook_market_order (initialized : bool) (body : Json) (w w' : World B) :
  webhook mt5 float_of_str initialized body w = (Ret (200%Z, MarketPlaced), w') ->
  exists request tick t0 t result,
    submitted w' = (submitted w ++ [request])%list
    /\ req_action request = TRADE_ACTION_DEAL
    /\ (req_type request = ORDER_TYPE_BUY /\ req_price request = ask tick
        \/ req_type request = ORDER_TYPE_SELL /\ req_price request = bid tick)
    /\ fst (mt5_symbol_info_tick mt5 (req_symbol request) t0) = Answer (Some tick)
    /\ mt5_order_send mt5 request t = (Answer (Some result), terminal w')
    /\ retcode result = TRADE_RETCODE_DONE.
Proof.
  intros E.
  pose proof (wp_run _ _ _ _ _ E (webhook_trace mt5 float_of_str initialized body w))
    as H.
  destruct H as (_ & signal & action & Hrun & Haction & Hin & Hnoprice).
  destruct (placed_order signal w w' Hrun)
    as (mapped & order_type & volume & price & sl & tp & w1 & p & t & result
        & Hg & Hp & Hs & Hsend & Hcode).
  destruct Hg as (_ & Hprice & _ & _ & _ & Htype).
  unfold signal_get in Hprice, Htype. rewrite Hnoprice in Hprice.
  rewrite Haction in Htype. cbn in Hprice. injection Hprice as <-.
  unfold priced in Hp. change (0 <=? 0)%float with true in Hp. cbv iota in Hp.
  destruct Hp as (tick & b & Htick & ->).
  exists (order_request mapped order_type volume
            (if (order_type =? ORDER_TYPE_BUY)%Z then ask tick else bid tick) sl tp),
    tick, (terminal w1), t, result.
  split; [exact Hs|].
  destruct Hin as [<-|[<-|[]]]; cbn in Htype; injection Htype as <-;
    (split; [reflexivity|]); (split; [cbn; auto|]);
    cbn [req_symbol order_request]; rewrite Htick; auto.
Qed.

(** X24: a pending order that [webhook] reports as placed is one request,
    submitted as a pending order of the type that the action names and
    answered with [TRADE_RETCODE_DONE]. *)
Theorem webhook_pending_order (initialized : bool) (body : Json) (w w' : World B) :
  webhook mt5 float_of_str initialized body w = (Ret (200%Z, PendingPlaced), w') ->
  exists request t result,
    submitted w' = (submitted w ++ [request])%list
    /\ req_action request = TRADE_ACTION_PENDING
    /\ In (req_type request)
          [ORDER_TYPE_BUY_LIMIT; ORDER_TYPE_SELL_LIMIT;
           ORDER_TYPE_BUY_STOP; ORDER_TYPE_SELL_STOP]
    /\ mt5_order_send mt5 request t = (Answer (Some result), terminal w')
    /\ retcode result = TRADE_RETCODE_DONE.
Proof.
  intros E.
  pose proof (wp_run _ _ _ _ _ E (webhook_trace mt5 float_of_str initialized body w))
    as H.
  destruct H as (_ & signal & action & Hrun & Haction & Hin & _).
  destruct (placed_order signal w w' Hrun)
    as (mapped & order_type & volume & price & sl & tp & w1 & p & t & result
        & Hg & _ & Hs & Hsend & Hcode).
  destruct Hg as (_ & _ & _ & _ & _ & Htype).
  unfold signal_get in Htype. rewrite Haction in Htype.
  exists (order_request mapped order_type volume p sl tp), t, result.
  split; [exact Hs|].
  destruct Hin as [<-|[<-|[<-|[<-|[]]]]]; cbn in Htype; injection Htype as <-;
    (split; [reflexivity|]); (split; [cbn; auto|]); auto.
Qed.

Lemma insert_not_empty (data : gmap string PyVal) key v :
  <[key := v]> data <> ∅.
Proof. apply insert_non_empty. Qed.

Lemma signal_get_insert_ne (data : gmap string PyVal) key v k dflt :
  k <> key -> signal_get (<[key := v]> data) k dflt = signal_get data k dflt.
Proof. intros Hk. unfold signal_get. now rewrite lookup_insert_ne. Qed.

Lemma signal_get_insert (data : gmap string PyVal) key v dflt :
  signal_get (<[key := v]> data) key dflt = v.
Proof. unfold signal_get. now rewrite lookup_insert_eq. Qed.

(** X25: the price of the payload plays no part in a market order: with
    or without it the run of [webhook] is the same, so the order is
    priced from the quote. *)
Theorem webhook_market_ignores_price (initialized : bool)
    (data : gmap string PyVal) (action : string) (v : PyVal) (w : World B) :
  data !! "action" = Some (PStr action) ->
  mem (upper action) market_actions = true ->
  webhook mt5 float_of_str initialized (JsonObject (<["price" := v]> data)) w
  = webhook mt5 float_of_str initialized (JsonObject data) w.
Proof.
  intros Haction Hmarket. unfold webhook.
  destruct (decide (<["price" := v]> data = ∅)) as [E|_];
    [now apply insert_not_empty in E|].
  destruct (decide (data = ∅)) as [->|_]; [now rewrite lookup_empty in Haction|].
  rewrite !(signal_get_insert_ne data "price" v) by discriminate.
  assert (Hget : forall dflt, signal_get data "action" dflt = PStr action).
  { intros dflt. unfold signal_get. now rewrite Haction. }
  rewrite !Hget, Hmarket. reflexivity.
Qed.

(** X26: [webhook] reads the action without regard to case, and takes
    [LONG] for [BUY] and [SHORT] for [SELL]: two payloads that differ
    only in such spellings of a market, pending or close action have the
    same run. *)
Theorem webhook_action_spelling (initialized : bool) (data : gmap string PyVal)
    (a a' : string) (w : World B) :
  mem (upper a) ["BUY"; "LONG"] = true /\ mem (upper a') ["BUY"; "LONG"] = true
  \/ mem (upper a) ["SELL"; "SHORT"] = true /\ mem (upper a') ["SELL"; "SHORT"] = true
  \/ upper a = upper a'
     /\ (mem (upper a) pending_actions = true \/ upper a = "CLOSE") ->
  webhook mt5 float_of_str initialized (JsonObject (<["action" := PStr a]> data)) w
  = webhook mt5 float_of_str initialized (JsonObject (<["action" := PStr a']> data)) w.
Proof.
  intros H. unfold webhook.
  destruct (decide (<["action" := PStr a]> data = ∅)) as [E|_];
    [now apply insert_not_empty in E|].
  destruct (decide (<["action" := PStr a']> data = ∅)) as [E|_];
    [now apply insert_not_empty in E|].
  rewrite !signal_get_insert.
  rewrite !(signal_get_insert_ne data "action") by discriminate.
  assert (Hlist : forall x l, mem x l = true -> In x l) by (intros; now apply mem_In).
  destruct H as [[H1 H2] | [[H1 H2] | [Heq [H1 | H1]]]].
  - apply Hlist in H1, H2.
    destruct H1 as [<-|[<-|[]]]; destruct H2 as [<-|[<-|[]]]; reflexivity.
  - apply Hlist in H1, H2.
    destruct H1 as [<-|[<-|[]]]; destruct H2 as [<-|[<-|[]]]; reflexivity.
  - rewrite <- Heq. apply Hlist in H1.
    destruct H1 as [<-|[<-|[<-|[<-|[]]]]]; reflexivity.
  - rewrite <- Heq, H1. reflexivity.
Qed.

(** X27: every signal that [webhook] hands to [send_order] names an action
    that [send_order] recognizes: a market order arrives as a buy or a
    sell without a price, a pending order as one of the four limit and
    stop orders with a price. The branch of [send_order] for an
    unsupported action is out of reach of the webhook. *)
Theorem webhook_signals_recognized (initialized : bool) (body : Json) (w : World B) :
  exists status message w',
    webhook mt5 float_of_str initialized body w = (Ret (status, message), w')
    /\ match message with
       | MarketPlaced | MarketFailed =>
           exists signal ok order_type,
             send_order mt5 float_of_str signal w = (Ret ok, w')
             /\ order_type_of (signal_get signal "action" PNone) = Some order_type
             /\ In order_type [ORDER_TYPE_BUY; ORDER_TYPE_SELL]
             /\ signal !! "price" = None
       | PendingPlaced | PendingFailed =>
           exists signal ok order_type,
             send_order mt5 float_of_str signal w = (Ret ok, w')
             /\ order_type_of (signal_get signal "action" PNone) = Some order_type
             /\ In order_type [ORDER_TYPE_BUY_LIMIT; ORDER_TYPE_SELL_LIMIT;
                               ORDER_TYPE_BUY_STOP; ORDER_TYPE_SELL_STOP]
             /\ is_Some (signal !! "price")
       | _ => True
       end.
Proof.
  pose proof (webhook_trace mt5 float_of_str initialized body w) as H.
  unfold wp in H.
  destruct (webhook mt5 float_of_str initialized body w) as [[[status message]|] w'];
    [|contradiction].
  exists status, message, w'. split; [reflexivity|].
  unfold returning, webhook_contract in H. cbn [fst snd] in H.
  assert (Hmarket : forall action, In action ["BUY"; "SELL"] ->
            exists order_type,
              order_type_of (PStr action) = Some order_type
              /\ In order_type [ORDER_TYPE_BUY; ORDER_TYPE_SELL]).
  { intros action [<-|[<-|[]]]; eexists; (split; [reflexivity|]); cbn; auto. }
  assert (Hpending : forall action, In action pending_actions ->
            exists order_type,
              order_type_of (PStr action) = Some order_type
              /\ In order_type [ORDER_TYPE_BUY_LIMIT; ORDER_TYPE_SELL_LIMIT;
                                ORDER_TYPE_BUY_STOP; ORDER_TYPE_SELL_STOP]).
  { intros action [<-|[<-|[<-|[<-|[]]]]]; eexists; (split; [reflexivity|]);
      cbn; auto 10. }
  destruct message; try exact I;
    destruct H as (_ & signal & action & Hrun & Haction & Hin & Hprice);
    [apply Hmarket in Hin | apply Hmarket in Hin
     | apply Hpending in Hin | apply Hpending in Hin];
    destruct Hin as (order_type & Htype & Hin);
    exists signal; eexists _, order_type; (split; [exact Hrun|]);
    unfold signal_get; rewrite Haction; cbn [default];
    (split; [exact Htype|]); (split; [exact Hin | exact Hprice]).
Qed.

(** X28: a close that [webhook] reports as executed is a payload with a
    truthy symbol that [map_symbol] mapped to a filter, for which
    [positions_get] answered; one closing request was submitted for each
    of the positions answered, in order (none when the answer was
    [None]), and nothing else: each a deal on the opposite side for the
    symbol, the volume and the ticket of its position, at the bid (to
    sell) or the ask (to buy) of a tick quoted for that symbol. *)
Theorem webhook_close (initialized : bool) (body : Json) (w w' : World B) :
  webhook mt5 float_of_str initialized body w = (Ret (200%Z, CloseExecuted), w') ->
  exists data filter w0 positions (closed : list (TradePosition * Tick)),
    body = JsonObject data
    /\ truthy (signal_get data "symbol" PNone) = true
    /\ map_symbol_value mt5 (signal_get data "symbol" PNone) w = (Ret filter, w0)
    /\ fst (mt5_positions_get mt5 filter (terminal w0)) = Answer positions
    /\ map fst closed = match positions with Some l => l | None => [] end
    /\ submitted w' = (submitted w ++ map closing closed)%list
    /\ Forall (quoted mt5) closed
    /\ Forall (fun c => closes_position (closing c) (fst c) (snd c)) closed.
Proof.
  intros E.
  pose proof (wp_run _ _ _ _ _ E (webhook_trace mt5 float_of_str initialized body w))
    as H.
  destruct H as (_ & data & Hbody & Hsymbol & Hrun).
  pose proof (wp_run _ _ _ _ _ Hrun
                (close_positions_trace mt5 (signal_get data "symbol" PNone) w)) as H.
  destruct H as (closed & Hs & Hq & Hc).
  unfold close_coverage, close_filter in Hc. rewrite Hsymbol in Hc.
  destruct (map_symbol_value mt5 (signal_get data "symbol" PNone) w)
    as [[filter|] w0] eqn:Hmap; [|now destruct Hc].
  destruct (fst (mt5_positions_get mt5 filter (terminal w0)))
    as [positions|] eqn:Hget; [|now destruct Hc].
  exists data, filter, w0, positions, closed.
  split; [exact Hbody|]. split; [exact Hsymbol|]. split; [exact Hmap|].
  split; [exact Hget|]. split; [|split; [exact Hs|split; [exact Hq|]]].
  - destruct positions as [positions|].
    + destruct Hc as (rest & Hpos & Hrest).
      rewrite (Hrest eq_refl), app_nil_r in Hpos. now symmetry.
    + destruct Hc as [-> _]. reflexivity.
  - apply Forall_forall. intros c _. apply closing_closes.
Qed.

End WebhookOrders.

(** ** The further properties at the scenario of the specification *)

(** ["EURUSD"] is in the universe as it stands. *)
Lemma map_symbol_exact_witness :
  fst (map_symbol Script.mt5 "EURUSD" (Script.world Script.live)) = Ret "EURUSD".
Proof.
  rewrite (map_symbol_exact Script.mt5 "EURUSD" (Script.world Script.live)
             eq_refl eq_refl (or_intror (or_introl eq_refl))).
  reflexivity.
Defined.

(** ["eurusd"] against the member ["EURUSD"]. *)
Lemma map_symbol_case_insensitive_witness :
  exists r w',
    map_symbol Script.mt5 "eurusd" (Script.world Script.live) = (Ret r, w')
    /\ In r Script.universe
    /\ upper r = "EURUSD"
    /\ symbol_cache w' = <["eurusd" := r]> ∅
    /\ calls w' = [] /\ terminal w' = Script.live.
Proof.
  apply (map_symbol_case_insensitive Script.mt5 "eurusd" (Script.world Script.live)
           "EURUSD" eq_refl eq_refl (or_intror (or_introl eq_refl)) eq_refl).
Defined.

(** Two spaces resolve to a broker symbol. *)
Lemma map_symbol_blank_witness :
  exists r w',
    map_symbol Script.mt5 "  " (Script.world Script.live) = (Ret r, w')
    /\ In r Script.universe
    /\ symbol_cache w' = <["" := r]> ∅
    /\ calls w' = [].
Proof.
  apply (map_symbol_blank Script.mt5 "  " (Script.world Script.live)
           eq_refl eq_refl eq_refl).
  discriminate.
Defined.

(** A handler that was never connected, at a terminal that lists no
    symbol. *)
Lemma map_symbol_without_universe_witness :
  let silent :=
    {| Script.t_symbols := Answer None;
       Script.t_tick := fun _ => Answer None;
       Script.t_send := fun _ => Answer None;
       Script.t_positions := Answer None |} in
  exists w',
    map_symbol Script.mt5 "XAUUSD" (Script.offline silent) = (Ret "XAUUSD", w')
    /\ symbol_cache w' = <["XAUUSD" := "XAUUSD"]> ∅
    /\ broker_symbols w' = []
    /\ calls w' = [CSymbolsGet]
    /\ last (logs w') = Some WarnNoBrokerSymbols.
Proof.
  intros silent.
  apply (map_symbol_without_universe Script.mt5 "XAUUSD" (Script.offline silent)
           eq_refl eq_refl eq_refl).
  intros symbols H. discriminate H.
Defined.

(** A cache cleared, then ["XAUUSD"] resolved. *)
Lemma resolve_after_clear_witness :
  exists r w',
    map_symbol Script.mt5 "XAUUSD"
      (snd (clear_symbol_cache (Script.world Script.live))) = (Ret r, w')
    /\ symbol_cache w' = {[ "XAUUSD" := r ]}
    /\ get_cache_stats w'
       = (Ret (1%nat, length (broker_symbols w'), {[ "XAUUSD" := r ]}), w')
    /\ (In r (broker_symbols w') \/ r = "XAUUSD").
Proof.
  apply (resolve_after_clear Script.mt5 "XAUUSD" (Script.world Script.live) eq_refl).
Defined.

(** The market buy of the specification is answered [True]. *)
Lemma send_order_true_is_done_witness :
  let w' := snd (send_order Script.mt5 Script.no_parse Script.buy_eurusd
                   (Script.world Script.live)) in
  exists request t result,
    submitted w' = [request]
    /\ mt5_order_send Script.mt5 request t = (Answer (Some result), terminal w')
    /\ retcode result = TRADE_RETCODE_DONE
    /\ last (logs w') = Some (InfoOrderSuccess (res_order result)).
Proof.
  apply (send_order_true_is_done Script.mt5 Script.no_parse Script.buy_eurusd
           (Script.world Script.live)).
  vm_compute. reflexivity.
Defined.

(** A buy of EURUSD at the price 1.5: the submission follows the two
    calls of [verify_symbol] and [map_symbol]'s none. *)
Lemma send_order_explicit_price_witness :
  let signal : Signal :=
    {[ "action" := PStr "BUY"; "symbol" := PStr "EURUSD"; "price" := PFloat 1.5 ]} in
  exists request,
    calls (snd (send_order Script.mt5 Script.no_parse signal
                  (Script.world Script.live)))
    = [CSymbolInfo (PStr "EURUSD"); COrderSend request]
    /\ req_price request = 1.5%float
    /\ req_symbol request = PStr "EURUSD"
    /\ req_type request = ORDER_TYPE_BUY
    /\ req_volume request = 0.1%float.
Proof.
  intros signal.
  set (w := Script.world Script.live).
  set (w0 := snd (map_symbol_value Script.mt5 (PStr "EURUSD") w)).
  set (w1 := snd (verify_symbol Script.mt5 (PStr "EURUSD") w0)).
  assert (Hgates : passes_gates Script.mt5 Script.no_parse signal w
                     (PStr "EURUSD") ORDER_TYPE_BUY 1.5 0 0 w1).
  { repeat split. exists w0. split; reflexivity. }
  exact (send_order_explicit_price Script.mt5 Script.no_parse signal w
           (PStr "EURUSD") ORDER_TYPE_BUY 0.1 1.5 0 0 w1 Hgates eq_refl eq_refl).
Defined.

(** A signal whose symbol is the number 5. *)
Lemma send_order_bad_signal_witness :
  let signal : Signal := {[ "action" := PStr "BUY"; "symbol" := PInt 5 ]} in
  send_order Script.mt5 Script.no_parse signal (Script.world Script.live)
  = (Ret false, add_log ErrException (Script.world Script.live)).
Proof.
  intros signal.
  apply (send_order_bad_signal Script.mt5 Script.no_parse signal
           (Script.world Script.live) eq_refl).
  do 4 right. split; [reflexivity|]. intros s H. discriminate H.
Defined.

(** [" EURUSD "] and ["EURUSD"]. *)
Lemma map_symbol_strips_witness :
  map_symbol Script.mt5 " EURUSD " (Script.world Script.live)
  = map_symbol Script.mt5 "EURUSD" (Script.world Script.live).
Proof.
  apply (map_symbol_strips Script.mt5 " EURUSD " (Script.world Script.live) eq_refl).
Defined.

(** ["XAUUSDm.pro"] is ASCII; its normal form has seven characters. *)
Lemma normalize_case_and_length_witness :
  normalize (upper "XAUUSDm.pro") = normalize "XAUUSDm.pro"
  /\ all_chars is_AZ09 (normalize "XAUUSDm.pro") = true
  /\ (String.length (normalize "XAUUSDm.pro") <= 11)%nat.
Proof.
  apply (normalize_case_and_length "XAUUSDm.pro"). reflexivity.
Defined.

(** ["XAUUSD"] is settled by the third strategy: no member has its upper
    case, and ["XAUUSDm"] its normal form. *)
Lemma cheap_strategies_sound_witness :
  In "XAUUSDm" Script.universe
  /\ normalize "XAUUSDm" = normalize "XAUUSD"
  /\ forall s, In s Script.universe -> upper s <> upper "XAUUSD".
Proof.
  apply (cheap_strategies_sound "XAUUSD" Script.universe NormalizedMatch "XAUUSDm").
  vm_compute. reflexivity.
Defined.

(** A market order through the webhook: [buy] of 0.1 EURUSD. *)
Lemma webhook_market_order_witness :
  let body :=
    JsonObject {[ "action" := PStr "buy"; "symbol" := PStr "EURUSD";
                  "volume" := PFloat 0.1 ]} in
  let w' := snd (webhook Script.mt5 Script.no_parse true body
                   (Script.world Script.live)) in
  exists request tick t0 t result,
    submitted w' = [request]
    /\ req_action request = TRADE_ACTION_DEAL
    /\ (req_type request = ORDER_TYPE_BUY /\ req_price request = ask tick
        \/ req_type request = ORDER_TYPE_SELL /\ req_price request = bid tick)
    /\ fst (mt5_symbol_info_tick Script.mt5 (req_symbol request) t0)
       = Answer (Some tick)
    /\ mt5_order_send Script.mt5 request t = (Answer (Some result), terminal w')
    /\ retcode result = TRADE_RETCODE_DONE.
Proof.
  intros body w'.
  apply (webhook_market_order Script.mt5 Script.no_parse true body
           (Script.world Script.live) w').
  vm_compute. reflexivity.
Defined.

(** A pending order through the webhook: [buy_limit] at 1.05. *)
Lemma webhook_pending_order_witness :
  let body :=
    JsonObject {[ "action" := PStr "buy_limit"; "symbol" := PStr "EURUSD";
                  "volume" := PFloat 0.1; "price" := PFloat 1.05 ]} in
  let w' := snd (webhook Script.mt5 Script.no_parse true body
                   (Script.world Script.live)) in
  exists request t result,
    submitted w' = [request]
    /\ req_action request = TRADE_ACTION_PENDING
    /\ In (req_type request)
          [ORDER_TYPE_BUY_LIMIT; ORDER_TYPE_SELL_LIMIT;
           ORDER_TYPE_BUY_STOP; ORDER_TYPE_SELL_STOP]
    /\ mt5_order_send Script.mt5 request t = (Answer (Some result), terminal w')
    /\ retcode result = TRADE_RETCODE_DONE.
Proof.
  intros body w'.
  apply (webhook_pending_order Script.mt5 Script.no_parse true body
           (Script.world Script.live) w').
  vm_compute. reflexivity.
Defined.

(** The same market order with and without a price of 999. *)
Lemma webhook_market_ignores_price_witness :
  let data : gmap string PyVal :=
    {[ "action" := PStr "buy"; "symbol" := PStr "EURUSD"; "volume" := PFloat 0.1 ]} in
  webhook Script.mt5 Script.no_parse true (JsonObject (<["price" := PInt 999]> data))
    (Script.world Script.live)
  = webhook Script.mt5 Script.no_parse true (JsonObject data) (Script.world Script.live).
Proof.
  intros data.
  apply (webhook_market_ignores_price Script.mt5 Script.no_parse true data "buy"
           (PInt 999) (Script.world Script.live)); reflexivity.
Defined.

(** [long] and [Buy]. *)
Lemma webhook_action_spelling_witness :
  let data : gmap string PyVal :=
    {[ "symbol" := PStr "EURUSD"; "volume" := PFloat 0.1 ]} in
  webhook Script.mt5 Script.no_parse true
    (JsonObject (<["action" := PStr "long"]> data)) (Script.world Script.live)
  = webhook Script.mt5 Script.no_parse true
      (JsonObject (<["action" := PStr "Buy"]> data)) (Script.world Script.live).
Proof.
  intros data.
  apply (webhook_action_spelling Script.mt5 Script.no_parse true data "long" "Buy"
           (Script.world Script.live)).
  left. split; reflexivity.
Defined.

(** A close through the webhook with three positions open, of which the
    broker rejects the second: three closing requests. *)
Lemma webhook_close_witness :
  let data : gmap string PyVal :=
    {[ "action" := PStr "close"; "symbol" := PStr "EURUSD"; "volume" := PInt 1 ]} in
  let w := Script.world Script.rejecting in
  let w' := snd (webhook Script.mt5 Script.no_parse true (JsonObject data) w) in
  exists data' filter w0 positions (closed : list (TradePosition * Tick)),
    JsonObject data = JsonObject data'
    /\ truthy (signal_get data' "symbol" PNone) = true
    /\ map_symbol_value Script.mt5 (signal_get data' "symbol" PNone) w
       = (Ret filter, w0)
    /\ fst (mt5_positions_get Script.mt5 filter (terminal w0)) = Answer positions
    /\ map fst closed = match positions with Some l => l | None => [] end
    /\ submitted w' = (submitted w ++ map closing closed)%list
    /\ Forall (quoted Script.mt5) closed
    /\ Forall (fun c => closes_position (closing c) (fst c) (snd c)) closed.
Proof.
  intros data w w'.
  apply (webhook_close Script.mt5 Script.no_parse true (JsonObject data) w w').
  vm_compute. reflexivity.
Defined.
